(** * weaviate-agent: query routing, tiered retrieval, template answers, analytics

    A shallow embedding of the JavaScript sources

      - src/agents/delegatingAgent.js   (DelegatingAgent, and the "CLEANED
        VERSION" of RAGAgent that the same file carries),
      - src/agents/ragAgent.js          (RAGAgent, "UPDATED VERSION"),
      - src/unnamed/part_001            (ChartTool),
      - src/server.js                   (the route POST /query),

    together with the properties the specification states about them, and
    with further properties read off the code.

    Conventions of the embedding.

      - A JavaScript string is a [string]: one [ascii] per code unit, so the
        strings covered are those whose code units are below 256.  Literals
        of the source that contain an emoji are carried as their UTF-8
        bytes; nothing below depends on their length.
      - A thrown value is an error object with an optional [message] and an
        optional [code].
      - JavaScript numbers that are counts are [nat]; the fractional numbers
        of the analytics are rationals ([Q]), every finite double being
        one.  The sums, products and quotients of the averages are rounded
        by the host: its arithmetic is a member of the [World].
      - Every call that leaves the process (language model, GraphQL
        endpoint, object getter) is answered by a [World], and is recorded
        in a trace, so that "is not attempted" is a statement on the trace.
      - An object literal used as a counting map of labels is the list of
        its own properties in the order of their creation, read and
        written as a plain object is: a label that names a member of
        [Object.prototype] reads as that member, and [Object.keys] lists
        array indices first. *)

From Stdlib Require Import String Ascii List ZArith QArith Lia Bool Arith.
From Stdlib Require Import DecimalString Qround Qabs Btauto.
From Stdlib Require Import Sorted Permutation.
Import ListNotations.

Close Scope Q_scope.
Local Open Scope string_scope.
Local Open Scope nat_scope.

Set Implicit Arguments.

(* ------------------------------------------------------------------------- *)
(** ** JavaScript strings *)
(* ------------------------------------------------------------------------- *)

Module JsString.

(** The double quote and the line feed, which the source writes inside
    its literals. *)
Definition dq : string := String (ascii_of_nat 34) EmptyString.
Definition nl : string := String (ascii_of_nat 10) EmptyString.

(** [String.prototype.toLowerCase] on code units below 256: A-Z and the
    upper-case letters of the Latin-1 supplement (all of 0xC0-0xDE but the
    multiplication sign 0xD7) move up by 32. *)
Definition lower_char (c : ascii) : ascii :=
  let n := nat_of_ascii c in
  if ((65 <=? n) && (n <=? 90))
     || ((192 <=? n) && (n <=? 222) && negb (n =? 215))
  then ascii_of_nat (n + 32)
  else c.

Fixpoint toLowerCase (s : string) : string :=
  match s with
  | EmptyString => EmptyString
  | String c s' => String (lower_char c) (toLowerCase s')
  end.

(** The class [\s] of regular expressions, which is also what [trim]
    removes: TAB, LF, VT, FF, CR, SPACE and NBSP. *)
Definition is_ws (c : ascii) : bool :=
  let n := nat_of_ascii c in
  ((9 <=? n) && (n <=? 13)) || (n =? 32) || (n =? 160).

Fixpoint trimStart (s : string) : string :=
  match s with
  | EmptyString => EmptyString
  | String c s' => if is_ws c then trimStart s' else s
  end.

Fixpoint trimEnd (s : string) : string :=
  match s with
  | EmptyString => EmptyString
  | String c s' =>
      match trimEnd s' with
      | EmptyString => if is_ws c then EmptyString else String c EmptyString
      | t => String c t
      end
  end.

Definition trim (s : string) : string := trimEnd (trimStart s).

(** [hay.includes(needle)] *)
Fixpoint includes (needle hay : string) : bool :=
  prefix needle hay
  || match hay with
     | EmptyString => false
     | String _ hay' => includes needle hay'
     end.

(** [s.split(/\s+/)]: every maximal run of white space is one separator;
    a separator at either end leaves an empty token there. *)
Fixpoint splitWs_go (prev_ws : bool) (s : string) : list string :=
  match s with
  | EmptyString => [EmptyString]
  | String c s' =>
      if is_ws c then
        if prev_ws then splitWs_go true s'
        else EmptyString :: splitWs_go true s'
      else
        match splitWs_go false s' with
        | tok :: rest => String c tok :: rest
        | [] => [String c EmptyString]
        end
  end.

Definition splitWs (s : string) : list string := splitWs_go false s.

(** [s.substring(0, n)] *)
Definition substring0 (n : nat) (s : string) : string := substring 0 n s.

(** A count inside a template literal. *)
Definition ofNat (n : nat) : string := NilEmpty.string_of_uint (Nat.to_uint n).

(** Does the string hold a character that [trim] keeps? *)
Fixpoint hasInk (s : string) : bool :=
  match s with
  | EmptyString => false
  | String c s' => negb (is_ws c) || hasInk s'
  end.

(** An answer that is empty or has something for [trim] to keep. *)
Definition inked (s : string) : Prop := s = EmptyString \/ hasInk s = true.

(** The two braces. *)
Definition openBrace : string := String (ascii_of_nat 123) EmptyString.
Definition closeBrace : string := String (ascii_of_nat 125) EmptyString.

(** Does the string hold the code unit [n]? *)
Fixpoint hasChar (n : nat) (s : string) : bool :=
  match s with
  | EmptyString => false
  | String c s' => (nat_of_ascii c =? n) || hasChar n s'
  end.

(** Does the string hold white space? *)
Fixpoint hasWs (s : string) : bool :=
  match s with
  | EmptyString => false
  | String c s' => is_ws c || hasWs s'
  end.

(** The last code unit is one that [trim] keeps. *)
Fixpoint endsWithInk (s : string) : bool :=
  match s with
  | EmptyString => false
  | String c EmptyString => negb (is_ws c)
  | String _ s' => endsWithInk s'
  end.

End JsString.

Import JsString.

(* ------------------------------------------------------------------------- *)
(** ** JSON values and [JSON.parse] *)
(* ------------------------------------------------------------------------- *)

Module Json.

(** A decoded string is a list of code units: an escape [\uXXXX] can name
    any of the 65536.  A number keeps its sign, its digits and its decimal
    exponent: it stands for [mantissa * 10 ^ exp10]. *)
#[local] Unset Elimination Schemes.
Inductive value : Type :=
| Null
| Bool (b : bool)
| Num (neg : bool) (mantissa : N) (exp10 : Z)
| Str (s : list N)
| Arr (elements : list value)
| Obj (members : list (list N * value)).
#[local] Set Elimination Schemes.

Definition codes (s : string) : list N :=
  map N_of_ascii (list_ascii_of_string s).

Definition codes_eqb (a b : list N) : bool :=
  if list_eq_dec N.eq_dec a b then true else false.

(** [o[key]] on a decoded object: the last member of that name wins, and
    a name that is not there reads as [undefined] ([None]). *)
Fixpoint lookup (key : list N) (members : list (list N * value))
  : option value :=
  match members with
  | [] => None
  | (k, v) :: rest =>
      match lookup key rest with
      | Some v' => Some v'
      | None => if codes_eqb k key then Some v else None
      end
  end.

Definition get (key : string) (v : value) : option value :=
  match v with
  | Obj members => lookup (codes key) members
  | _ => None
  end.

(** A number literal is falsy when the double nearest to it is zero, that
    is when its magnitude is at most [2 ^ -1075]. *)
Definition num_nonzero (mantissa : N) (exp10 : Z) : bool :=
  if (mantissa =? 0)%N then false
  else if (0 <=? exp10)%Z then true
  else (10 ^ (- exp10) <? Z.of_N mantissa * 2 ^ 1075)%Z.

(** [ToBoolean], with [None] for [undefined]. *)
Definition truthy (v : option value) : bool :=
  match v with
  | None => false
  | Some Null => false
  | Some (Bool b) => b
  | Some (Num _ m e) => num_nonzero m e
  | Some (Str s) => match s with [] => false | _ => true end
  | Some (Arr _) => true
  | Some (Obj _) => true
  end.

(** *** The parser *)

Definition is_json_ws (c : ascii) : bool :=
  let n := nat_of_ascii c in
  (n =? 32) || (n =? 9) || (n =? 10) || (n =? 13).

Fixpoint skip_ws (s : string) : string :=
  match s with
  | EmptyString => EmptyString
  | String c s' => if is_json_ws c then skip_ws s' else s
  end.

Definition digit (c : ascii) : option N :=
  let n := N_of_ascii c in
  if ((48 <=? n) && (n <=? 57))%N then Some (n - 48)%N else None.

Definition hex (c : ascii) : option N :=
  let n := N_of_ascii c in
  if ((48 <=? n) && (n <=? 57))%N then Some (n - 48)%N
  else if ((65 <=? n) && (n <=? 70))%N then Some (n - 55)%N
  else if ((97 <=? n) && (n <=? 102))%N then Some (n - 87)%N
  else None.

(** The one-letter escapes. *)
Definition simple_escape (c : ascii) : option N :=
  let n := N_of_ascii c in
  if (n =? 34)%N then Some 34%N          (* quote *)
  else if (n =? 92)%N then Some 92%N     (* backslash *)
  else if (n =? 47)%N then Some 47%N     (* slash *)
  else if (n =? 98)%N then Some 8%N      (* b *)
  else if (n =? 102)%N then Some 12%N    (* f *)
  else if (n =? 110)%N then Some 10%N    (* n *)
  else if (n =? 114)%N then Some 13%N    (* r *)
  else if (n =? 116)%N then Some 9%N     (* t *)
  else None.

Definition hex4 (a b c d : ascii) : option N :=
  match hex a, hex b, hex c, hex d with
  | Some x, Some y, Some z, Some w =>
      Some (((x * 16 + y) * 16 + z) * 16 + w)%N
  | _, _, _, _ => None
  end.

Definition cons_fst {A B : Type} (a : A) (r : option (list A * B))
  : option (list A * B) :=
  match r with
  | Some (l, b) => Some (a :: l, b)
  | None => None
  end.

(** What follows an opening quote, up to and including the closing one. *)
Fixpoint string_body (s : string) : option (list N * string) :=
  match s with
  | EmptyString => None
  | String c s1 =>
      let n := N_of_ascii c in
      if (n =? 34)%N then Some ([], s1)
      else if (n =? 92)%N then
        match s1 with
        | EmptyString => None
        | String e s2 =>
            match simple_escape e with
            | Some u => cons_fst u (string_body s2)
            | None =>
                if (N_of_ascii e =? 117)%N then
                  match s2 with
                  | String h1 (String h2 (String h3 (String h4 s3))) =>
                      match hex4 h1 h2 h3 h4 with
                      | Some u => cons_fst u (string_body s3)
                      | None => None
                      end
                  | _ => None
                  end
                else None
            end
        end
      else if (n <? 32)%N then None
      else cons_fst n (string_body s1)
  end.

(** A maximal run of decimal digits, most significant first. *)
Fixpoint digits (s : string) : list N * string :=
  match s with
  | EmptyString => ([], EmptyString)
  | String c s' =>
      match digit c with
      | Some d => let (ds, rest) := digits s' in (d :: ds, rest)
      | None => ([], s)
      end
  end.

Definition of_digits (ds : list N) : N :=
  fold_left (fun acc d => (acc * 10 + d)%N) ds 0%N.

(** An optional minus sign; an integer part that is a lone zero or begins
    with a non-zero digit; an optional fraction of at least one digit; an
    optional exponent, signed or not, of at least one digit. *)
Definition number (s : string) : option (value * string) :=
  let (neg, s1) :=
    match s with
    | String c s' => if (N_of_ascii c =? 45)%N then (true, s') else (false, s)
    | EmptyString => (false, s)
    end in
  let (int_ds, s2) := digits s1 in
  match int_ds with
  | [] => None
  | d0 :: more =>
      if ((d0 =? 0)%N && match more with [] => false | _ => true end)
      then None
      else
        let frac :=
          match s2 with
          | String c s' =>
              if (N_of_ascii c =? 46)%N then
                let (fr, s3) := digits s' in
                match fr with
                | [] => None
                | _ => Some (fr, s3)
                end
              else Some ([], s2)
          | EmptyString => Some ([], s2)
          end in
        match frac with
        | None => None
        | Some (frac_ds, s3) =>
            let expo :=
              match s3 with
              | String c s' =>
                  if ((N_of_ascii c =? 101) || (N_of_ascii c =? 69))%N then
                    let (minus, s4) :=
                      match s' with
                      | String g s'' =>
                          if (N_of_ascii g =? 45)%N then (true, s'')
                          else if (N_of_ascii g =? 43)%N then (false, s'')
                          else (false, s')
                      | EmptyString => (false, s')
                      end in
                    let (ex, s5) := digits s4 in
                    match ex with
                    | [] => None
                    | _ =>
                        let e := Z.of_N (of_digits ex) in
                        Some ((if minus then - e else e)%Z, s5)
                    end
                  else Some (0%Z, s3)
              | EmptyString => Some (0%Z, s3)
              end in
            match expo with
            | None => None
            | Some (e, s5) =>
                Some (Num neg (of_digits (int_ds ++ frac_ds)%list)
                          (e - Z.of_nat (List.length frac_ds))%Z, s5)
            end
        end
  end.

Definition expect (lit : string) (v : value) (s : string)
  : option (value * string) :=
  if prefix lit s
  then Some (v, substring (String.length lit)
                          (String.length s - String.length lit) s)
  else None.

(** One value, after optional white space; then the rest of an array
    after its opening bracket, and of an object after its opening brace.
    The fuel bounds the number of nested calls; [parse] gives more than
    a text of that length can use. *)
Fixpoint parse_value (fuel : nat) (s : string) : option (value * string) :=
  match fuel with
  | 0 => None
  | S fuel' =>
      match skip_ws s with
      | EmptyString => None
      | String c rest as s0 =>
          let n := N_of_ascii c in
          if (n =? 123)%N then          (* { *)
            match skip_ws rest with
            | String c1 rest1 as s1 =>
                if (N_of_ascii c1 =? 125)%N then Some (Obj [], rest1)
                else match parse_members fuel' s1 with
                     | Some (ms, r) => Some (Obj ms, r)
                     | None => None
                     end
            | EmptyString => None
            end
          else if (n =? 91)%N then      (* [ *)
            match skip_ws rest with
            | String c1 rest1 as s1 =>
                if (N_of_ascii c1 =? 93)%N then Some (Arr [], rest1)
                else match parse_elements fuel' s1 with
                     | Some (es, r) => Some (Arr es, r)
                     | None => None
                     end
            | EmptyString => None
            end
          else if (n =? 34)%N then      (* quote *)
            match string_body rest with
            | Some (str, r) => Some (Str str, r)
            | None => None
            end
          else if (n =? 116)%N then expect "true" (Bool true) s0
          else if (n =? 102)%N then expect "false" (Bool false) s0
          else if (n =? 110)%N then expect "null" Null s0
          else number s0
      end
  end

with parse_elements (fuel : nat) (s : string)
  : option (list value * string) :=
  match fuel with
  | 0 => None
  | S fuel' =>
      match parse_value fuel' s with
      | None => None
      | Some (v, r) =>
          match skip_ws r with
          | String c r1 =>
              if (N_of_ascii c =? 93)%N then Some ([v], r1)      (* ] *)
              else if (N_of_ascii c =? 44)%N then                (* , *)
                cons_fst v (parse_elements fuel' r1)
              else None
          | EmptyString => None
          end
      end
  end

with parse_members (fuel : nat) (s : string)
  : option (list (list N * value) * string) :=
  match fuel with
  | 0 => None
  | S fuel' =>
      match skip_ws s with
      | String q r0 =>
          if (N_of_ascii q =? 34)%N then
            match string_body r0 with
            | None => None
            | Some (key, r1) =>
                match skip_ws r1 with
                | String colon r2 =>
                    if (N_of_ascii colon =? 58)%N then
                      match parse_value fuel' r2 with
                      | None => None
                      | Some (v, r3) =>
                          match skip_ws r3 with
                          | String c r4 =>
                              if (N_of_ascii c =? 125)%N           (* } *)
                              then Some ([(key, v)], r4)
                              else if (N_of_ascii c =? 44)%N       (* , *)
                              then cons_fst (key, v)
                                     (parse_members fuel' r4)
                              else None
                          | EmptyString => None
                          end
                      end
                    else None
                | EmptyString => None
                end
            end
          else None
      | EmptyString => None
      end
  end.

(** [JSON.parse text]; [None] stands for the [SyntaxError] it throws. *)
Definition parse (text : string) : option value :=
  match parse_value (2 * String.length text + 2) text with
  | Some (v, rest) =>
      match skip_ws rest with
      | EmptyString => Some v
      | _ => None
      end
  | None => None
  end.

End Json.

(* ------------------------------------------------------------------------- *)
(** ** Regular expressions *)
(* ------------------------------------------------------------------------- *)

Module Regex.

(** The fragment the source uses: literals, [.], concatenation,
    alternation and the star, matched through derivatives. *)
Inductive re : Type :=
| Empty
| Eps
| Chr (p : ascii -> bool)
| Seq (a b : re)
| Alt (a b : re)
| Star (a : re).

Fixpoint Lit (s : string) : re :=
  match s with
  | EmptyString => Eps
  | String c s' => Seq (Chr (Ascii.eqb c)) (Lit s')
  end.

(** [.] matches every code unit but the line terminators LF and CR. *)
Definition Dot : re :=
  Chr (fun c => negb ((nat_of_ascii c =? 10) || (nat_of_ascii c =? 13))).

Definition Alts (l : list re) : re := fold_right Alt Empty l.

(** What a pattern matches, whole. *)
Inductive matches : re -> string -> Prop :=
| MEps : matches Eps EmptyString
| MChr (p : ascii -> bool) (c : ascii) :
    p c = true -> matches (Chr p) (String c EmptyString)
| MSeq (a b : re) (s t : string) :
    matches a s -> matches b t -> matches (Seq a b) (s ++ t)
| MAltL (a b : re) (s : string) : matches a s -> matches (Alt a b) s
| MAltR (a b : re) (s : string) : matches b s -> matches (Alt a b) s
| MStar0 (a : re) : matches (Star a) EmptyString
| MStarS (a : re) (s t : string) :
    matches a s -> matches (Star a) t -> matches (Star a) (s ++ t).

Fixpoint nullable (r : re) : bool :=
  match r with
  | Empty => false
  | Eps => true
  | Chr _ => false
  | Seq a b => nullable a && nullable b
  | Alt a b => nullable a || nullable b
  | Star _ => true
  end.

Definition seq (a b : re) : re :=
  match a, b with
  | Empty, _ => Empty
  | _, Empty => Empty
  | Eps, _ => b
  | _, _ => Seq a b
  end.

Definition alt (a b : re) : re :=
  match a, b with
  | Empty, _ => b
  | _, Empty => a
  | _, _ => Alt a b
  end.

Fixpoint deriv (c : ascii) (r : re) : re :=
  match r with
  | Empty => Empty
  | Eps => Empty
  | Chr p => if p c then Eps else Empty
  | Seq a b =>
      alt (seq (deriv c a) b) (if nullable a then deriv c b else Empty)
  | Alt a b => alt (deriv c a) (deriv c b)
  | Star a => seq (deriv c a) (Star a)
  end.

(** Does some prefix of [s] match [r]? *)
Fixpoint matchesPrefix (r : re) (s : string) : bool :=
  nullable r
  || match s with
     | EmptyString => false
     | String c s' => matchesPrefix (deriv c r) s'
     end.

(** [r.test(s)] for a pattern without anchors or flags: a match may start
    anywhere. *)
Fixpoint test (r : re) (s : string) : bool :=
  matchesPrefix r s
  || match s with
     | EmptyString => false
     | String _ s' => test r s'
     end.

End Regex.

(* ------------------------------------------------------------------------- *)
(** ** The data the agents exchange with the outside *)
(* ------------------------------------------------------------------------- *)

(** A thrown value: [new Error(message)], or what a client library rejects
    with. *)
Record JsError : Type := { message : option string; code : option string }.

(** [new Error(msg)], and the [TypeError] the runtime raises. *)
Definition newError (msg : string) : JsError :=
  {| message := Some msg; code := None |}.

Definition typeError (what : string) : JsError :=
  newError ("Cannot read properties of undefined (reading '" ++ what ++ "')").

(** A text property of a stored object, as a query returns it. *)
Inductive Field : Type :=
| Undefined
| Null
| Text (s : string).

(** [f ? .. : ..] *)
Definition fieldTruthy (f : Field) : bool :=
  match f with
  | Text s => negb (s =? "")%string
  | _ => false
  end.

(** [`${f}`] *)
Definition fieldToString (f : Field) : string :=
  match f with
  | Undefined => "undefined"
  | Null => "null"
  | Text s => s
  end.

(** [f || dflt], inside a template literal. *)
Definition fieldOr (f : Field) (dflt : string) : string :=
  match f with
  | Text s => if (s =? "")%string then dflt else s
  | _ => dflt
  end.

(** A support ticket with the properties the agents read.  The two numeric
    properties are absent ([None]) or a number. *)
Record Ticket : Type := {
  ticketId : Field;
  ticketSubject : Field;
  ticketDescription : Field;
  resolution : Field;
  ticketStatus : Field;
  ticketPriority : Field;
  productPurchased : Field;
  firstResponseTime : Field;
  timeToResolution : option Q;
  customerSatisfactionRating : option Q
}.

(** A [where] filter of the store. *)
#[local] Unset Elimination Schemes.
Inductive Where : Type :=
| Equal (path : list string) (valueText : string)
| Like (path : list string) (valueText : string)
| And (operands : list Where)
| Or (operands : list Where).
#[local] Set Elimination Schemes.

(** What the builder [client.graphql.get()] has been given when [do()] is
    called. *)
Record GetQuery : Type := {
  withFields : string;
  withNearText : option string;
  withWhere : option Where;
  withLimit : N
}.

(** What a GraphQL query resolves to: [result.errors] (no member and an
    empty array are the same to the source) and
    [result.data.Get[className]]: the outer [None] is a [data] that cannot
    be read, the inner one a class entry that is missing. *)
Record GqlResult : Type := {
  errors : list (option string);
  data : option (option (list Ticket))
}.

(** [response.content] of the language model: a string, or anything else. *)
Inductive Content : Type :=
| CText (s : string)
| COther.

Inductive Outcome (A : Type) : Type :=
| Resolves (a : A)
| Rejects (e : JsError).

Arguments Resolves {A} a.
Arguments Rejects {A} e.

(** The arithmetic of the host on its numbers, which are doubles: [a + b],
    [a * b] and [a / b], each rounded as the host rounds it, and
    [Math.round]. *)
Record Arithmetic : Type := {
  number_plus : Q -> Q -> Q;
  number_times : Q -> Q -> Q;
  number_over : Q -> Q -> Q;
  number_round : Q -> Q
}.

(** The outside world: the language model, the two query interfaces of the
    store, the host's [Date] (the time value a string parses to, [None]
    for an invalid date, and the offset of local time at a time value) and
    the host's arithmetic. *)
Record World : Type := {
  llm_invoke : string -> Outcome Content;
  graphql_get : GetQuery -> Outcome GqlResult;
  data_getter : Where -> N -> Outcome (option (list Ticket));
  date_parse : string -> option Z;
  local_offset : Z -> Z;
  numbers : Arithmetic
}.

Inductive Call : Type :=
| CallLlm (prompt : string)
| CallGraphql (q : GetQuery)
| CallGetter (w : Where) (limit : N).

(* ------------------------------------------------------------------------- *)
(** ** Asynchronous code: a reader of the world that logs its calls and may
       throw *)
(* ------------------------------------------------------------------------- *)

Inductive Completion (A : Type) : Type :=
| Return (a : A)
| Throw (e : JsError).

Arguments Return {A} a.
Arguments Throw {A} e.

Definition M (A : Type) : Type := World -> list Call -> Completion A * list Call.

Definition ret {A : Type} (a : A) : M A := fun _ tr => (Return a, tr).

Definition throw {A : Type} (e : JsError) : M A := fun _ tr => (Throw e, tr).

Definition bind {A B : Type} (m : M A) (k : A -> M B) : M B :=
  fun w tr =>
    match m w tr with
    | (Return a, tr') => k a w tr'
    | (Throw e, tr') => (Throw e, tr')
    end.

(** [try { m } catch (error) { handler error }] *)
Definition try_catch {A : Type} (m : M A) (handler : JsError -> M A) : M A :=
  fun w tr =>
    match m w tr with
    | (Return a, tr') => (Return a, tr')
    | (Throw e, tr') => handler e w tr'
    end.

Definition await {A : Type} (c : Call) (ask : World -> Outcome A) : M A :=
  fun w tr =>
    match ask w with
    | Resolves a => (Return a, tr ++ [c])%list
    | Rejects e => (Throw e, tr ++ [c])%list
    end.

Definition invoke (prompt : string) : M Content :=
  await (CallLlm prompt) (fun w => llm_invoke w prompt).

Definition graphqlDo (q : GetQuery) : M GqlResult :=
  await (CallGraphql q) (fun w => graphql_get w q).

Definition getterDo (filter : Where) (limit : N) : M (option (list Ticket)) :=
  await (CallGetter filter limit) (fun w => data_getter w filter limit).

(** The host queries that cannot fail are read off the world directly. *)
Definition host {A : Type} (f : World -> A) : M A := fun w tr => (Return (f w), tr).

(** Synchronous code that returns or throws, inside asynchronous code. *)
Definition lift {A : Type} (c : Completion A) : M A := fun _ tr => (c, tr).

(** Running from an empty trace. *)
Definition run {A : Type} (m : M A) (w : World) : Completion A * list Call :=
  m w [].

Declare Scope js_scope.
Delimit Scope js_scope with js.
Notation "x <- m ;; k" := (bind m (fun x => k))
  (at level 61, m at next level, right associativity) : js_scope.
Local Open Scope js_scope.

(* ------------------------------------------------------------------------- *)
(** ** RAGAgent *)
(* ------------------------------------------------------------------------- *)

(** [tenant ? .. : ..] on a tenant that is [null] or a string. *)
Definition tenantGiven (tenant : option string) : option string :=
  match tenant with
  | Some t => if (t =? "")%string then None else Some t
  | None => None
  end.

(** [a.join(sep)] *)
Fixpoint join (sep : string) (l : list string) : string :=
  match l with
  | [] => ""
  | [x] => x
  | x :: rest => x ++ sep ++ join sep rest
  end.

(** [result || []] *)
Definition orEmpty {A : Type} (o : option (list A)) : list A :=
  match o with
  | Some l => l
  | None => []
  end.

Module RAGAgent.

(** *** The answer synthesizer, which the two versions of the class share
        word for word (ragAgent.js:314-427, delegatingAgent.js:969-1082) *)

Record References : Type := {
  ticketIds : list Field;
  fallbackUsed : bool;
  fallbackReason : option string;
  error : option string
}.

Record Result : Type := { answer : string; references : References }.

Definition plainReferences (ids : list Field) : References :=
  {| ticketIds := ids; fallbackUsed := false; fallbackReason := None;
     error := None |}.

Definition ticketFields : string :=
  "ticketId ticketSubject ticketDescription resolution ticketStatus ticketPriority productPurchased".

Definition noTicketsAnswer : string :=
  "I couldn't find any relevant support tickets for your query. Please try rephrasing your question or check if the product name is correct.".

Definition noTicketsFallbackAnswer : string :=
  "I couldn't find any relevant support tickets for your query. This may be due to system limitations. Please try rephrasing your question or contact support directly.".

Definition searchErrorAnswer : string :=
  "I encountered an error while searching for support tickets. Please try again.".

(** The four lines every ticket of the template answer begins with. *)
Definition ticketHead (ticket : Ticket) : string :=
  "**Ticket #" ++ fieldToString (ticketId ticket) ++ "** ("
    ++ fieldOr (ticketPriority ticket) "Unknown" ++ " Priority)" ++ nl
  ++ "**Subject:** " ++ fieldToString (ticketSubject ticket) ++ nl
  ++ "**Product:** " ++ fieldToString (productPurchased ticket) ++ nl
  ++ "**Status:** " ++ fieldToString (ticketStatus ticket) ++ nl.

(** [if (ticket.ticketDescription) { .. }] *)
Definition issueLine (description : Field) : string :=
  match description with
  | Text d =>
      if (d =? "")%string then ""
      else "**Issue:** " ++ substring0 150 d
           ++ (if 150 <? String.length d then "..." else "") ++ nl
  | _ => ""
  end.

(** [if (ticket.resolution) { .. }] *)
Definition resolutionLine (resolution : Field) : string :=
  match resolution with
  | Text r =>
      if (r =? "")%string then ""
      else "**Resolution:** " ++ substring0 200 r
           ++ (if 200 <? String.length r then "..." else "") ++ nl
  | _ => ""
  end.

(** One ticket of the template answer. *)
Definition ticketBlock (ticket : Ticket) : string :=
  ticketHead ticket
  ++ issueLine (ticketDescription ticket)
  ++ resolutionLine (resolution ticket)
  ++ nl.

(** The loop [for (index = 0; index < tickets.length; index++)] with its
    [break]: [total] is [tickets.length], [tickets] what is left from
    [index] on. *)
Fixpoint ticketLoop (total index : nat) (tickets : list Ticket) : string :=
  match tickets with
  | [] => ""
  | ticket :: rest =>
      ticketBlock ticket
      ++ (if 2 <=? index then
            let remaining := total - 3 in
            if 0 <? remaining
            then "... and " ++ ofNat remaining ++ " more similar ticket(s)." ++ nl
            else ""
          else ticketLoop total (S index) rest)
  end.

Definition batteryTips : string :=
  nl ++ "**General Battery Tips:**" ++ nl
  ++ "- Check for iOS/firmware updates" ++ nl
  ++ "- Review battery usage in settings" ++ nl
  ++ "- Consider battery replacement if device is old" ++ nl.

Definition cameraTips : string :=
  nl ++ "**General Camera Tips:**" ++ nl
  ++ "- Ensure sufficient storage space" ++ nl
  ++ "- Check SD card compatibility" ++ nl
  ++ "- Update device firmware" ++ nl.

Definition setupTips : string :=
  nl ++ "**General Setup Tips:**" ++ nl
  ++ "- Follow the quick start guide" ++ nl
  ++ "- Ensure stable internet connection" ++ nl
  ++ "- Check device compatibility" ++ nl.

(** The guidance chosen from the lower-cased query. *)
Definition guidance (queryLower : string) : string :=
  if includes "battery" queryLower then batteryTips
  else if includes "camera" queryLower || includes "recording" queryLower
  then cameraTips
  else if includes "setup" queryLower || includes "install" queryLower
  then setupTips
  else "".

Definition fallbackNote : string :=
  nl ++ "*Note: This response was generated using fallback mode due to temporary service limitations.*".

Definition fallbackHeader (userQuery : string) (count : nat) : string :=
  "Based on your query " ++ dq ++ userQuery ++ dq ++ ", I found "
  ++ ofNat count ++ " relevant support ticket(s):" ++ nl ++ nl.

(** The text of the template answer before [trim]. *)
Definition fallbackText (userQuery : string) (tickets : list Ticket) : string :=
  fallbackHeader userQuery (List.length tickets)
  ++ ticketLoop (List.length tickets) 0 tickets
  ++ guidance (toLowerCase userQuery)
  ++ fallbackNote.

Definition generateFallbackResponse
  (userQuery : string) (tickets : list Ticket) (err : JsError) : Result :=
  match tickets with
  | [] =>
      {| answer := noTicketsFallbackAnswer;
         references := {| ticketIds := []; fallbackUsed := true;
                          fallbackReason := None;
                          error := Some "No tickets found" |} |}
  | _ =>
      {| answer := trim (fallbackText userQuery tickets);
         references :=
           {| ticketIds := map ticketId tickets;
              fallbackUsed := true;
              fallbackReason :=
                Some match message err with
                     | Some m => if (m =? "")%string
                                 then "LLM service unavailable" else m
                     | None => "LLM service unavailable"
                     end;
              error := None |} |}
  end.

Definition ticketContext (ticket : Ticket) : string :=
  nl ++ "Ticket ID: " ++ fieldToString (ticketId ticket) ++ nl
  ++ "Subject: " ++ fieldToString (ticketSubject ticket) ++ nl
  ++ "Description: " ++ fieldToString (ticketDescription ticket) ++ nl
  ++ "Resolution: " ++ fieldOr (resolution ticket) "No resolution provided" ++ nl
  ++ "Status: " ++ fieldToString (ticketStatus ticket) ++ nl
  ++ "Priority: " ++ fieldToString (ticketPriority ticket) ++ nl
  ++ "Product: " ++ fieldToString (productPurchased ticket) ++ nl.

Definition answerPrompt (userQuery : string) (tickets : list Ticket) : string :=
  "You are a helpful customer support assistant. Based on the following support tickets, provide a comprehensive answer to the user's query."
  ++ nl ++ nl
  ++ "User Query: " ++ dq ++ userQuery ++ dq ++ nl ++ nl
  ++ "Relevant Support Tickets:" ++ nl
  ++ join (nl ++ "---" ++ nl) (map ticketContext tickets) ++ nl ++ nl
  ++ "Instructions:" ++ nl
  ++ "1. Provide a clear, helpful answer based on the ticket information" ++ nl
  ++ "2. If multiple tickets are relevant, synthesize the information" ++ nl
  ++ "3. Mention specific ticket IDs when referencing solutions" ++ nl
  ++ "4. If no direct solution exists, suggest next steps" ++ nl
  ++ "5. Keep the response concise but informative" ++ nl ++ nl
  ++ "Answer:".

Definition generateResponse (userQuery : string) (tickets : list Ticket)
  : M Result :=
  match tickets with
  | [] =>
      ret {| answer := noTicketsAnswer; references := plainReferences [] |}
  | _ =>
      try_catch
        (response <- invoke (answerPrompt userQuery tickets) ;;
         match response with
         | CText content =>
             ret {| answer := trim content;
                    references := plainReferences (map ticketId tickets) |}
         | COther => throw (newError "response.content.trim is not a function")
         end)
        (fun err => ret (generateFallbackResponse userQuery tickets err))
  end.

(** What a [try] block or its handler ends with: a value, or the promise of
    another method handed back without being awaited, whose rejection the
    handlers around it do not see. *)
Inductive Ending (A : Type) : Type :=
| Value (a : A)
| Delegate.

Arguments Value {A} a.
Arguments Delegate {A}.

Definition tenantEquals (t : string) : Where := Equal ["productPurchased"] t.

End RAGAgent.

Import RAGAgent.

(** *** The tip table, in the words of the specification *)

Module TipTable.

(** Section 4.3: one canned tip block, selected by a fixed mapping from
    keywords to tip categories.  The categories are listed by precedence,
    each with the words that trigger it. *)
Definition table : list (list string * string) :=
  [ (["battery"], batteryTips);
    (["camera"; "recording"], cameraTips);
    (["setup"; "install"], setupTips) ].

(** The tips of the first category one of whose triggers occurs in the
    query, and nothing when there is none. *)
Fixpoint firstCategory (rows : list (list string * string)) (queryLower : string)
  : string :=
  match rows with
  | [] => ""
  | (triggers, tips) :: rest =>
      if existsb (fun word => includes word queryLower) triggers then tips
      else firstCategory rest queryLower
  end.

End TipTable.

(** *** The "CLEANED VERSION" (delegatingAgent.js:698-1109) *)

Module RAGAgentCleaned.

Record ErrorType : Type := { isConnectionError : bool; isTransformerError : bool }.

Definition detectErrorType (err : JsError) : ErrorType :=
  let message := match message err with Some m => m | None => "" end in
  {| isConnectionError :=
       includes "ECONNREFUSED" message
       || includes "fetch failed" message
       || includes "Connection refused" message
       || match code err with
          | Some c => (c =? "ECONNREFUSED")%string
          | None => false
          end;
     isTransformerError :=
       includes "t2v-transformers" message
       || includes "vectorize" message
       || includes "no such host" message
       || includes "dial tcp: lookup t2v-transformers" message |}.

Definition extractKeywords (query : string) : list string :=
  firstn 3
    (filter (fun word => 2 <? String.length word)
       (splitWs (toLowerCase query))).

Definition createKeywordConditions (keywords : list string) : list Where :=
  map (fun keyword =>
         Or [ Like ["ticketSubject"] ("*" ++ keyword ++ "*");
              Like ["ticketDescription"] ("*" ++ keyword ++ "*");
              Like ["productPurchased"] ("*" ++ keyword ++ "*") ])
      keywords.

(** The filter that [fallbackSearch] ([whereClause]) and
    [fetchObjectsFallback] ([whereFilter]) both build. *)
Definition keywordFilter (query : string) (tenant : option string) : Where :=
  let keywords := extractKeywords query in
  let keywordConditions := createKeywordConditions keywords in
  match tenantGiven tenant with
  | Some t => And [ tenantEquals t; Or keywordConditions ]
  | None => Or keywordConditions
  end.

Definition fetchObjectsFallback
  (query : string) (tenant : option string) (limit : N) : M (list Ticket) :=
  try_catch
    (let whereFilter := keywordFilter query tenant in
     result <- getterDo whereFilter limit ;;
     ret (orEmpty result))
    (fun _ => ret []).

(** The query [fallbackSearch] builds around its [whereClause]. *)
Definition structuredQuery
  (query : string) (tenant : option string) (limit : N) : GetQuery :=
  let whereClause := keywordFilter query tenant in
  {| withFields := ticketFields; withNearText := None;
     withWhere := Some whereClause; withLimit := limit |}.

Definition fallbackSearch
  (query : string) (tenant : option string) (limit : N) : M (list Ticket) :=
  ending <-
    try_catch
      (result <- graphqlDo (structuredQuery query tenant limit) ;;
       match data result with
       | None => throw (typeError "Get")
       | Some found =>
           match orEmpty found with
           | [] => ret Delegate
           | tickets => ret (Value tickets)
           end
       end)
      (fun err =>
         if isConnectionError (detectErrorType err) then ret (Value [])
         else ret Delegate) ;;
  match ending with
  | Value tickets => ret tickets
  | Delegate => fetchObjectsFallback query tenant limit
  end.

Definition semanticQuery
  (query : string) (tenant : option string) (limit : N) : GetQuery :=
  {| withFields := ticketFields;
     withNearText := Some query;
     withWhere := match tenantGiven tenant with
                  | Some t => Some (tenantEquals t)
                  | None => None
                  end;
     withLimit := limit |}.

Definition searchTickets
  (query : string) (tenant : option string) (limit : N) : M (list Ticket) :=
  ending <-
    try_catch
      (result <- graphqlDo (semanticQuery query tenant limit) ;;
       match errors result with
       | first :: _ =>
           let errorMessage := first in
           if isTransformerError
                (detectErrorType {| message := errorMessage; code := None |})
           then ret Delegate
           else throw (newError ("GraphQL error: "
                                 ++ match errorMessage with
                                    | Some m => m
                                    | None => "undefined"
                                    end))
       | [] =>
           match data result with
           | None => throw (typeError "Get")
           | Some found => ret (Value (orEmpty found))
           end
       end)
      (fun err =>
         let kind := detectErrorType err in
         if isConnectionError kind then ret (Value [])
         else if isTransformerError kind then ret Delegate
         else ret Delegate) ;;
  match ending with
  | Value tickets => ret tickets
  | Delegate => fallbackSearch query tenant limit
  end.

Definition handleQuery
  (userQuery : string) (tenant : option string) (limit : N) : M Result :=
  try_catch
    (tickets <- searchTickets userQuery tenant limit ;;
     generateResponse userQuery tickets)
    (fun _ =>
       ret {| answer := searchErrorAnswer; references := plainReferences [] |}).

End RAGAgentCleaned.

(** *** The "UPDATED VERSION" (src/agents/ragAgent.js) *)

Module RAGAgentUpdated.

(** [error.message && (..)] of the two [catch] blocks: a missing or empty
    message makes the whole test falsy, whatever [error.code] is. *)
Definition isConnectionError (err : JsError) : bool :=
  match message err with
  | Some m =>
      if (m =? "")%string then false
      else includes "ECONNREFUSED" m
           || includes "fetch failed" m
           || includes "Connection refused" m
           || match code err with
              | Some c => (c =? "ECONNREFUSED")%string
              | None => false
              end
  | None => false
  end.

Definition mentionsTransformer (m : string) : bool :=
  includes "t2v-transformers" m
  || includes "vectorize" m
  || includes "no such host" m
  || includes "dial tcp: lookup t2v-transformers" m.

Definition isTransformerError (err : JsError) : bool :=
  match message err with
  | Some m => if (m =? "")%string then false else mentionsTransformer m
  | None => false
  end.

(** The filter of [fallbackSearch] and of [fetchObjectsFallback]: the whole
    query between two wildcards, on the subject or the description. *)
Definition queryFilter (query : string) (tenant : option string) : Where :=
  let either :=
    Or [ Like ["ticketSubject"] ("*" ++ query ++ "*");
         Like ["ticketDescription"] ("*" ++ query ++ "*") ] in
  match tenantGiven tenant with
  | Some t => And [ tenantEquals t; either ]
  | None => either
  end.

Definition fetchObjectsFallback
  (query : string) (tenant : option string) (limit : N) : M (list Ticket) :=
  try_catch
    (let whereFilter := queryFilter query tenant in
     result <- getterDo whereFilter limit ;;
     ret (orEmpty result))
    (fun _ => ret []).

(** The query [fallbackSearch] builds around its [whereClause]. *)
Definition structuredQuery
  (query : string) (tenant : option string) (limit : N) : GetQuery :=
  let whereClause := queryFilter query tenant in
  {| withFields := ticketFields; withNearText := None;
     withWhere := Some whereClause; withLimit := limit |}.

Definition fallbackSearch
  (query : string) (tenant : option string) (limit : N) : M (list Ticket) :=
  ending <-
    try_catch
      (result <- graphqlDo (structuredQuery query tenant limit) ;;
       match data result with
       | None => throw (typeError "Get")
       | Some found => ret (Value (orEmpty found))
       end)
      (fun err =>
         if isConnectionError err then ret (Value [])
         else ret Delegate) ;;
  match ending with
  | Value tickets => ret tickets
  | Delegate => fetchObjectsFallback query tenant limit
  end.

Definition semanticQuery
  (query : string) (tenant : option string) (limit : N) : GetQuery :=
  {| withFields := ticketFields;
     withNearText := Some query;
     withWhere := match tenantGiven tenant with
                  | Some t => Some (tenantEquals t)
                  | None => None
                  end;
     withLimit := limit |}.

Definition searchTickets
  (query : string) (tenant : option string) (limit : N) : M (list Ticket) :=
  ending <-
    try_catch
      (result <- graphqlDo (semanticQuery query tenant limit) ;;
       match errors result with
       | first :: _ =>
           match first with
           | None => throw (typeError "includes")
           | Some errorMessage =>
               if mentionsTransformer errorMessage then ret Delegate
               else throw (newError ("GraphQL error: " ++ errorMessage))
           end
       | [] =>
           match data result with
           | None => throw (typeError "Get")
           | Some found => ret (Value (orEmpty found))
           end
       end)
      (fun err =>
         if isConnectionError err then ret (Value [])
         else if isTransformerError err then ret Delegate
         else ret Delegate) ;;
  match ending with
  | Value tickets => ret tickets
  | Delegate => fallbackSearch query tenant limit
  end.

Definition handleQueryLegacy
  (userQuery : string) (tenant : option string) (limit : N) : M Result :=
  try_catch
    (tickets <- searchTickets userQuery tenant limit ;;
     generateResponse userQuery tickets)
    (fun _ =>
       ret {| answer := searchErrorAnswer; references := plainReferences [] |}).

End RAGAgentUpdated.

(* ------------------------------------------------------------------------- *)
(** ** ChartTool (src/unnamed/part_001) *)
(* ------------------------------------------------------------------------- *)

Module ChartTool.

(** *** A plain object used as a map from labels to counts

    [statusDistribution] and [priorityDistribution] start as [{}], an
    object whose prototype is [Object.prototype].  Reading [o[label]]
    gives the property of the object itself when there is one, and the
    member of the prototype otherwise, so that a label which names such a
    member is not counted from zero. *)

(** The members of [Object.prototype] that are functions; with the
    accessor [__proto__] they are all its members. *)
Definition prototypeFunctions : list string :=
  [ "constructor"; "__defineGetter__"; "__defineSetter__"; "hasOwnProperty";
    "__lookupGetter__"; "__lookupSetter__"; "isPrototypeOf";
    "propertyIsEnumerable"; "toString"; "valueOf"; "toLocaleString" ].

Definition isPrototypeFunction (label : string) : bool :=
  existsb (String.eqb label) prototypeFunctions.

(** Does [label in {}] hold? *)
Definition inherited (label : string) : bool :=
  isPrototypeFunction label || (label =? "__proto__")%string.

(** [String(f)] for the member [name] of the prototype, as V8, the engine
    of Node, prints a built-in function: [constructor] is the function
    [Object], every other member a function of its own name. *)
Definition nativeCode (name : string) : string :=
  "function " ++ (if (name =? "constructor")%string then "Object" else name)
  ++ "() { [native code] }".

(** What a property of such an object holds: a count, or the string that
    [+ 1] has made of something that was no number. *)
Inductive Slot : Type :=
| Count (n : nat)
| Garbled (text : string).

(** The properties of the object itself, in the order of their
    creation. *)
Definition Distribution : Type := list (string * Slot).

Fixpoint ownProperty (label : string) (o : Distribution) : option Slot :=
  match o with
  | [] => None
  | (k, v) :: rest => if (k =? label)%string then Some v else ownProperty label rest
  end.

(** [(o[label] || 0) + 1]: a number is added to, a string that is not
    empty has "1" appended, a function is turned into its text first, and
    so is the prototype that [__proto__] reads as. *)
Definition plusOne (label : string) (o : Distribution) : Slot :=
  match ownProperty label o with
  | Some (Count n) => Count (n + 1)
  | Some (Garbled text) =>
      if (text =? "")%string then Count 1 else Garbled (text ++ "1")
  | None =>
      if isPrototypeFunction label then Garbled (nativeCode label ++ "1")
      else if (label =? "__proto__")%string then Garbled "[object Object]1"
      else Count 1
  end.

Fixpoint defineProperty (label : string) (v : Slot) (o : Distribution)
  : Distribution :=
  match o with
  | [] => [(label, v)]
  | (k, x) :: rest =>
      if (k =? label)%string then (k, v) :: rest
      else (k, x) :: defineProperty label v rest
  end.

(** [o[label] = v] for a [v] that is a number or a string: the setter of
    [__proto__] ignores such a value, and every other label becomes or
    stays a property of the object itself. *)
Definition setProperty (label : string) (v : Slot) (o : Distribution)
  : Distribution :=
  if (label =? "__proto__")%string then o else defineProperty label v o.

(** [o[label] = (o[label] || 0) + 1] *)
Definition countLabel (label : string) (o : Distribution) : Distribution :=
  setProperty label (plusOne label o) o.

(** An array index is the canonical numeral of a whole number below
    [2 ^ 32 - 1]. *)
Definition digit (c : ascii) : option N :=
  let n := N_of_ascii c in
  if ((48 <=? n) && (n <=? 57))%N then Some (n - 48)%N else None.

Fixpoint numeral (s : string) (acc : N) : option N :=
  match s with
  | EmptyString => Some acc
  | String c s' =>
      match digit c with
      | Some d => numeral s' (10 * acc + d)%N
      | None => None
      end
  end.

Definition arrayIndex (label : string) : option N :=
  match label with
  | EmptyString => None
  | String c rest =>
      if (N_of_ascii c =? 48)%N && negb (rest =? "")%string then None
      else match numeral label 0 with
           | Some n => if (n <? 4294967295)%N then Some n else None
           | None => None
           end
  end.

Fixpoint insertIndexed (e : N * (string * Slot)) (l : list (N * (string * Slot)))
  : list (N * (string * Slot)) :=
  match l with
  | [] => [e]
  | y :: rest =>
      if (fst e <=? fst y)%N then e :: l else y :: insertIndexed e rest
  end.

Definition indexed (o : Distribution) : list (N * (string * Slot)) :=
  flat_map (fun e => match arrayIndex (fst e) with
                     | Some i => [(i, e)]
                     | None => []
                     end) o.

Definition named (o : Distribution) : Distribution :=
  filter (fun e => match arrayIndex (fst e) with
                   | Some _ => false
                   | None => true
                   end) o.

(** The order in which the properties are enumerated: the array indices
    in ascending order, then the other names in the order of creation. *)
Definition ownEntries (o : Distribution) : Distribution :=
  (map snd (fold_right insertIndexed [] (indexed o)) ++ named o)%list.

(** [Object.keys(o)] and [Object.values(o)] *)
Definition objectKeys (o : Distribution) : list string := map fst (ownEntries o).
Definition objectValues (o : Distribution) : list Slot := map snd (ownEntries o).

(** *** The buckets of the satisfaction ratings

    [distribution] is a plain object too, but its keys are the numerals of
    numbers, none of which names a member of [Object.prototype], and its
    only reader, [createSatisfactionChart], sorts the keys before it uses
    them: the object is kept as the list of its buckets with their counts,
    in the order in which the buckets were first met. *)
Definition Counts (K : Type) : Type := list (K * nat).

(** [m[key] = (m[key] || 0) + 1] *)
Fixpoint increment {K : Type} (eqb : K -> K -> bool) (key : K) (m : Counts K)
  : Counts K :=
  match m with
  | [] => [(key, 1)]
  | (k, n) :: rest =>
      if eqb k key then (k, n + 1) :: rest
      else (k, n) :: increment eqb key rest
  end.

(** [m[key]], with 0 for a bucket that is not there. *)
Fixpoint countOf {K : Type} (eqb : K -> K -> bool) (key : K) (m : Counts K)
  : nat :=
  match m with
  | [] => 0
  | (k, n) :: rest => if eqb k key then n else countOf eqb key rest
  end.

Definition keys {K : Type} (m : Counts K) : list K := map fst m.
Definition values {K : Type} (m : Counts K) : list nat := map snd m.
Definition total {K : Type} (m : Counts K) : nat := list_sum (values m).

(** The chart configurations, without the members that only colour or
    scale the picture. *)
Record Chart (A : Type) : Type := {
  type : string;
  labels : list string;
  datasetLabel : option string;
  datasetData : list A;
  title : string
}.

Record TimeStats : Type := {
  time_average : Q;
  time_min : Q;
  time_max : Q;
  time_count : nat
}.

Record SatisfactionStats : Type := {
  sat_average : Q;
  sat_distribution : Counts Z;
  sat_count : nat
}.

Record Analytics : Type := {
  statusDistribution : Distribution;
  priorityDistribution : Distribution;
  responseTimeStats : TimeStats;
  resolutionTimeStats : TimeStats;
  satisfactionStats : SatisfactionStats
}.

(** What [generateAnalytics] returns: the four charts, or the one chart of
    [getErrorChart]. *)
Inductive Charts : Type :=
| FourCharts (statusChart priorityChart : Chart Slot)
             (responseTimeChart : Chart Q) (satisfactionChart : Chart nat)
| ErrorChart (chart : Chart nat).

(** [Date.prototype.getHours] and [getMinutes] of the date whose time value
    is [t], in the local time the host's offset gives. *)
Definition getHours (offset : Z -> Z) (t : Z) : Z :=
  (((t + offset t) / 3600000) mod 24)%Z.

Definition getMinutes (offset : Z -> Z) (t : Z) : Z :=
  (((t + offset t) / 60000) mod 60)%Z.

Definition parseTimeToHours
  (parse : string -> option Z) (offset : Z -> Z) (timeString : Field)
  : option Q :=
  match timeString with
  | Text s =>
      match parse s with
      | Some t =>
          Some (inject_Z (getHours offset t)
                + inject_Z (getMinutes offset t) / 60)%Q
      | None => None
      end
  | _ => None
  end.

Fixpoint insertSorted (x : Q) (l : list Q) : list Q :=
  match l with
  | [] => [x]
  | y :: rest => if Qle_bool x y then x :: l else y :: insertSorted x rest
  end.

(** [times.sort((a, b) => a - b)] *)
Definition sortAscending (l : list Q) : list Q := fold_right insertSorted [] l.

(** [l.reduce((acc, x) => acc + x, 0)] *)
Definition sumOf (host : Arithmetic) (l : list Q) : Q :=
  fold_left (number_plus host) l 0%Q.

(** [Math.round((sum / length) * 100) / 100] *)
Definition averageOf (host : Arithmetic) (sum : Q) (length : nat) : Q :=
  number_over host
    (number_round host
       (number_times host
          (number_over host sum (inject_Z (Z.of_nat length))) 100%Q))
    100%Q.

(** [sort] sorts the array in place, so that the sum is taken in the
    sorted order. *)
Definition calculateTimeStats (host : Arithmetic) (times : list Q) : TimeStats :=
  match times with
  | [] => {| time_average := 0; time_min := 0; time_max := 0; time_count := 0 |}
  | _ =>
      let sorted := sortAscending times in
      let sum := sumOf host sorted in
      {| time_average := averageOf host sum (List.length times);
         time_min := hd 0%Q sorted;
         time_max := last sorted 0%Q;
         time_count := List.length times |}
  end.

Definition calculateSatisfactionStats (host : Arithmetic) (ratings : list Q)
  : SatisfactionStats :=
  match ratings with
  | [] => {| sat_average := 0; sat_distribution := []; sat_count := 0 |}
  | _ =>
      let sum := sumOf host ratings in
      {| sat_average := averageOf host sum (List.length ratings);
         sat_distribution :=
           fold_left (fun distribution rating =>
                        increment Z.eqb (Qfloor rating) distribution)
                     ratings [];
         sat_count := List.length ratings |}
  end.

(** The five accumulators of [processAnalyticsData]. *)
Record Tally : Type := {
  statusTally : Distribution;
  priorityTally : Distribution;
  responseTimes : list Q;
  resolutionTimes : list Q;
  satisfactionRatings : list Q
}.

Definition emptyTally : Tally :=
  {| statusTally := []; priorityTally := []; responseTimes := [];
     resolutionTimes := []; satisfactionRatings := [] |}.

(** A number is truthy when it is not zero. *)
Definition numberGiven (n : option Q) : option Q :=
  match n with
  | Some q => if Qeq_bool q 0 then None else Some q
  | None => None
  end.

Definition push {A : Type} (l : list A) (o : option A) : list A :=
  match o with
  | Some x => (l ++ [x])%list
  | None => l
  end.

(** [ticket.ticketStatus || 'Unknown'] and [ticket.ticketPriority || 'Unknown'] *)
Definition statusLabel (ticket : Ticket) : string :=
  fieldOr (ticketStatus ticket) "Unknown".

Definition priorityLabel (ticket : Ticket) : string :=
  fieldOr (ticketPriority ticket) "Unknown".

(** The body of [tickets.forEach]. *)
Definition tallyTicket
  (parse : string -> option Z) (offset : Z -> Z) (acc : Tally) (ticket : Ticket)
  : Tally :=
  let status := statusLabel ticket in
  let priority := priorityLabel ticket in
  {| statusTally := countLabel status (statusTally acc);
     priorityTally := countLabel priority (priorityTally acc);
     responseTimes :=
       push (responseTimes acc)
            (if fieldTruthy (firstResponseTime ticket)
             then parseTimeToHours parse offset (firstResponseTime ticket)
             else None);
     resolutionTimes :=
       push (resolutionTimes acc) (numberGiven (timeToResolution ticket));
     satisfactionRatings :=
       push (satisfactionRatings acc)
            (numberGiven (customerSatisfactionRating ticket)) |}.

Definition tallyAll
  (parse : string -> option Z) (offset : Z -> Z) (tickets : list Ticket)
  : Tally :=
  fold_left (tallyTicket parse offset) tickets emptyTally.

Definition processAnalyticsData
  (parse : string -> option Z) (offset : Z -> Z) (host : Arithmetic)
  (tickets : list Ticket)
  : Analytics :=
  let tally := tallyAll parse offset tickets in
  {| statusDistribution := statusTally tally;
     priorityDistribution := priorityTally tally;
     responseTimeStats := calculateTimeStats host (responseTimes tally);
     resolutionTimeStats := calculateTimeStats host (resolutionTimes tally);
     satisfactionStats :=
       calculateSatisfactionStats host (satisfactionRatings tally) |}.

Definition analyticsFields : string :=
  "ticketStatus ticketPriority firstResponseTime timeToResolution customerSatisfactionRating".

Definition getAnalyticsData (tenant : option string) : M Analytics :=
  let query :=
    {| withFields := analyticsFields;
       withNearText := None;
       withWhere := match tenantGiven tenant with
                    | Some t => Some (tenantEquals t)
                    | None => None
                    end;
       withLimit := 10000%N |} in
  result <- graphqlDo query ;;
  match data result with
  | None => throw (typeError "Get")
  | Some found =>
      parse <- host date_parse ;;
      offset <- host local_offset ;;
      arithmetic <- host numbers ;;
      ret (processAnalyticsData parse offset arithmetic (orEmpty found))
  end.

Definition ofZ (z : Z) : string := NilEmpty.string_of_int (Z.to_int z).

(** [String(x)] for a number that is a whole count of hundredths, as the
    averages are, up to the rounding of their last division. *)
Definition showHundredths (x : Q) : string :=
  let k := Qfloor (x * 100)%Q in
  let a := Z.abs k in
  let whole := (a / 100)%Z in
  let cents := (a mod 100)%Z in
  (if (k <? 0)%Z then "-" else "")
  ++ ofZ whole
  ++ (if (cents =? 0)%Z then ""
      else if (cents mod 10 =? 0)%Z then "." ++ ofZ (cents / 10)
      else "." ++ ofZ (cents / 10) ++ ofZ (cents mod 10)).

(** What [colorMap[label] || 'rgba(201, 203, 207, 0.8)'] gives: the colour
    of a label that the map has, the grey for a label that it has not,
    and, the map being a plain object as well, the member of
    [Object.prototype] for a label that names one, which is no string. *)
Inductive Colour : Type :=
| Rgba (text : string)
| Member (name : string).

Definition colourOf (colorMap : list (string * string)) (label : string) : Colour :=
  match find (fun entry => (fst entry =? label)%string) colorMap with
  | Some entry => Rgba (snd entry)
  | None => if inherited label then Member label
            else Rgba "rgba(201, 203, 207, 0.8)"
  end.

Definition getStatusColors (labels : list string) : list Colour :=
  map (colourOf
         [ ("Open", "rgba(255, 99, 132, 0.8)");
           ("Closed", "rgba(75, 192, 192, 0.8)");
           ("Pending Customer Response", "rgba(255, 205, 86, 0.8)");
           ("In Progress", "rgba(54, 162, 235, 0.8)");
           ("Unknown", "rgba(153, 102, 255, 0.8)") ])
      labels.

Definition getPriorityColors (labels : list string) : list Colour :=
  map (colourOf
         [ ("Critical", "rgba(220, 53, 69, 0.8)");
           ("High", "rgba(255, 193, 7, 0.8)");
           ("Medium", "rgba(40, 167, 69, 0.8)");
           ("Low", "rgba(23, 162, 184, 0.8)");
           ("Unknown", "rgba(108, 117, 125, 0.8)") ])
      labels.

Definition isRgba (c : Colour) : bool :=
  match c with
  | Rgba _ => true
  | Member _ => false
  end.

(** [colors.map(color => color.replace('0.8', '1'))]: a member of the
    prototype has no [replace], so that the call throws for it.  The
    strings that [replace] returns colour the picture only. *)
Definition borderColor (colors : list Colour) : Completion unit :=
  if forallb isRgba colors then Return tt
  else Throw (newError "color.replace is not a function").

(** The colours of the doughnut are not looked into. *)
Definition createStatusChart (statusData : Distribution) : Chart Slot :=
  let labels := objectKeys statusData in
  let data := objectValues statusData in
  {| type := "doughnut";
     labels := labels;
     datasetLabel := None;
     datasetData := data;
     title := "Ticket Status Distribution" |}.

Definition createPriorityChart (priorityData : Distribution)
  : Completion (Chart Slot) :=
  let labels := objectKeys priorityData in
  let data := objectValues priorityData in
  let colors := getPriorityColors labels in
  match borderColor colors with
  | Return _ =>
      Return {| type := "bar";
                labels := labels;
                datasetLabel := Some "Number of Tickets";
                datasetData := data;
                title := "Ticket Priority Distribution" |}
  | Throw e => Throw e
  end.

Definition createResponseTimeChart (timeStats : TimeStats) : Chart Q :=
  {| type := "bar";
     labels := ["Average"; "Minimum"; "Maximum"];
     datasetLabel := Some "Response Time (hours)";
     datasetData := [time_average timeStats; time_min timeStats; time_max timeStats];
     title := "Response Time Statistics ("
              ++ ofNat (time_count timeStats) ++ " tickets)" |}.

Fixpoint insertKey (x : Z) (l : list Z) : list Z :=
  match l with
  | [] => [x]
  | y :: rest => if (x <=? y)%Z then x :: l else y :: insertKey x rest
  end.


(** The colours of [getSatisfactionColor] are strings, so that the
    [replace] of this chart does not throw. *)
Definition createSatisfactionChart (stats : SatisfactionStats) : Chart nat :=
  let sortedKeys := fold_right insertKey [] (keys (sat_distribution stats)) in
  {| type := "bar";
     labels := map (fun label =>
                      ofZ label ++ " Star" ++ (if (label =? 1)%Z then "" else "s"))
                   sortedKeys;
     datasetLabel := Some "Number of Ratings";
     datasetData := map (fun label => countOf Z.eqb label (sat_distribution stats))
                        sortedKeys;
     title := "Customer Satisfaction Distribution (Avg: "
              ++ showHundredths (sat_average stats) ++ "/5)" |}.

Definition getErrorChart (message : string) : Chart nat :=
  {| type := "doughnut";
     labels := ["Error"];
     datasetLabel := None;
     datasetData := [1];
     title := message |}.

Definition generateAnalytics (tenant : option string) : M Charts :=
  try_catch
    (analytics <- getAnalyticsData tenant ;;
     let statusChart := createStatusChart (statusDistribution analytics) in
     priorityChart <-
       lift (createPriorityChart (priorityDistribution analytics)) ;;
     ret (FourCharts
            statusChart
            priorityChart
            (createResponseTimeChart (responseTimeStats analytics))
            (createSatisfactionChart (satisfactionStats analytics))))
    (fun _ => ret (ErrorChart (getErrorChart "Failed to generate analytics"))).

End ChartTool.

(* ------------------------------------------------------------------------- *)
(** ** DelegatingAgent (src/agents/delegatingAgent.js:1-216) *)
(* ------------------------------------------------------------------------- *)

Module DelegatingAgent.

Import Json.
Import ChartTool.

Definition member (key : string) (v : value) : list N * value := (codes key, v).

(** What [parseJSONResponse] returns from its [catch] block. *)
Definition defaultAnalysis : value :=
  Obj [ member "needsRAG" (Bool true);
        member "needsChart" (Bool false);
        member "reasoning" (Str (codes "Failed to parse analysis, defaulting to RAG")) ].

(** [response.match(/\{[\s\S]*\}/)]: the match starts at the first opening
    brace that has a closing brace after it, and the star, being greedy,
    runs to the last closing brace of the text. *)
Fixpoint fromFirstOpen (s : string) : option string :=
  match s with
  | EmptyString => None
  | String c s' => if (nat_of_ascii c =? 123) then Some s else fromFirstOpen s'
  end.

Fixpoint toLastClose (s : string) : option string :=
  match s with
  | EmptyString => None
  | String c s' =>
      match toLastClose s' with
      | Some t => Some (String c t)
      | None => if (nat_of_ascii c =? 125) then Some (String c EmptyString) else None
      end
  end.

Definition matchBraces (s : string) : option string :=
  match fromFirstOpen s with
  | Some t => toLastClose t
  | None => None
  end.

Definition parseJSONResponse (response : Content) : value :=
  match response with
  | CText text =>
      match matchBraces text with
      | Some jsonMatch =>
          match parse jsonMatch with
          | Some analysis => analysis
          | None => defaultAnalysis
          end
      | None => defaultAnalysis
      end
  | COther => defaultAnalysis
  end.

Definition analysisPrompt (userQuery : string) : string :=
  "Analyze this customer support query and determine which tools are needed:"
  ++ nl ++ nl
  ++ "Query: " ++ dq ++ userQuery ++ dq ++ nl ++ nl
  ++ "Available Tools:" ++ nl
  ++ "1. RAG Agent - For finding specific support tickets, solutions, troubleshooting steps, or product issues" ++ nl
  ++ "2. Chart Tool - For generating analytics, statistics, charts, or data visualizations" ++ nl ++ nl
  ++ "Rules:" ++ nl
  ++ "- Use RAG if query asks about: specific problems, issues, solutions, troubleshooting, "
  ++ dq ++ "common problems" ++ dq ++ ", " ++ dq ++ "how to fix" ++ dq
  ++ ", product names with issues" ++ nl
  ++ "- Use Chart if query asks about: statistics, analytics, charts, data, distribution, "
  ++ dq ++ "show me stats" ++ dq ++ ", trends" ++ nl
  ++ "- Use BOTH if query combines these (e.g., "
  ++ dq ++ "common issues AND analytics" ++ dq ++ ", "
  ++ dq ++ "problems and show charts" ++ dq ++ ")" ++ nl ++ nl
  ++ "Respond with ONLY a JSON object:" ++ nl
  ++ "{" ++ nl
  ++ "  " ++ dq ++ "needsRAG" ++ dq ++ ": boolean," ++ nl
  ++ "  " ++ dq ++ "needsChart" ++ dq ++ ": boolean," ++ nl
  ++ "  " ++ dq ++ "reasoning" ++ dq ++ ": " ++ dq ++ "explanation" ++ dq ++ nl
  ++ "}".

(** The two patterns of the keyword analysis:
    [/issue|problem|fix|..|defect/] and
    [/analytics|chart|statistic|data|show.*stat|..|metrics/]. *)
Definition issueWords : list string :=
  [ "issue"; "problem"; "fix"; "trouble"; "error"; "common"; "help";
    "setup"; "install"; "battery"; "camera"; "tv"; "broken"; "not working";
    "malfunction"; "defect" ].

Definition issueKeywords : Regex.re := Regex.Alts (map Regex.Lit issueWords).

Definition showThenStat : Regex.re :=
  Regex.Seq (Regex.Lit "show") (Regex.Seq (Regex.Star Regex.Dot) (Regex.Lit "stat")).

Definition analyticsKeywords : Regex.re :=
  Regex.Alts
    [ Regex.Lit "analytics"; Regex.Lit "chart"; Regex.Lit "statistic";
      Regex.Lit "data"; showThenStat;
      Regex.Lit "distribution"; Regex.Lit "trend"; Regex.Lit "visual";
      Regex.Lit "graph"; Regex.Lit "report"; Regex.Lit "dashboard";
      Regex.Lit "metrics" ].

(** The words of the second pattern that are plain words. *)
Definition analyticsWords : list string :=
  [ "analytics"; "chart"; "statistic"; "data"; "distribution"; "trend";
    "visual"; "graph"; "report"; "dashboard"; "metrics" ].

Definition isQuotaError (err : JsError) : bool :=
  match message err with
  | Some m =>
      if (m =? "")%string then false
      else includes "429" m
           || includes "Too Many Requests" m
           || includes "quota" m
           || includes "rate limit" m
  | None => false
  end.

(** The [catch] block of [analyzeQueryRequirements]. *)
Definition keywordAnalysis (userQuery : string) (err : JsError) : value :=
  let queryLower := toLowerCase userQuery in
  let hasIssueKeywords := Regex.test issueKeywords queryLower in
  let hasAnalyticsKeywords := Regex.test analyticsKeywords queryLower in
  Obj [ member "needsRAG" (Bool hasIssueKeywords);
        member "needsChart" (Bool hasAnalyticsKeywords);
        member "reasoning"
          (Str (codes (if isQuotaError err
                       then "Fallback analysis due to API quota limits - using keyword detection"
                       else "Fallback analysis based on keywords due to LLM error"))) ].

Definition analyzeQueryRequirements (userQuery : string) : M value :=
  try_catch
    (response <- invoke (analysisPrompt userQuery) ;;
     ret (parseJSONResponse response))
    (fun err => ret (keywordAnalysis userQuery err)).

Definition needsRAG (analysis : value) : bool := truthy (get "needsRAG" analysis).
Definition needsChart (analysis : value) : bool := truthy (get "needsChart" analysis).

(** [x.toFixed(2)] *)
Definition twoDigits (z : Z) : string :=
  if (z <? 10)%Z then "0" ++ ofZ z else ofZ z.

Definition toFixed2 (x : Q) : string :=
  let hundredths := Qfloor (Qabs x * 100 + (1 # 2))%Q in
  (if Qle_bool 0 x then "" else "-")
  ++ ofZ (hundredths / 100) ++ "." ++ twoDigits (hundredths mod 100).

(** [`${data[index]}`] *)
Definition countAt (counts : list Slot) (index : nat) : string :=
  match nth_error counts index with
  | Some (Count n) => ofNat n
  | Some (Garbled text) => text
  | None => "undefined"
  end.

(** [labels.forEach((label, index) => ..)] *)
Fixpoint distributionLines (counts : list Slot) (index : nat) (labels : list string)
  : string :=
  match labels with
  | [] => ""
  | label :: rest =>
      "- **" ++ label ++ ":** " ++ countAt counts index ++ " tickets" ++ nl
      ++ distributionLines counts (S index) rest
  end.

(** [`${responseData[i]?.toFixed(2) || 'N/A'}`] *)
Definition fixedAt (numbers : list Q) (index : nat) : string :=
  match nth_error numbers index with
  | Some x => toFixed2 x
  | None => "N/A"
  end.

Definition dashboardTitle : string := "📊 **Analytics Dashboard:**" ++ nl.

Definition chartSummary (chartResult : Charts) : string :=
  "I've generated comprehensive analytics for your support tickets:" ++ nl ++ nl
  ++ match chartResult with
     | FourCharts statusChart priorityChart responseChart _ =>
         "**Ticket Status Distribution:**" ++ nl
         ++ distributionLines (datasetData statusChart) 0 (labels statusChart)
         ++ nl
         ++ "**Ticket Priority Distribution:**" ++ nl
         ++ distributionLines (datasetData priorityChart) 0 (labels priorityChart)
         ++ nl
         ++ "**Response Time Statistics:**" ++ nl
         ++ "- **Average:** " ++ fixedAt (datasetData responseChart) 0 ++ " hours" ++ nl
         ++ "- **Minimum:** " ++ fixedAt (datasetData responseChart) 1 ++ " hours" ++ nl
         ++ "- **Maximum:** " ++ fixedAt (datasetData responseChart) 2 ++ " hours" ++ nl ++ nl
     | ErrorChart _ => ""
     end.

Definition nothingFoundAnswer : string :=
  "I couldn't find specific information for your query. Please try asking about support issues or requesting analytics.".

Definition combineResults
  (userQuery : string) (tenant : option string)
  (ragResult : option RAGAgent.Result) (chartResult : option Charts)
  (analysis : value) : string :=
  let answer :=
    match ragResult with
    | Some r => RAGAgent.answer r
    | None => ""
    end in
  let answer :=
    match chartResult with
    | Some charts =>
        (if (answer =? "")%string then dashboardTitle
         else answer ++ nl ++ nl ++ dashboardTitle)
        ++ chartSummary charts
    | None => answer
    end in
  let answer := if (answer =? "")%string then nothingFoundAnswer else answer in
  trim answer.

Record References : Type := {
  threadId : string;
  ticketIds : option (list Field);
  error : option (option string)
}.

Record Response : Type := {
  answer : string;
  references : References;
  chart : option Charts
}.

Definition failureAnswer : string :=
  "I encountered an error while processing your request. Please try again.".

(** The [catch] block of [handleQuery]. *)
Definition onError (threadId : string) (err : JsError) : Response :=
  {| answer := failureAnswer;
     references := {| threadId := threadId; ticketIds := None;
                      error := Some (message err) |};
     chart := None |}.

Section Components.

(** [this.ragAgent.handleQuery] and [this.chartTool.generateAnalytics]. *)
Variable ragAgent_handleQuery : string -> option string -> M RAGAgent.Result.
Variable chartTool_generateAnalytics : option string -> M Charts.

(** The [try] block of [handleQuery]. *)
Definition handleQueryBody
  (userQuery : string) (tenant : option string) (threadId : string)
  : M Response :=
  analysis <- analyzeQueryRequirements userQuery ;;
  ragResult <-
    (if needsRAG analysis
     then r <- ragAgent_handleQuery userQuery tenant ;; ret (Some r)
     else ret None) ;;
  chartResult <-
    (if needsChart analysis
     then c <- chartTool_generateAnalytics tenant ;; ret (Some c)
     else ret None) ;;
  let references :=
    {| threadId := threadId;
       ticketIds := match ragResult with
                    | Some r => Some (RAGAgent.ticketIds (RAGAgent.references r))
                    | None => None
                    end;
       error := None |} in
  ret {| answer := combineResults userQuery tenant ragResult chartResult analysis;
         references := references;
         chart := chartResult |}.

Definition handleQueryWith
  (userQuery : string) (tenant : option string) (threadId : string)
  : M Response :=
  try_catch (handleQueryBody userQuery tenant threadId)
            (fun err => ret (onError threadId err)).

End Components.

(** The agent as its constructor wires it: the cleaned RAGAgent, called
    without a limit (so with its default of 10), and the ChartTool. *)
Definition handleQuery
  (userQuery : string) (tenant : option string) (threadId : string)
  : M Response :=
  handleQueryWith
    (fun query tenant => RAGAgentCleaned.handleQuery query tenant 10%N)
    ChartTool.generateAnalytics
    userQuery tenant threadId.

End DelegatingAgent.

(* ------------------------------------------------------------------------- *)
(** ** Vocabulary for the statements on the retrieval cascade *)
(* ------------------------------------------------------------------------- *)

Module Cascade.

(** The tier marker that section 3 of the specification gives a retrieval
    result.  The source has no value of this kind; the type only serves to
    say so. *)
Inductive Tier : Type :=
| semantic
| keyword_structured
| keyword_raw
| empty.

(** A GraphQL answer from which the source reads no ticket: unreadable
    data, a missing class entry, or an empty array. *)
Definition noTickets (r : GqlResult) : bool :=
  match data r with
  | None => true
  | Some found => match orEmpty found with [] => true | _ => false end
  end.

(** Tier 1 fails or returns nothing: the call rejects, or resolves with
    errors, or with no ticket. *)
Definition semanticEmptyHanded (o : Outcome GqlResult) : bool :=
  match o with
  | Rejects _ => true
  | Resolves r =>
      match errors r with
      | _ :: _ => true
      | [] => noTickets r
      end
  end.

(** Tier 2 fails or returns nothing. *)
Definition structuredEmptyHanded (o : Outcome GqlResult) : bool :=
  match o with
  | Rejects _ => true
  | Resolves r => noTickets r
  end.

(** Tier 3 fails or returns nothing. *)
Definition rawEmptyHanded (o : Outcome (option (list Ticket))) : bool :=
  match o with
  | Rejects _ => true
  | Resolves r => match orEmpty r with [] => true | _ => false end
  end.

(** Tier 1 fails with an embedding-service failure, as the cleaned version
    classifies it: an error inside the answer whose message names the
    vectorizer, or a rejection that [detectErrorType] takes for a
    transformer error and not for a connection error. *)
Definition embeddingFailure (o : Outcome GqlResult) : bool :=
  match o with
  | Rejects e =>
      RAGAgentCleaned.isTransformerError (RAGAgentCleaned.detectErrorType e)
      && negb (RAGAgentCleaned.isConnectionError (RAGAgentCleaned.detectErrorType e))
  | Resolves r =>
      match errors r with
      | first :: _ =>
          RAGAgentCleaned.isTransformerError
            (RAGAgentCleaned.detectErrorType {| message := first; code := None |})
      | [] => false
      end
  end.

(** The same for the version of src/agents/ragAgent.js. *)
Definition embeddingFailureUpdated (o : Outcome GqlResult) : bool :=
  match o with
  | Rejects e =>
      RAGAgentUpdated.isTransformerError e
      && negb (RAGAgentUpdated.isConnectionError e)
  | Resolves r =>
      match errors r with
      | Some m :: _ => RAGAgentUpdated.mentionsTransformer m
      | _ => false
      end
  end.

(** What Tier 3 hands back. *)
Definition rawTickets (o : Outcome (option (list Ticket))) : list Ticket :=
  match o with
  | Resolves r => orEmpty r
  | Rejects _ => []
  end.

(** A cascade short-circuits on transport failures and never raises: with
    [search] entering at Tier 1 and [fallback] at Tier 2, [q1] and [q2]
    the queries of these tiers, [f3] the filter of Tier 3 and [transport]
    the test the version applies to a caught error. *)
Definition ShortCircuits
  (search fallback : string -> option string -> N -> M (list Ticket))
  (q1 q2 : string -> option string -> N -> GetQuery)
  (f3 : string -> option string -> Where)
  (transport : JsError -> bool) : Prop :=
  forall (w : World) (query : string) (tenant : option string) (limit : N)
         (tr : list Call),
    let tier1 := CallGraphql (q1 query tenant limit) in
    let tier2 := CallGraphql (q2 query tenant limit) in
    (forall e,
        graphql_get w (q1 query tenant limit) = Rejects e ->
        transport e = true ->
        search query tenant limit w tr = (Return [], (tr ++ [tier1])%list))
    /\ (forall e,
        graphql_get w (q2 query tenant limit) = Rejects e ->
        transport e = true ->
        fallback query tenant limit w tr = (Return [], (tr ++ [tier2])%list))
    /\ (forall e1 e2,
        graphql_get w (q1 query tenant limit) = Rejects e1 ->
        transport e1 = false ->
        graphql_get w (q2 query tenant limit) = Rejects e2 ->
        transport e2 = true ->
        search query tenant limit w tr
        = (Return [], (tr ++ [tier1; tier2])%list))
    /\ (semanticEmptyHanded (graphql_get w (q1 query tenant limit)) = true ->
        structuredEmptyHanded (graphql_get w (q2 query tenant limit)) = true ->
        rawEmptyHanded (data_getter w (f3 query tenant) limit) = true ->
        fst (search query tenant limit w tr) = Return [])
    /\ (exists tickets, fst (search query tenant limit w tr) = Return tickets).

End Cascade.

(* ------------------------------------------------------------------------- *)
(** ** Concrete tickets, errors and worlds *)
(* ------------------------------------------------------------------------- *)

Module Examples.

Definition ticket (id subject description : string) : Ticket :=
  {| ticketId := Text id;
     ticketSubject := Text subject;
     ticketDescription := Text description;
     resolution := Null;
     ticketStatus := Text "Open";
     ticketPriority := Text "High";
     productPurchased := Text "GoPro Hero";
     firstResponseTime := Text "2023-06-01T12:15:00Z";
     timeToResolution := Some (3 # 2)%Q;
     customerSatisfactionRating := Some (4 # 1)%Q |}.

Definition t1 : Ticket := ticket "T-1" "Battery drains" "The battery drains within an hour.".
Definition t2 : Ticket := ticket "T-2" "Battery swollen" "The battery looks swollen.".
Definition t3 : Ticket := ticket "T-3" "Camera freezes" "Recording stops after a minute.".
Definition t4 : Ticket := ticket "T-4" "Setup fails" "The installer stops at step two.".
Definition t5 : Ticket := ticket "T-5" "No sound" "There is no sound in recordings.".

(** What Node reports when nothing listens on the port. *)
Definition refused : JsError :=
  {| message := Some "connect ECONNREFUSED 127.0.0.1:8080";
     code := Some "ECONNREFUSED" |}.

(** What the store reports when the vectorizer cannot be resolved. *)
Definition vectorizerDown : JsError :=
  newError "remote client vectorize: dial tcp: lookup t2v-transformers: no such host".

Definition quotaExceeded : JsError := newError "429 Too Many Requests".

Definition plannerDown : JsError := newError "query planner unavailable".

Definition found (tickets : list Ticket) : Outcome GqlResult :=
  Resolves {| errors := []; data := Some (Some tickets) |}.

(** 2023-06-01T12:15:00Z is 1685621700000 ms after the epoch. *)
Definition parseDate (s : string) : option Z :=
  if (s =? "2023-06-01T12:15:00Z")%string then Some 1685621700000%Z else None.

(** An arithmetic without rounding: on numbers such as those of the
    tickets above, whose sums, means and hundredfold means are doubles,
    the host's arithmetic is this one. *)
Definition exact : Arithmetic :=
  {| number_plus := Qplus;
     number_times := Qmult;
     number_over := Qdiv;
     number_round := fun x => inject_Z (Qfloor (x + (1 # 2))%Q) |}.

(** A world given by the answer of the model and of each kind of query;
    local time is UTC. *)
Definition world
  (llm : string -> Outcome Content)
  (tier1 tier2 : Outcome GqlResult)
  (tier3 : Outcome (option (list Ticket)))
  (analytics : Outcome GqlResult) : World :=
  {| llm_invoke := llm;
     graphql_get := fun q =>
       if (withFields q =? ChartTool.analyticsFields)%string then analytics
       else match withNearText q with
            | Some _ => tier1
            | None => tier2
            end;
     data_getter := fun _ _ => tier3;
     date_parse := parseDate;
     local_offset := fun _ => 0%Z;
     numbers := exact |}.

Definition llmDown : string -> Outcome Content := fun _ => Rejects quotaExceeded.

Definition llmSays (text : string) : string -> Outcome Content :=
  fun _ => Resolves (CText text).

(** The store cannot be reached at all. *)
Definition storeRefused : World :=
  world llmDown (Rejects refused) (found [t1]) (Resolves (Some [t2])) (found [t1]).

(** The vectorizer is down, the rest of the store answers. *)
Definition embeddingDown : World :=
  world llmDown (Rejects vectorizerDown) (found [t1; t2]) (Resolves (Some [t3]))
        (found [t1; t2; t3]).

(** The store answers, and its semantic search finds the two tickets that
    the keyword search of [embeddingDown] finds. *)
Definition allUp : World :=
  world llmDown (found [t1; t2]) (found []) (Resolves None) (found [t1; t2; t3]).

(** The vectorizer is down and the keyword search finds nothing. *)
Definition keywordMiss : World :=
  world llmDown (Rejects vectorizerDown) (found []) (Resolves (Some [t3]))
        (found []).

(** The vectorizer is down and the planner refuses the connection. *)
Definition plannerRefused : World :=
  world llmDown (Rejects vectorizerDown) (Rejects refused) (Resolves (Some [t3]))
        (Rejects refused).

(** Nothing works, though the store is reachable. *)
Definition allDown : World :=
  world llmDown (Rejects vectorizerDown) (Rejects plannerDown)
        (Rejects plannerDown) (Rejects plannerDown).

(** Three answers of the classifier. *)
Definition proseReply : string := "Sorry, I can only answer in prose.".

Definition twoObjectsReply : string :=
  "{" ++ dq ++ "needsRAG" ++ dq ++ ": false, " ++ dq ++ "needsChart" ++ dq
  ++ ": true} Reason: {statistics}".

Definition firstObject : string :=
  "{" ++ dq ++ "needsRAG" ++ dq ++ ": false, " ++ dq ++ "needsChart" ++ dq
  ++ ": true}".

Definition untypedReply : string :=
  "{" ++ dq ++ "needsRAG" ++ dq ++ ": " ++ dq ++ "no" ++ dq ++ ", "
  ++ dq ++ "needsChart" ++ dq ++ ": 0}".


(** A retrieval tool that answers with a blank. *)
Definition blankTool : string -> option string -> M RAGAgent.Result :=
  fun _ _ => ret {| answer := " "; references := plainReferences [] |}.

End Examples.

(* ------------------------------------------------------------------------- *)
(** ** DelegatingAgent, "UPDATED VERSION"
       (src/agents/delegatingAgent.js:217-697) *)
(* ------------------------------------------------------------------------- *)

Module DelegatingAgentUpdated.

Import Json.
Import ChartTool.

(** [parseJSONResponse] (lines 476-493), the prompt of
    [analyzeQueryRequirements] (552-570) and the [combineResults] that an
    instance has (595-653) are those of the cleaned version, word for
    word. *)

(** The two patterns of lines 583-584:
    [/issue|problem|fix|..|camera|tv/] and
    [/analytics|chart|statistic|data|show.*stat|distribution|trend|visual/]. *)
Definition issueWords : list string :=
  [ "issue"; "problem"; "fix"; "trouble"; "error"; "common"; "help";
    "setup"; "install"; "battery"; "camera"; "tv" ].

Definition issueKeywords : Regex.re := Regex.Alts (map Regex.Lit issueWords).

Definition analyticsKeywords : Regex.re :=
  Regex.Alts
    [ Regex.Lit "analytics"; Regex.Lit "chart"; Regex.Lit "statistic";
      Regex.Lit "data"; DelegatingAgent.showThenStat;
      Regex.Lit "distribution"; Regex.Lit "trend"; Regex.Lit "visual" ].

(** The words of the second pattern that are plain words. *)
Definition analyticsWords : list string :=
  [ "analytics"; "chart"; "statistic"; "data"; "distribution"; "trend";
    "visual" ].

(** The [catch] block of [analyzeQueryRequirements]. *)
Definition keywordAnalysis (userQuery : string) : value :=
  let queryLower := toLowerCase userQuery in
  let hasIssueKeywords := Regex.test issueKeywords queryLower in
  let hasAnalyticsKeywords := Regex.test analyticsKeywords queryLower in
  Obj [ DelegatingAgent.member "needsRAG" (Bool hasIssueKeywords);
        DelegatingAgent.member "needsChart" (Bool hasAnalyticsKeywords);
        DelegatingAgent.member "reasoning"
          (Str (codes "Fallback analysis based on keywords")) ].

Definition analyzeQueryRequirements (userQuery : string) : M value :=
  try_catch
    (response <- invoke (DelegatingAgent.analysisPrompt userQuery) ;;
     ret (DelegatingAgent.parseJSONResponse response))
    (fun _ => ret (keywordAnalysis userQuery)).

(** The prompt of [analyzeQuery] (lines 328-353). *)
Definition analyzeQueryPrompt (query : string) : string :=
  nl
  ++ "Analyze the following user query and determine which tools should be invoked:" ++ nl
  ++ nl
  ++ "User Query: " ++ dq ++ query ++ dq ++ nl
  ++ nl
  ++ "Available Tools:" ++ nl
  ++ "1. RAG Agent - For finding relevant support tickets and solutions" ++ nl
  ++ "2. Chart Tool - For generating analytics and visualizations" ++ nl
  ++ nl
  ++ "Determine if the query needs:" ++ nl
  ++ "- RAG Agent: If the user is asking about specific support issues, solutions, or ticket information" ++ nl
  ++ "- Chart Tool: If the user is asking for analytics, statistics, charts, or data visualization" ++ nl
  ++ "- Both: If the query requires both ticket information and analytics" ++ nl
  ++ nl
  ++ "Respond with a JSON object:" ++ nl
  ++ "{" ++ nl
  ++ "  " ++ dq ++ "needsRAG" ++ dq ++ ": true/false," ++ nl
  ++ "  " ++ dq ++ "needsChart" ++ dq ++ ": true/false," ++ nl
  ++ "  " ++ dq ++ "reasoning" ++ dq ++ ": " ++ dq ++ "brief explanation" ++ dq ++ nl
  ++ "}" ++ nl
  ++ nl
  ++ "Examples:" ++ nl
  ++ "- " ++ dq ++ "How do I fix my iPhone battery issue?" ++ dq ++ " → needsRAG: true, needsChart: false" ++ nl
  ++ "- " ++ dq ++ "Show me ticket statistics" ++ dq ++ " → needsRAG: false, needsChart: true  " ++ nl
  ++ "- " ++ dq ++ "What are the common issues with GoPro and show me the analytics" ++ dq ++ " → needsRAG: true, needsChart: true" ++ nl.

(** The two members that [analyzeQuery] adds to its state,
    [analysis.needsRAG || false] and [analysis.needsChart || false], by
    their truthiness, which is what [handleQueryLegacy] reads of them. *)
Record Decision : Type := { needsRAG : bool; needsChart : bool }.

Definition analyzeQuery (query : string) : M Decision :=
  try_catch
    (response <- invoke (analyzeQueryPrompt query) ;;
     let analysis := DelegatingAgent.parseJSONResponse response in
     ret {| needsRAG := truthy (get "needsRAG" analysis);
            needsChart := truthy (get "needsChart" analysis) |})
    (fun _ => ret {| needsRAG := true; needsChart := false |}).

Definition ragFailureAnswer : string :=
  "I encountered an error while searching for support tickets.".

(** The class declares [combineResults] twice, at lines 417 and 595; an
    instance has the later one, which reads [ragResult.answer] and
    [chartResult] and returns an object with the one member [answer]. *)
Definition combineResults
  (ragAnswer : option string) (chartResult : option Charts) : string :=
  let answer :=
    match ragAnswer with
    | Some a => a
    | None => ""
    end in
  let answer :=
    match chartResult with
    | Some charts =>
        (if (answer =? "")%string then DelegatingAgent.dashboardTitle
         else answer ++ nl ++ nl ++ DelegatingAgent.dashboardTitle)
        ++ DelegatingAgent.chartSummary charts
    | None => answer
    end in
  let answer :=
    if (answer =? "")%string then DelegatingAgent.nothingFoundAnswer else answer in
  trim answer.

(** What [handleQueryLegacy] resolves to: [references] and [chart] are
    [None] when the object has no such member, and [chart] is [Some None]
    when the member is [null]. *)
Record LegacyResponse : Type := {
  answer : string;
  references : option (list Field);
  chart : option (option Charts)
}.

(** The [catch] block of [handleQueryLegacy]. *)
Definition onError : LegacyResponse :=
  {| answer := DelegatingAgent.failureAnswer;
     references := Some [];
     chart := Some None |}.

Section Components.

(** [this.ragAgent.handleQuery], by the [answer] of what it resolves to
    (a text), and [this.chartTool.generateAnalytics]. *)
Variable ragAgent_handleQuery : string -> option string -> M string.
Variable chartTool_generateAnalytics : option string -> M Charts.

Definition executeRAG (query : string) (tenant : option string) : M string :=
  try_catch (ragAgent_handleQuery query tenant)
            (fun _ => ret ragFailureAnswer).

Definition executeChart (tenant : option string) : M Charts :=
  try_catch (chartTool_generateAnalytics tenant)
            (fun _ => ret (ErrorChart (getErrorChart "Failed to generate analytics"))).

Definition handleQueryLegacy (userQuery : string) (tenant : option string)
  : M LegacyResponse :=
  try_catch
    (analysis <- analyzeQuery userQuery ;;
     ragResult <-
       (if needsRAG analysis
        then r <- executeRAG userQuery tenant ;; ret (Some r)
        else ret None) ;;
     chartResult <-
       (if needsChart analysis
        then c <- executeChart tenant ;; ret (Some c)
        else ret None) ;;
     ret {| answer := combineResults ragResult chartResult;
            references := None;
            chart := None |})
    (fun _ => ret onError).

End Components.

End DelegatingAgentUpdated.

(* ------------------------------------------------------------------------- *)
(** ** The route POST /query (src/server.js:169-219) *)
(* ------------------------------------------------------------------------- *)

Module Server.

(** [req.body.query]: no such member, a string, or a value of another
    type, which the validation refuses whatever it is. *)
Inductive QueryField : Type :=
| NoQuery
| QueryText (s : string)
| QueryOther.

(** [req.body.tenant], which the route does not validate: no such member,
    a string, or a decoded value that is no string. *)
Inductive TenantField : Type :=
| NoTenant
| TenantText (s : string)
| TenantOther (v : Json.value).

Record Body : Type := { query : QueryField; tenant : TenantField }.

(** The status and the JSON that the route sends; of the metadata the
    tenant is kept, the two other members being readings of the clock. *)
Inductive Reply : Type :=
| Status400 (error code : string)
| Status200 (answer : string) (references : DelegatingAgent.References)
            (chart : option ChartTool.Charts) (metadataTenant : TenantField)
| Status500 (error code : string).

(** [tenant ? .. : ..] *)
Definition tenantTruthy (t : TenantField) : bool :=
  match t with
  | NoTenant => false
  | TenantText s => negb (s =? "")%string
  | TenantOther v => Json.truthy (Some v)
  end.

(** Can [`${v}`] be evaluated?  A decoded object turns into a string by
    the [toString] of [Object.prototype] unless it has a member [toString]
    of its own, which, as no decoded value is a function, leaves the
    conversion without a method: a [TypeError].  An array joins the
    strings of its elements. *)
Fixpoint printable (v : Json.value) : bool :=
  match v with
  | Json.Obj members =>
      match Json.lookup (Json.codes "toString") members with
      | Some _ => false
      | None => true
      end
  | Json.Arr elements => forallb printable elements
  | _ => true
  end.

(** The line that the route logs before it calls the agent:
    [`.. ${tenant ? ` for tenant: ${tenant}` : ''}`]. *)
Definition logReceived (t : TenantField) : Completion unit :=
  match t with
  | TenantOther v =>
      if Json.truthy (Some v) && negb (printable v)
      then Throw (newError "Cannot convert object to primitive value")
      else Return tt
  | _ => Return tt
  end.

(** [tenant || 'global'] *)
Definition tenantOrGlobal (t : TenantField) : TenantField :=
  if tenantTruthy t then t else TenantText "global".

(** The tenant as the agents take it, for a tenant that is a string or
    that reads as false: the agents test the tenant for truth, and use it
    as a string only when it is true. *)
Definition plainTenant (t : TenantField) : option (option string) :=
  match t with
  | NoTenant => Some None
  | TenantText s => Some (Some s)
  | TenantOther v => if Json.truthy (Some v) then None else Some None
  end.

Definition invalidQuery : Reply :=
  Status400 "Invalid query. Please provide a non-empty string." "INVALID_QUERY".

Definition processingError : Reply :=
  Status500 "Internal server error while processing your query." "PROCESSING_ERROR".

Section Agent.

(** [this.delegatingAgent.handleQuery] *)
Variable delegatingAgent_handleQuery :
  string -> TenantField -> string -> M DelegatingAgent.Response.

(** The handler; [None] is a request whose body was not parsed, so that
    [req.body] is [undefined]. *)
Definition postQueryWith (body : option Body) : M Reply :=
  try_catch
    (match body with
     | None =>
         throw (newError "Cannot destructure property 'query' of 'req.body' as it is undefined.")
     | Some b =>
         match query b with
         | QueryText text =>
             if (text =? "")%string || (String.length (trim text) =? 0)
             then ret invalidQuery
             else
               _ <- lift (logReceived (tenant b)) ;;
               result <- delegatingAgent_handleQuery (trim text) (tenant b) "default" ;;
               ret (Status200
                      (DelegatingAgent.answer result)
                      (DelegatingAgent.references result)
                      (DelegatingAgent.chart result)
                      (tenantOrGlobal (tenant b)))
         | _ => ret invalidQuery
         end
     end)
    (fun _ => ret processingError).

End Agent.

(** The cleaned agent under the route.  A tenant that is neither a string
    nor false is handed by the agent to the client of the store as the
    value of a filter; what the agent then does is [foreign]. *)
Definition agentOn
  (foreign : string -> Json.value -> string -> M DelegatingAgent.Response)
  (userQuery : string) (tenant : TenantField) (threadId : string)
  : M DelegatingAgent.Response :=
  match tenant with
  | TenantOther v =>
      match plainTenant tenant with
      | Some plain => DelegatingAgent.handleQuery userQuery plain threadId
      | None => foreign userQuery v threadId
      end
  | NoTenant => DelegatingAgent.handleQuery userQuery None threadId
  | TenantText s => DelegatingAgent.handleQuery userQuery (Some s) threadId
  end.

(** The route of a server built on the cleaned agent. *)
Definition postQuery
  (foreign : string -> Json.value -> string -> M DelegatingAgent.Response)
  (body : option Body) : M Reply :=
  postQueryWith (agentOn foreign) body.

End Server.

(* ------------------------------------------------------------------------- *)
(** ** Vocabulary for the statements on traces and on the charts *)
(* ------------------------------------------------------------------------- *)

Module Traces.

(** The one query of [getAnalyticsData]. *)
Definition analyticsQuery (tenant : option string) : GetQuery :=
  {| withFields := ChartTool.analyticsFields;
     withNearText := None;
     withWhere := match tenantGiven tenant with
                  | Some t => Some (tenantEquals t)
                  | None => None
                  end;
     withLimit := 10000%N |}.

Definition isLlmCall (c : Call) : bool :=
  match c with
  | CallLlm _ => true
  | _ => false
  end.

(** A call that reads tickets for the retrieval: a query that names the
    fields of a ticket, or a call of the object getter. *)
Definition isRetrievalCall (c : Call) : bool :=
  match c with
  | CallLlm _ => false
  | CallGraphql q => (withFields q =? ticketFields)%string
  | CallGetter _ _ => true
  end.

(** A filter that holds the tenant: "product equals tenant", alone or as
    the first of the two operands of a conjunction. *)
Definition filterScoped (t : string) (f : Where) : Prop :=
  f = tenantEquals t \/ exists g, f = And [tenantEquals t; g].

(** A call that, when it reads the store, reads it under the tenant. *)
Definition callScoped (t : string) (c : Call) : Prop :=
  match c with
  | CallLlm _ => True
  | CallGraphql q => exists f, withWhere q = Some f /\ filterScoped t f
  | CallGetter f _ => filterScoped t f
  end.

(** The limit of a call that reads the store. *)
Definition callLimit (c : Call) : option N :=
  match c with
  | CallLlm _ => None
  | CallGraphql q => Some (withLimit q)
  | CallGetter _ limit => Some limit
  end.




(** What a template literal prints for the value of a label. *)
Definition slotText (v : ChartTool.Slot) : string :=
  match v with
  | ChartTool.Count n => ofNat n
  | ChartTool.Garbled text => text
  end.

(** A line of the summary of a distribution. *)
Definition distributionLine (entry : string * ChartTool.Slot) : string :=
  "- **" ++ fst entry ++ ":** " ++ slotText (snd entry) ++ " tickets" ++ nl.

(** Is there a number, and is it not zero? *)
Definition counted (n : option Q) : bool :=
  match ChartTool.numberGiven n with
  | Some _ => true
  | None => false
  end.

(** Is the first response time a string that the host parses? *)
Definition timed (parse : string -> option Z) (f : Field) : bool :=
  match f with
  | Text s => negb (s =? "")%string
              && match parse s with Some _ => true | None => false end
  | _ => false
  end.

(** The text of a decision, as the prompt of the classifier asks for it. *)
Definition jsonBool (b : bool) : string := if b then "true" else "false".

Definition decisionText (rag chart : bool) : string :=
  "{" ++ dq ++ "needsRAG" ++ dq ++ ": " ++ jsonBool rag ++ ", "
  ++ dq ++ "needsChart" ++ dq ++ ": " ++ jsonBool chart ++ ", "
  ++ dq ++ "reasoning" ++ dq ++ ": " ++ dq ++ "explanation" ++ dq ++ "}".

End Traces.

(* ------------------------------------------------------------------------- *)
(** ** More concrete worlds *)
(* ------------------------------------------------------------------------- *)

Module Scenarios.

Import Examples.

(** The model is out of quota, the store answers every query. *)
Definition storeUp : World :=
  world llmDown (found [t1; t2; t3; t4]) (found []) (Resolves None)
        (found [t1; t2; t3]).

(** An answer of the model in prose around the decision. *)
Definition wrappedReply : string :=
  "Sure. " ++ Traces.decisionText true false ++ " Hope this helps.".

(** A retrieval tool of the legacy path that throws. *)
Definition brokenLegacyTool : string -> option string -> M string :=
  fun _ _ => throw (newError "agent crashed").

(** A chart tool that throws. *)
Definition brokenChartTool : option string -> M ChartTool.Charts :=
  fun _ => throw (newError "chart crashed").

(** An agent whose client of the store throws for a tenant that is no
    string: it answers from its [catch] block. *)
Definition strictClient
  : string -> Json.value -> string -> M DelegatingAgent.Response :=
  fun _ _ threadId =>
    ret (DelegatingAgent.onError threadId (newError "valueText is no string")).


(** A ticket whose priority reads "constructor". *)
Definition oddPriority : Ticket :=
  {| ticketId := Text "T-7";
     ticketSubject := Text "Odd priority";
     ticketDescription := Null;
     resolution := Null;
     ticketStatus := Text "Open";
     ticketPriority := Text "constructor";
     productPurchased := Text "GoPro Hero";
     firstResponseTime := Null;
     timeToResolution := None;
     customerSatisfactionRating := None |}.

(** The store answers the query of the analytics with this ticket. *)
Definition oddStore : World :=
  world llmDown (found []) (found []) (Resolves None) (found [t1; oddPriority]).

End Scenarios.

(* ------------------------------------------------------------------------- *)
(** ** Facts about strings *)
(* ------------------------------------------------------------------------- *)

Section StringFacts.

Lemma append_nil_r (s : string) : s ++ "" = s.
Proof. induction s as [|c s IH]; simpl; [reflexivity | now rewrite IH]. Qed.

Lemma append_assoc (a b c : string) : (a ++ b) ++ c = a ++ (b ++ c).
Proof. induction a as [|x a IH]; simpl; [reflexivity | now rewrite IH]. Qed.

Lemma append_nonempty_r (a b : string) : b <> "" -> a ++ b <> "".
Proof. destruct a; simpl; [auto | discriminate]. Qed.

Lemma length_append (a b : string) :
  String.length (a ++ b) = String.length a + String.length b.
Proof. induction a as [|x a IH]; simpl; [reflexivity | now rewrite IH]. Qed.

Lemma hasInk_app (a b : string) : hasInk (a ++ b) = hasInk a || hasInk b.
Proof.
  induction a as [|c a IH]; simpl; [reflexivity|].
  rewrite IH. now rewrite orb_assoc.
Qed.

Lemma hasInk_nonempty (s : string) : hasInk s = true -> s <> "".
Proof. destruct s; simpl; [discriminate | intros _; discriminate]. Qed.

Lemma trimStart_hasInk (s : string) : hasInk (trimStart s) = hasInk s.
Proof.
  induction s as [|c s IH]; simpl; [reflexivity|].
  destruct (is_ws c) eqn:E; simpl; [exact IH | now rewrite E].
Qed.

Lemma trimEnd_blank (s : string) : hasInk s = false -> trimEnd s = "".
Proof.
  induction s as [|c s IH]; simpl; [reflexivity|].
  intros H. apply orb_false_iff in H as [Hc Hs].
  rewrite (IH Hs). apply negb_false_iff in Hc. now rewrite Hc.
Qed.

Lemma trimEnd_hasInk (s : string) : hasInk (trimEnd s) = hasInk s.
Proof.
  induction s as [|c s IH]; simpl; [reflexivity|].
  destruct (trimEnd s) as [|d t] eqn:E.
  - simpl in IH. rewrite <- IH.
    destruct (is_ws c) eqn:Ec; simpl; now rewrite ?Ec.
  - change (hasInk (String c (String d t))) with
      (negb (is_ws c) || hasInk (String d t)).
    now rewrite IH.
Qed.

Lemma trim_hasInk (s : string) : hasInk (trim s) = hasInk s.
Proof. unfold trim. now rewrite trimEnd_hasInk, trimStart_hasInk. Qed.

(** [trim] leaves something exactly when there is ink. *)
Lemma trim_nonempty (s : string) : hasInk s = true -> trim s <> "".
Proof.
  intros H. apply hasInk_nonempty. now rewrite trim_hasInk.
Qed.

Lemma trim_nonempty_hasInk (s : string) : trim s <> "" -> hasInk (trim s) = true.
Proof.
  intros H. rewrite trim_hasInk.
  destruct (hasInk s) eqn:E; [reflexivity|].
  exfalso. apply H. unfold trim. apply trimEnd_blank.
  now rewrite trimStart_hasInk.
Qed.

Lemma endsWithInk_nonempty (s : string) : endsWithInk s = true -> s <> "".
Proof. destruct s; simpl; [discriminate | intros _; discriminate]. Qed.

Lemma trimEnd_id (s : string) : endsWithInk s = true -> trimEnd s = s.
Proof.
  induction s as [|c s IH]; [discriminate|].
  destruct s as [|d t].
  - simpl. intros H. apply negb_true_iff in H. now rewrite H.
  - intros H. change (endsWithInk (String c (String d t)))
      with (endsWithInk (String d t)) in H.
    specialize (IH H).
    change (trimEnd (String c (String d t))) with
      (match trimEnd (String d t) with
       | EmptyString => if is_ws c then EmptyString else String c EmptyString
       | t0 => String c t0
       end).
    now rewrite IH.
Qed.

Lemma endsWithInk_app (a b : string) :
  b <> "" -> endsWithInk (a ++ b) = endsWithInk b.
Proof.
  intros Hb. induction a as [|c a IH]; [reflexivity|].
  simpl. destruct (a ++ b) eqn:E.
  - exfalso. exact (append_nonempty_r a Hb E).
  - exact IH.
Qed.

(** A text that begins and ends with ink is its own [trim]. *)
Lemma trim_id (c : ascii) (s : string) :
  is_ws c = false -> endsWithInk (String c s) = true ->
  trim (String c s) = String c s.
Proof.
  intros Hc He. unfold trim. simpl trimStart. rewrite Hc.
  now apply trimEnd_id.
Qed.

Lemma substring0_length (n : nat) (s : string) :
  String.length (substring0 n s) <= n.
Proof.
  unfold substring0. revert s. induction n as [|n IH]; intros [|c s]; simpl; try lia.
  specialize (IH s). lia.
Qed.

Lemma substring0_prefix (n : nat) (s : string) :
  prefix (substring0 n s) s = true.
Proof.
  unfold substring0. revert s. induction n as [|n IH]; intros [|c s]; simpl;
    try reflexivity.
  rewrite IH. destruct (ascii_dec c c); [reflexivity | congruence].
Qed.

Lemma substring0_all (n : nat) (s : string) :
  String.length s <= n -> substring0 n s = s.
Proof.
  unfold substring0. revert s. induction n as [|n IH]; intros [|c s]; simpl;
    intros H; try reflexivity; try lia.
  rewrite IH; [reflexivity | lia].
Qed.

End StringFacts.

(* ------------------------------------------------------------------------- *)
(** ** The fuel of the JSON parser *)
(* ------------------------------------------------------------------------- *)

Section JsonFuel.

Import Json.

Lemma skip_ws_length (s : string) :
  String.length (skip_ws s) <= String.length s.
Proof.
  induction s as [|c s IH]; simpl; [lia|].
  destruct (is_json_ws c); simpl; lia.
Qed.

Lemma cons_fst_some {A B : Type} (a : A) (r : option (list A * B))
  (l : list A) (b : B) :
  cons_fst a r = Some (l, b) -> exists l', r = Some (l', b) /\ l = a :: l'.
Proof.
  destruct r as [[l' b']|]; simpl; [|discriminate].
  intros H. inversion H. eauto.
Qed.

Lemma string_body_shorter (s : string) :
  forall x r, string_body s = Some (x, r) -> String.length r < String.length s.
Proof.
  remember (String.length s) as n eqn:En.
  revert s En. induction n as [n IH] using lt_wf_ind. intros s En x r H.
  destruct s as [|c s1]; [discriminate|]. simpl in H, En.
  destruct (N_of_ascii c =? 34)%N.
  { inversion H. subst. lia. }
  destruct (N_of_ascii c =? 92)%N.
  - destruct s1 as [|e s2]; [discriminate|].
    destruct (simple_escape e).
    + apply cons_fst_some in H as (l' & H & _).
      simpl in En. apply (IH (String.length s2)) in H; simpl; lia.
    + destruct (N_of_ascii e =? 117)%N; [|discriminate].
      destruct s2 as [|h1 [|h2 [|h3 [|h4 s3]]]]; try discriminate.
      destruct (hex4 h1 h2 h3 h4); [|discriminate].
      apply cons_fst_some in H as (l' & H & _).
      simpl in En. apply (IH (String.length s3)) in H; simpl; lia.
  - destruct (N_of_ascii c <? 32)%N; [discriminate|].
    apply cons_fst_some in H as (l' & H & _).
    apply (IH (String.length s1)) in H; lia.
Qed.

Lemma digits_length (s : string) :
  forall ds r, digits s = (ds, r) ->
               String.length r + List.length ds = String.length s.
Proof.
  induction s as [|c s IH]; intros ds r H; simpl in H.
  - inversion H. reflexivity.
  - destruct (digit c).
    + destruct (digits s) as [ds' r'] eqn:E. inversion H; subst.
      specialize (IH _ _ eq_refl). simpl. lia.
    + inversion H. subst. simpl. lia.
Qed.

Lemma number_shorter (s : string) (v : value) (r : string) :
  number s = Some (v, r) -> String.length r < String.length s.
Proof.
  unfold number.
  set (sign := match s with
               | String c s' => if (N_of_ascii c =? 45)%N then (true, s') else (false, s)
               | EmptyString => (false, s)
               end).
  assert (Hs : String.length (snd sign) <= String.length s).
  { subst sign. destruct s as [|c s']; simpl; [lia|].
    destruct (N_of_ascii c =? 45)%N; simpl; lia. }
  destruct sign as [neg s1]. simpl in Hs.
  destruct (digits s1) as [int_ds s2] eqn:E1.
  apply digits_length in E1.
  destruct int_ds as [|d0 more]; [discriminate|]. simpl in E1.
  destruct ((d0 =? 0)%N && match more with [] => false | _ => true end);
    [discriminate|].
  set (frac := match s2 with
               | String c s' =>
                   if (N_of_ascii c =? 46)%N then
                     let (fr, s3) := digits s' in
                     match fr with
                     | [] => None
                     | _ => Some (fr, s3)
                     end
                   else Some ([], s2)
               | EmptyString => Some ([], s2)
               end).
  assert (Hf : forall fr s3, frac = Some (fr, s3) ->
                             String.length s3 <= String.length s2).
  { subst frac. intros fr s3 H. destruct s2 as [|c s']; [inversion H; simpl; lia|].
    destruct (N_of_ascii c =? 46)%N; [|inversion H; simpl; lia].
    destruct (digits s') as [fr' s3'] eqn:E. apply digits_length in E.
    destruct fr'; [discriminate|]. inversion H; subst. simpl. lia. }
  destruct frac as [[frac_ds s3]|]; [|discriminate].
  specialize (Hf _ _ eq_refl).
  set (expo := match s3 with
               | String c s' =>
                   if ((N_of_ascii c =? 101) || (N_of_ascii c =? 69))%N then
                     let (minus, s4) :=
                       match s' with
                       | String g s'' =>
                           if (N_of_ascii g =? 45)%N then (true, s'')
                           else if (N_of_ascii g =? 43)%N then (false, s'')
                           else (false, s')
                       | EmptyString => (false, s')
                       end in
                     let (ex, s5) := digits s4 in
                     match ex with
                     | [] => None
                     | _ =>
                         let e := Z.of_N (of_digits ex) in
                         Some ((if minus then - e else e)%Z, s5)
                     end
                   else Some (0%Z, s3)
               | EmptyString => Some (0%Z, s3)
               end).
  assert (He : forall e s5, expo = Some (e, s5) ->
                            String.length s5 <= String.length s3).
  { subst expo. intros e s5 H. destruct s3 as [|c s']; [inversion H; simpl; lia|].
    destruct ((N_of_ascii c =? 101) || (N_of_ascii c =? 69))%N;
      [|inversion H; simpl; lia].
    set (sg := match s' with
               | String g s'' =>
                   if (N_of_ascii g =? 45)%N then (true, s'')
                   else if (N_of_ascii g =? 43)%N then (false, s'')
                   else (false, s')
               | EmptyString => (false, s')
               end) in H.
    assert (Hg : String.length (snd sg) <= String.length s').
    { subst sg. destruct s' as [|g s'']; simpl; [lia|].
      destruct (N_of_ascii g =? 45)%N; simpl; [lia|].
      destruct (N_of_ascii g =? 43)%N; simpl; lia. }
    destruct sg as [minus s4]. simpl in Hg.
    destruct (digits s4) as [ex s5'] eqn:E. apply digits_length in E.
    destruct ex; [discriminate|]. inversion H; subst. simpl. lia. }
  destruct expo as [[e s5]|]; [|discriminate].
  specialize (He _ _ eq_refl).
  intros H. inversion H; subst. lia.
Qed.

Lemma prefix_length (a b : string) :
  prefix a b = true -> String.length a <= String.length b.
Proof.
  revert b. induction a as [|c a IH]; intros b H; simpl; [lia|].
  destruct b as [|d b]; simpl in H; [discriminate|].
  destruct (ascii_dec c d); [|discriminate]. apply IH in H. simpl. lia.
Qed.

Lemma substring_length (n m : nat) (s : string) :
  n + m <= String.length s -> String.length (substring n m s) = m.
Proof.
  revert m s. induction n as [|n IH]; intros m s H.
  - revert s H. induction m as [|m IHm]; intros s H; destruct s; simpl in *;
      try reflexivity; try lia.
    rewrite IHm; [reflexivity | lia].
  - destruct s; simpl in *; [lia|]. apply IH. lia.
Qed.

Lemma expect_shorter (lit : string) (v v' : value) (s r : string) :
  0 < String.length lit ->
  expect lit v s = Some (v', r) -> String.length r < String.length s.
Proof.
  unfold expect. intros L H.
  destruct (prefix lit s) eqn:P; [|discriminate].
  apply prefix_length in P. inversion H; subst.
  rewrite substring_length; lia.
Qed.

End JsonFuel.

Section JsonFuelMain.

Import Json.

Ltac unfold_parser := cbn [parse_value parse_elements parse_members].

Ltac unfold_parser_in H := cbn [parse_value parse_elements parse_members] in H.

Ltac skip_len s E :=
  let L := fresh "L" in
  pose proof (skip_ws_length s) as L; rewrite E in L; simpl in L.

(** A parse that succeeds with some fuel consumes at least one code unit,
    and succeeds alike with any fuel above the number of code units it
    consumes. *)
Lemma parser_fuel (fuel : nat) :
  (forall s v r,
      parse_value fuel s = Some (v, r) ->
      String.length r < String.length s
      /\ forall fuel', String.length s - String.length r < fuel' ->
                       parse_value fuel' s = Some (v, r))
  /\ (forall s vs r,
      parse_elements fuel s = Some (vs, r) ->
      String.length r < String.length s
      /\ forall fuel', String.length s - String.length r < fuel' ->
                       parse_elements fuel' s = Some (vs, r))
  /\ (forall s ms r,
      parse_members fuel s = Some (ms, r) ->
      String.length r < String.length s
      /\ forall fuel', String.length s - String.length r < fuel' ->
                       parse_members fuel' s = Some (ms, r)).
Proof.
  induction fuel as [|f (IHv & IHe & IHm)].
  { repeat split; intros; discriminate. }
  split; [|split].
  - (* a value *)
    intros s v r H. unfold_parser_in H.
    destruct (skip_ws s) as [|c rest] eqn:Es; [discriminate|].
    skip_len s Es.
    destruct (N_of_ascii c =? 123)%N eqn:E123.
    { destruct (skip_ws rest) as [|c1 rest1] eqn:Er; [discriminate|].
      skip_len rest Er.
      destruct (N_of_ascii c1 =? 125)%N eqn:E125.
      - inversion H; subst. split; [lia|].
        intros [|f'] HF; [lia|]. unfold_parser.
        now rewrite Es, E123, Er, E125.
      - destruct (parse_members f (String c1 rest1)) as [[ms r']|] eqn:Em;
          [|discriminate].
        inversion H; subst. destruct (IHm _ _ _ Em) as [Lm Fm]. simpl in Lm.
        split; [lia|].
        intros [|f'] HF; [lia|]. unfold_parser.
        rewrite Es, E123, Er, E125, (Fm f'); [reflexivity | cbn [String.length]; lia]. }
    destruct (N_of_ascii c =? 91)%N eqn:E91.
    { destruct (skip_ws rest) as [|c1 rest1] eqn:Er; [discriminate|].
      skip_len rest Er.
      destruct (N_of_ascii c1 =? 93)%N eqn:E93.
      - inversion H; subst. split; [lia|].
        intros [|f'] HF; [lia|]. unfold_parser.
        now rewrite Es, E123, E91, Er, E93.
      - destruct (parse_elements f (String c1 rest1)) as [[es r']|] eqn:Ee;
          [|discriminate].
        inversion H; subst. destruct (IHe _ _ _ Ee) as [Le Fe]. simpl in Le.
        split; [lia|].
        intros [|f'] HF; [lia|]. unfold_parser.
        rewrite Es, E123, E91, Er, E93, (Fe f'); [reflexivity | cbn [String.length]; lia]. }
    destruct (N_of_ascii c =? 34)%N eqn:E34.
    { destruct (string_body rest) as [[str r']|] eqn:Eb; [|discriminate].
      inversion H; subst. pose proof (string_body_shorter _ Eb) as Lb.
      split; [lia|].
      intros [|f'] HF; [lia|]. unfold_parser.
      now rewrite Es, E123, E91, E34, Eb. }
    destruct (N_of_ascii c =? 116)%N eqn:E116.
    { pose proof (expect_shorter "true" (Bool true) (String c rest)
                    ltac:(simpl; lia) H) as Lx.
      simpl in Lx. split; [lia|].
      intros [|f'] HF; [lia|]. unfold_parser.
      now rewrite Es, E123, E91, E34, E116. }
    destruct (N_of_ascii c =? 102)%N eqn:E102.
    { pose proof (expect_shorter "false" (Bool false) (String c rest)
                    ltac:(simpl; lia) H) as Lx.
      simpl in Lx. split; [lia|].
      intros [|f'] HF; [lia|]. unfold_parser.
      now rewrite Es, E123, E91, E34, E116, E102. }
    destruct (N_of_ascii c =? 110)%N eqn:E110.
    { pose proof (expect_shorter "null" Null (String c rest)
                    ltac:(simpl; lia) H) as Lx.
      simpl in Lx. split; [lia|].
      intros [|f'] HF; [lia|]. unfold_parser.
      now rewrite Es, E123, E91, E34, E116, E102, E110. }
    pose proof (number_shorter _ H) as Ln. simpl in Ln.
    split; [lia|].
    intros [|f'] HF; [lia|]. unfold_parser.
    now rewrite Es, E123, E91, E34, E116, E102, E110.
  - (* the elements of an array *)
    intros s vs r H. unfold_parser_in H.
    destruct (parse_value f s) as [[v r1]|] eqn:Ev; [|discriminate].
    destruct (IHv _ _ _ Ev) as [Lv Fv].
    destruct (skip_ws r1) as [|c r2] eqn:Es; [discriminate|].
    skip_len r1 Es.
    destruct (N_of_ascii c =? 93)%N eqn:E93.
    + inversion H; subst. split; [lia|].
      intros [|f'] HF; [lia|]. unfold_parser.
      rewrite (Fv f') by lia. now rewrite Es, E93.
    + destruct (N_of_ascii c =? 44)%N eqn:E44; [|discriminate].
      apply cons_fst_some in H as (vs' & H & ->).
      destruct (IHe _ _ _ H) as [Le Fe].
      split; [lia|].
      intros [|f'] HF; [lia|]. unfold_parser.
      rewrite (Fv f') by lia. rewrite Es, E93, E44, (Fe f') by lia.
      reflexivity.
  - (* the members of an object *)
    intros s ms r H. unfold_parser_in H.
    destruct (skip_ws s) as [|q r0] eqn:Es; [discriminate|].
    skip_len s Es.
    destruct (N_of_ascii q =? 34)%N eqn:E34; [|discriminate].
    destruct (string_body r0) as [[key r1]|] eqn:Eb; [|discriminate].
    pose proof (string_body_shorter _ Eb) as Lb.
    destruct (skip_ws r1) as [|colon r2] eqn:Ec; [discriminate|].
    skip_len r1 Ec.
    destruct (N_of_ascii colon =? 58)%N eqn:E58; [|discriminate].
    destruct (parse_value f r2) as [[v r3]|] eqn:Ev; [|discriminate].
    destruct (IHv _ _ _ Ev) as [Lv Fv].
    destruct (skip_ws r3) as [|c r4] eqn:E3; [discriminate|].
    skip_len r3 E3.
    destruct (N_of_ascii c =? 125)%N eqn:E125.
    + inversion H; subst. split; [lia|].
      intros [|f'] HF; [lia|]. unfold_parser.
      rewrite Es, E34, Eb, Ec, E58, (Fv f') by lia. now rewrite E3, E125.
    + destruct (N_of_ascii c =? 44)%N eqn:E44; [|discriminate].
      apply cons_fst_some in H as (ms' & H & ->).
      destruct (IHm _ _ _ H) as [Lm Fm].
      split; [lia|].
      intros [|f'] HF; [lia|]. unfold_parser.
      rewrite Es, E34, Eb, Ec, E58, (Fv f') by lia.
      rewrite E3, E125, E44, (Fm f') by lia. reflexivity.
Qed.

(** The fuel that [parse] gives is enough: whatever a larger fuel would
    decode, [parse] decodes. *)
Lemma parse_fuel_enough (text : string) (fuel : nat) (v : value) (rest : string) :
  parse_value fuel text = Some (v, rest) ->
  parse_value (2 * String.length text + 2) text = Some (v, rest).
Proof.
  intros H. destruct (parser_fuel fuel) as (Hv & _ & _).
  destruct (Hv _ _ _ H) as [L F]. apply F. lia.
Qed.

End JsonFuelMain.

(* ------------------------------------------------------------------------- *)
(** ** The regular expressions: the matcher against what a pattern means *)
(* ------------------------------------------------------------------------- *)

Section RegexFacts.

Import Regex.

Lemma append_eq_nil (s t : string) : s ++ t = "" -> s = "" /\ t = "".
Proof. destruct s; simpl; [auto | discriminate]. Qed.

Lemma matches_Empty (s : string) : ~ matches Empty s.
Proof. intros H. inversion H. Qed.

Lemma matches_Eps (s : string) : matches Eps s <-> s = "".
Proof. split; [intros H; now inversion H | intros ->; constructor]. Qed.

Lemma matches_Seq (a b : re) (s : string) :
  matches (Seq a b) s <-> exists s1 s2, s = s1 ++ s2 /\ matches a s1 /\ matches b s2.
Proof.
  split.
  - intros H. inversion H; subst. eauto.
  - intros (s1 & s2 & -> & H1 & H2). now constructor.
Qed.

Lemma matches_Alt (a b : re) (s : string) :
  matches (Alt a b) s <-> matches a s \/ matches b s.
Proof.
  split.
  - intros H. inversion H; subst; auto.
  - intros [H|H]; [now apply MAltL | now apply MAltR].
Qed.

Lemma nullable_spec (r : re) : nullable r = true <-> matches r "".
Proof.
  induction r as [| |p|a IHa b IHb|a IHa b IHb|a IHa]; simpl.
  - split; [discriminate | intros H; inversion H].
  - split; [constructor | reflexivity].
  - split; [discriminate | intros H; inversion H].
  - rewrite andb_true_iff, IHa, IHb, matches_Seq. split.
    + intros [H1 H2]. exists "", "". auto.
    + intros (s1 & s2 & E & H1 & H2). symmetry in E.
      apply append_eq_nil in E as [-> ->]. auto.
  - now rewrite orb_true_iff, IHa, IHb, matches_Alt.
  - split; [constructor | reflexivity].
Qed.

Lemma seq_spec (a b : re) (s : string) : matches (seq a b) s <-> matches (Seq a b) s.
Proof.
  rewrite matches_Seq.
  assert (G : forall x, x = seq a b -> (x = Seq a b)
              \/ (a = Empty /\ x = Empty) \/ (b = Empty /\ x = Empty)
              \/ (a = Eps /\ x = b)).
  { intros x ->. destruct a, b; simpl; auto 10. }
  destruct (G _ eq_refl) as [E|[[Ea E]|[[Eb E]|[Ea E]]]]; rewrite E.
  - apply matches_Seq.
  - subst a. split; [intros H; inversion H|].
    intros (s1 & s2 & _ & H & _). inversion H.
  - subst b. split; [intros H; inversion H|].
    intros (s1 & s2 & _ & _ & H). inversion H.
  - subst a. split.
    + intros H. exists "", s. repeat split; [constructor | assumption].
    + intros (s1 & s2 & -> & H1 & H2). apply matches_Eps in H1. now subst.
Qed.

Lemma alt_spec (a b : re) (s : string) : matches (alt a b) s <-> matches (Alt a b) s.
Proof.
  rewrite matches_Alt.
  assert (G : forall x, x = alt a b -> (x = Alt a b)
              \/ (a = Empty /\ x = b) \/ (b = Empty /\ x = a)).
  { intros x ->. destruct a, b; simpl; auto 10. }
  destruct (G _ eq_refl) as [E|[[Ea E]|[Eb E]]]; rewrite E.
  - apply matches_Alt.
  - subst a. split; [auto | intros [H|H]; [inversion H | assumption]].
  - subst b. split; [auto | intros [H|H]; [assumption | inversion H]].
Qed.

(** A star that matches a text beginning with [c] does so through a first
    round that begins with [c]. *)
Lemma matches_Star_cons (a : re) (c : ascii) (s : string) :
  matches (Star a) (String c s) ->
  exists s1 s2, s = s1 ++ s2 /\ matches a (String c s1) /\ matches (Star a) s2.
Proof.
  intros H. remember (Star a) as r eqn:Er. remember (String c s) as x eqn:Ex.
  revert Er Ex.
  induction H as [| | | | | |a0 s0 t H1 _ H2 IH2]; intros Er Ex;
    try discriminate.
  inversion Er; subst a0.
  destruct s0 as [|d s0'].
  - simpl in Ex. apply IH2; auto.
  - simpl in Ex. inversion Ex; subst. eauto.
Qed.

Lemma deriv_spec (r : re) :
  forall c s, matches (deriv c r) s <-> matches r (String c s).
Proof.
  induction r as [| |p|a IHa b IHb|a IHa b IHb|a IHa]; intros c s; simpl.
  - split; intros H; inversion H.
  - split; intros H; inversion H.
  - destruct (p c) eqn:E.
    + rewrite matches_Eps. split.
      * intros ->. now constructor.
      * intros H. now inversion H.
    + split; [intros H; inversion H|].
      intros H. inversion H; subst. congruence.
  - rewrite alt_spec, matches_Alt, seq_spec, !matches_Seq. split.
    + intros [(s1 & s2 & -> & H1 & H2)|H].
      * exists (String c s1), s2. repeat split; [now apply IHa | assumption].
      * destruct (nullable a) eqn:N; [|inversion H].
        exists "", (String c s). repeat split;
          [now apply nullable_spec | now apply IHb].
    + intros (s1 & s2 & E & H1 & H2). destruct s1 as [|d s1'].
      * right. simpl in E. subst s2.
        apply nullable_spec in H1. rewrite H1. now apply IHb.
      * left. simpl in E. inversion E; subst.
        exists s1', s2. repeat split; [now apply IHa | assumption].
  - rewrite alt_spec, !matches_Alt, IHa, IHb. reflexivity.
  - rewrite seq_spec, matches_Seq. split.
    + intros (s1 & s2 & -> & H1 & H2).
      change (String c (s1 ++ s2)) with (String c s1 ++ s2).
      constructor; [now apply IHa | assumption].
    + intros H. apply matches_Star_cons in H as (s1 & s2 & -> & H1 & H2).
      exists s1, s2. repeat split; [now apply IHa | assumption].
Qed.

Lemma matchesPrefix_spec (s : string) :
  forall r, matchesPrefix r s = true
            <-> exists p rest, s = p ++ rest /\ matches r p.
Proof.
  induction s as [|c s IH]; intros r; simpl.
  - rewrite orb_false_r, nullable_spec. split.
    + intros H. exists "", "". auto.
    + intros (p & rest & E & H). symmetry in E.
      apply append_eq_nil in E as [-> _]. assumption.
  - rewrite orb_true_iff, nullable_spec, IH. split.
    + intros [H|(p & rest & -> & H)].
      * exists "", (String c s). auto.
      * exists (String c p), rest. split; [reflexivity | now apply deriv_spec].
    + intros (p & rest & E & H). destruct p as [|d p'].
      * now left.
      * right. simpl in E. inversion E; subst.
        exists p', rest. split; [reflexivity | now apply deriv_spec].
Qed.

(** [test] finds a match wherever it lies in the text. *)
Lemma test_spec (r : re) (s : string) :
  test r s = true <-> exists pre p post, s = pre ++ p ++ post /\ matches r p.
Proof.
  induction s as [|c s IH]; cbn [test].
  - rewrite orb_false_r, matchesPrefix_spec. split.
    + intros (p & rest & E & H). exists "", p, rest. auto.
    + intros (pre & p & post & E & H). symmetry in E.
      apply append_eq_nil in E as [-> E]. eauto.
  - rewrite orb_true_iff, matchesPrefix_spec, IH. split.
    + intros [(p & rest & E & H)|(pre & p & post & -> & H)].
      * exists "", p, rest. auto.
      * exists (String c pre), p, post. auto.
    + intros (pre & p & post & E & H). destruct pre as [|d pre'].
      * left. exists p, post. auto.
      * right. simpl in E. inversion E; subst. exists pre', p, post. auto.
Qed.

Lemma matches_Lit (w p : string) : matches (Lit w) p <-> p = w.
Proof.
  revert p. induction w as [|c w IH]; intros p; simpl.
  - apply matches_Eps.
  - rewrite matches_Seq. split.
    + intros (s1 & s2 & -> & H1 & H2). inversion H1; subst.
      apply IH in H2. subst.
      match goal with H : Ascii.eqb _ _ = true |- _ => apply Ascii.eqb_eq in H end.
      now subst.
    + intros ->. exists (String c ""), w. repeat split.
      * constructor. apply Ascii.eqb_refl.
      * now apply IH.
Qed.

Lemma matches_Alts (l : list re) (p : string) :
  matches (Alts l) p <-> exists r, In r l /\ matches r p.
Proof.
  induction l as [|r l IH]; simpl.
  - split; [intros H; inversion H | intros (r & [] & _)].
  - rewrite matches_Alt, IH. split.
    + intros [H|(r' & I & H)]; eauto.
    + intros (r' & [<-|I] & H); eauto.
Qed.

Lemma prefix_spec (w s : string) :
  prefix w s = true <-> exists post, s = w ++ post.
Proof.
  revert s. induction w as [|c w IH]; intros s.
  - split; [intros _; now exists s | intros _; now destruct s].
  - destruct s as [|d s]; simpl;
      [split; [discriminate | intros (post & E); discriminate]|].
    destruct (ascii_dec c d) as [->|N].
    + rewrite IH. split; intros (post & E); exists post.
      * rewrite E. reflexivity.
      * simpl in E. now inversion E.
    + split; [discriminate | intros (post & E); simpl in E; inversion E; congruence].
Qed.

Lemma includes_spec (w s : string) :
  includes w s = true <-> exists pre post, s = pre ++ w ++ post.
Proof.
  induction s as [|c s IH]; cbn [includes].
  - rewrite orb_false_r, prefix_spec. split.
    + intros (post & E). exists "", post. auto.
    + intros (pre & post & E). symmetry in E.
      apply append_eq_nil in E as [-> E]. eauto.
  - rewrite orb_true_iff, IH. split.
    + intros [H|(pre & post & ->)].
      * apply prefix_spec in H as (post & E). exists "", post. auto.
      * exists (String c pre), post. auto.
    + intros (pre & post & E). destruct pre as [|d pre'].
      * left. apply prefix_spec. eauto.
      * right. simpl in E. inversion E; subst. eauto.
Qed.

(** For a word, [test] is [includes]. *)
Lemma test_Lit (w s : string) : test (Lit w) s = includes w s.
Proof.
  apply eq_true_iff_eq. rewrite test_spec, includes_spec. split.
  - intros (pre & p & post & -> & H). apply matches_Lit in H. subst. eauto.
  - intros (pre & post & ->). exists pre, w, post. split; [reflexivity|].
    now apply matches_Lit.
Qed.

Lemma test_Alts (l : list re) (s : string) :
  test (Alts l) s = existsb (fun r => test r s) l.
Proof.
  apply eq_true_iff_eq. rewrite test_spec, existsb_exists. split.
  - intros (pre & p & post & -> & H). apply matches_Alts in H as (r & I & H).
    exists r. split; [assumption|]. apply test_spec. eauto.
  - intros (r & I & H). apply test_spec in H as (pre & p & post & -> & H).
    exists pre, p, post. split; [reflexivity|]. apply matches_Alts. eauto.
Qed.

(** An alternation of words is found when one of the words occurs. *)
Lemma test_words (words : list string) (s : string) :
  test (Alts (map Lit words)) s = existsb (fun w => includes w s) words.
Proof.
  rewrite test_Alts. induction words as [|w words IH]; simpl; [reflexivity|].
  now rewrite test_Lit, IH.
Qed.

End RegexFacts.

Section KeywordPatterns.

Import Regex.
Import DelegatingAgent.

Lemma matches_Star_Dot (mid : string) :
  matches (Star Dot) mid <-> hasChar 10 mid = false /\ hasChar 13 mid = false.
Proof.
  split.
  - intros H. remember (Star Dot) as r eqn:Er. revert Er.
    induction H as [| | | | | |a s t H1 _ H2 IH2]; intros Er; try discriminate.
    + split; reflexivity.
    + inversion Er; subst a. destruct (IH2 eq_refl) as [A B].
      inversion H1 as [|p c Hp| | | | |]; subst. simpl.
      apply negb_true_iff, orb_false_iff in Hp as [P1 P2].
      rewrite P1, P2. auto.
  - induction mid as [|c mid IH]; simpl; intros [A B]; [constructor|].
    apply orb_false_iff in A as [A1 A2]. apply orb_false_iff in B as [B1 B2].
    change (String c mid) with (String c "" ++ mid).
    constructor; [|now apply IH].
    constructor. unfold negb. now rewrite A1, B1.
Qed.

(** [show.*stat]: "show", then "stat" further on, with no line break
    between the two. *)
Lemma test_showThenStat (s : string) :
  test showThenStat s = true
  <-> exists pre mid post,
        s = pre ++ "show" ++ mid ++ "stat" ++ post
        /\ hasChar 10 mid = false /\ hasChar 13 mid = false.
Proof.
  rewrite test_spec. unfold showThenStat. split.
  - intros (pre & p & post & -> & H).
    apply matches_Seq in H as (s1 & s23 & -> & H1 & H).
    apply matches_Seq in H as (s2 & s3 & -> & H2 & H3).
    apply matches_Lit in H1, H3. subst s1 s3.
    apply matches_Star_Dot in H2.
    exists pre, s2, post. split; [|assumption].
    now rewrite !append_assoc.
  - intros (pre & mid & post & -> & H).
    exists pre, ("show" ++ mid ++ "stat"), post. split.
    + now rewrite !append_assoc.
    + apply matches_Seq. exists "show", (mid ++ "stat").
      split; [reflexivity|]. split; [now apply matches_Lit|].
      apply matches_Seq. exists mid, "stat".
      split; [reflexivity|]. split; [now apply matches_Star_Dot | now apply matches_Lit].
Qed.

(** The first pattern is found when one of its sixteen words occurs. *)
Lemma issueKeywords_words (s : string) :
  test issueKeywords s = existsb (fun w => includes w s) issueWords.
Proof. apply test_words. Qed.

(** The second pattern is found when one of its eleven words occurs, or
    "show" followed by "stat". *)
Lemma analyticsKeywords_words (s : string) :
  test analyticsKeywords s
  = existsb (fun w => includes w s) analyticsWords || test showThenStat s.
Proof.
  unfold analyticsKeywords. rewrite test_Alts. cbn [existsb analyticsWords].
  rewrite !test_Lit.
  generalize (test showThenStat s); intros b.
  repeat match goal with
         | |- context [includes ?w s] =>
             generalize (includes w s); intro
         end.
  btauto.
Qed.

End KeywordPatterns.

(* ------------------------------------------------------------------------- *)
(** ** The retrieval cascade *)
(* ------------------------------------------------------------------------- *)

Ltac run_step :=
  unfold try_catch, bind, graphqlDo, getterDo, invoke, await, ret, throw, host.

Section CleanedCascade.

Import RAGAgentCleaned.

Variables (query : string) (tenant : option string) (limit : N).
Variable w : World.

Let q1 := semanticQuery query tenant limit.
Let q2 := structuredQuery query tenant limit.
Let f3 := keywordFilter query tenant.

Lemma typeError_is_other (what : string) :
  what = "Get" ->
  isConnectionError (detectErrorType (typeError what)) = false.
Proof. intros ->. reflexivity. Qed.

(** Tier 3 always returns, after exactly one call. *)
Lemma fetchObjectsFallback_run (tr : list Call) :
  fetchObjectsFallback query tenant limit w tr
  = (Return (Cascade.rawTickets (data_getter w f3 limit)),
     (tr ++ [CallGetter f3 limit])%list).
Proof.
  unfold fetchObjectsFallback. run_step. fold f3.
  destruct (data_getter w f3 limit); reflexivity.
Qed.

(** Tier 2 and what follows it. *)
Lemma fallbackSearch_run (tr : list Call) :
  fallbackSearch query tenant limit w tr
  = match graphql_get w q2 with
    | Resolves r =>
        match data r with
        | Some found =>
            match orEmpty found with
            | [] => fetchObjectsFallback query tenant limit w
                      (tr ++ [CallGraphql q2])%list
            | tickets => (Return tickets, (tr ++ [CallGraphql q2])%list)
            end
        | None => fetchObjectsFallback query tenant limit w
                    (tr ++ [CallGraphql q2])%list
        end
    | Rejects e =>
        if isConnectionError (detectErrorType e)
        then (Return [], (tr ++ [CallGraphql q2])%list)
        else fetchObjectsFallback query tenant limit w
               (tr ++ [CallGraphql q2])%list
    end.
Proof.
  unfold fallbackSearch. run_step. fold q2.
  destruct (graphql_get w q2) as [r|e].
  - destruct (data r) as [found|].
    + destruct (orEmpty found); reflexivity.
    + reflexivity.
  - destruct (isConnectionError (detectErrorType e)); reflexivity.
Qed.

Lemma fallbackSearch_returns (tr : list Call) :
  exists tickets tr', fallbackSearch query tenant limit w tr = (Return tickets, tr').
Proof.
  rewrite fallbackSearch_run.
  destruct (graphql_get w q2) as [r|e].
  - destruct (data r) as [found|].
    + destruct (orEmpty found); rewrite ?fetchObjectsFallback_run; eauto.
    + rewrite fetchObjectsFallback_run; eauto.
  - destruct (isConnectionError (detectErrorType e));
      rewrite ?fetchObjectsFallback_run; eauto.
Qed.

(** Tier 1 and what follows it. *)
Lemma searchTickets_run (tr : list Call) :
  searchTickets query tenant limit w tr
  = match graphql_get w q1 with
    | Resolves r =>
        match errors r with
        | first :: _ =>
            if isTransformerError
                 (detectErrorType {| message := first; code := None |})
            then fallbackSearch query tenant limit w (tr ++ [CallGraphql q1])%list
            else
              if isConnectionError
                   (detectErrorType
                      (newError ("GraphQL error: "
                                 ++ match first with
                                    | Some m => m
                                    | None => "undefined"
                                    end)))
              then (Return [], (tr ++ [CallGraphql q1])%list)
              else fallbackSearch query tenant limit w (tr ++ [CallGraphql q1])%list
        | [] =>
            match data r with
            | Some found => (Return (orEmpty found), (tr ++ [CallGraphql q1])%list)
            | None => fallbackSearch query tenant limit w (tr ++ [CallGraphql q1])%list
            end
        end
    | Rejects e =>
        if isConnectionError (detectErrorType e)
        then (Return [], (tr ++ [CallGraphql q1])%list)
        else fallbackSearch query tenant limit w (tr ++ [CallGraphql q1])%list
    end.
Proof.
  unfold searchTickets. run_step. fold q1.
  destruct (graphql_get w q1) as [r|e].
  - destruct (errors r) as [|first rest].
    + destruct (data r); reflexivity.
    + destruct (isTransformerError
                  (detectErrorType {| message := first; code := None |}));
        [reflexivity|].
      match goal with
      | |- context [isConnectionError ?k] => destruct (isConnectionError k)
      end; [reflexivity|].
      match goal with
      | |- context [isTransformerError ?k] => destruct (isTransformerError k)
      end; reflexivity.
  - destruct (isConnectionError (detectErrorType e)); [reflexivity|].
    destruct (isTransformerError (detectErrorType e)); reflexivity.
Qed.

Lemma searchTickets_returns (tr : list Call) :
  exists tickets tr', searchTickets query tenant limit w tr = (Return tickets, tr').
Proof.
  rewrite searchTickets_run.
  destruct (graphql_get w q1) as [r|e].
  - destruct (errors r) as [|first rest].
    + destruct (data r); [eauto | apply fallbackSearch_returns].
    + repeat match goal with
             | |- context [if ?b then _ else _] => destruct b
             end; eauto using fallbackSearch_returns.
  - destruct (isConnectionError (detectErrorType e));
      eauto using fallbackSearch_returns.
Qed.

End CleanedCascade.

Section UpdatedCascade.

Import RAGAgentUpdated.

Variables (query : string) (tenant : option string) (limit : N).
Variable w : World.

Let q1 := semanticQuery query tenant limit.
Let q2 := structuredQuery query tenant limit.
Let f3 := queryFilter query tenant.

Lemma updated_fetchObjectsFallback_run (tr : list Call) :
  fetchObjectsFallback query tenant limit w tr
  = (Return (Cascade.rawTickets (data_getter w f3 limit)),
     (tr ++ [CallGetter f3 limit])%list).
Proof.
  unfold fetchObjectsFallback. run_step. fold f3.
  destruct (data_getter w f3 limit); reflexivity.
Qed.

Lemma updated_fallbackSearch_run (tr : list Call) :
  fallbackSearch query tenant limit w tr
  = match graphql_get w q2 with
    | Resolves r =>
        match data r with
        | Some found => (Return (orEmpty found), (tr ++ [CallGraphql q2])%list)
        | None => fetchObjectsFallback query tenant limit w
                    (tr ++ [CallGraphql q2])%list
        end
    | Rejects e =>
        if isConnectionError e
        then (Return [], (tr ++ [CallGraphql q2])%list)
        else fetchObjectsFallback query tenant limit w
               (tr ++ [CallGraphql q2])%list
    end.
Proof.
  unfold fallbackSearch. run_step. fold q2.
  destruct (graphql_get w q2) as [r|e].
  - destruct (data r); reflexivity.
  - destruct (isConnectionError e); reflexivity.
Qed.

Lemma updated_fallbackSearch_returns (tr : list Call) :
  exists tickets tr', fallbackSearch query tenant limit w tr = (Return tickets, tr').
Proof.
  rewrite updated_fallbackSearch_run.
  destruct (graphql_get w q2) as [r|e].
  - destruct (data r); rewrite ?updated_fetchObjectsFallback_run; eauto.
  - destruct (isConnectionError e);
      rewrite ?updated_fetchObjectsFallback_run; eauto.
Qed.

Lemma updated_searchTickets_run (tr : list Call) :
  searchTickets query tenant limit w tr
  = match graphql_get w q1 with
    | Resolves r =>
        match errors r with
        | Some m :: _ =>
            if mentionsTransformer m
            then fallbackSearch query tenant limit w (tr ++ [CallGraphql q1])%list
            else
              if isConnectionError (newError ("GraphQL error: " ++ m))
              then (Return [], (tr ++ [CallGraphql q1])%list)
              else fallbackSearch query tenant limit w (tr ++ [CallGraphql q1])%list
        | None :: _ =>
            fallbackSearch query tenant limit w (tr ++ [CallGraphql q1])%list
        | [] =>
            match data r with
            | Some found => (Return (orEmpty found), (tr ++ [CallGraphql q1])%list)
            | None => fallbackSearch query tenant limit w (tr ++ [CallGraphql q1])%list
            end
        end
    | Rejects e =>
        if isConnectionError e
        then (Return [], (tr ++ [CallGraphql q1])%list)
        else fallbackSearch query tenant limit w (tr ++ [CallGraphql q1])%list
    end.
Proof.
  unfold searchTickets. run_step. fold q1.
  destruct (graphql_get w q1) as [r|e].
  - destruct (errors r) as [|[m|] rest].
    + destruct (data r); reflexivity.
    + destruct (mentionsTransformer m); [reflexivity|].
      destruct (isConnectionError (newError ("GraphQL error: " ++ m)));
        [reflexivity|].
      destruct (isTransformerError (newError ("GraphQL error: " ++ m)));
        reflexivity.
    + reflexivity.
  - destruct (isConnectionError e); [reflexivity|].
    destruct (isTransformerError e); reflexivity.
Qed.

Lemma updated_searchTickets_returns (tr : list Call) :
  exists tickets tr', searchTickets query tenant limit w tr = (Return tickets, tr').
Proof.
  rewrite updated_searchTickets_run.
  destruct (graphql_get w q1) as [r|e].
  - destruct (errors r) as [|[m|] rest].
    + destruct (data r); [eauto | apply updated_fallbackSearch_returns].
    + repeat match goal with
             | |- context [if ?b then _ else _] => destruct b
             end; eauto using updated_fallbackSearch_returns.
    + apply updated_fallbackSearch_returns.
  - destruct (isConnectionError e); eauto using updated_fallbackSearch_returns.
Qed.

End UpdatedCascade.

Lemma app_two {A : Type} (l : list A) (a b : A) :
  ((l ++ [a]) ++ [b])%list = (l ++ [a; b])%list.
Proof. now rewrite <- app_assoc. Qed.

Lemma app_three {A : Type} (l : list A) (a b c : A) :
  (((l ++ [a]) ++ [b]) ++ [c])%list = (l ++ [a; b; c])%list.
Proof. now rewrite <- !app_assoc. Qed.

Lemma rawEmptyHanded_tickets (o : Outcome (option (list Ticket))) :
  Cascade.rawEmptyHanded o = true -> Cascade.rawTickets o = [].
Proof.
  destruct o as [r|e]; simpl; [|reflexivity].
  destruct (orEmpty r); [reflexivity | discriminate].
Qed.

Lemma cleaned_short_circuits :
  Cascade.ShortCircuits
    RAGAgentCleaned.searchTickets RAGAgentCleaned.fallbackSearch
    RAGAgentCleaned.semanticQuery RAGAgentCleaned.structuredQuery
    RAGAgentCleaned.keywordFilter
    (fun e => RAGAgentCleaned.isConnectionError (RAGAgentCleaned.detectErrorType e)).
Proof.
  intros w query tenant limit tr tier1 tier2. subst tier1 tier2.
  repeat split.
  - intros e H1 Hc. rewrite searchTickets_run, H1, Hc. reflexivity.
  - intros e H2 Hc. rewrite fallbackSearch_run, H2, Hc. reflexivity.
  - intros e1 e2 H1 Hc1 H2 Hc2.
    rewrite searchTickets_run, H1, Hc1, fallbackSearch_run, H2, Hc2.
    now rewrite app_two.
  - intros E1 E2 E3.
    assert (F : forall tr0,
               fst (RAGAgentCleaned.fallbackSearch query tenant limit w tr0)
               = Return []).
    { intros tr0. rewrite fallbackSearch_run.
      destruct (graphql_get w (RAGAgentCleaned.structuredQuery query tenant limit))
        as [r|e]; simpl in E2.
      - unfold Cascade.noTickets in E2.
        destruct (data r) as [found|].
        + destruct (orEmpty found); [|discriminate].
          rewrite fetchObjectsFallback_run. simpl.
          now rewrite rawEmptyHanded_tickets.
        + rewrite fetchObjectsFallback_run. simpl.
          now rewrite rawEmptyHanded_tickets.
      - destruct (RAGAgentCleaned.isConnectionError _); [reflexivity|].
        rewrite fetchObjectsFallback_run. simpl.
        now rewrite rawEmptyHanded_tickets. }
    rewrite searchTickets_run.
    destruct (graphql_get w (RAGAgentCleaned.semanticQuery query tenant limit))
      as [r|e]; simpl in E1.
    + destruct (errors r) as [|first rest].
      * unfold Cascade.noTickets in E1. destruct (data r) as [found|].
        -- simpl. destruct (orEmpty found); [reflexivity | discriminate].
        -- apply F.
      * repeat match goal with
               | |- context [if ?b then _ else _] => destruct b
               end; solve [reflexivity | apply F].
    + destruct (RAGAgentCleaned.isConnectionError _); [reflexivity | apply F].
  - destruct (searchTickets_returns query tenant limit w tr) as (tickets & tr' & E).
    exists tickets. now rewrite E.
Qed.

Lemma updated_short_circuits :
  Cascade.ShortCircuits
    RAGAgentUpdated.searchTickets RAGAgentUpdated.fallbackSearch
    RAGAgentUpdated.semanticQuery RAGAgentUpdated.structuredQuery
    RAGAgentUpdated.queryFilter
    RAGAgentUpdated.isConnectionError.
Proof.
  intros w query tenant limit tr tier1 tier2. subst tier1 tier2.
  repeat split.
  - intros e H1 Hc. rewrite updated_searchTickets_run, H1, Hc. reflexivity.
  - intros e H2 Hc. rewrite updated_fallbackSearch_run, H2, Hc. reflexivity.
  - intros e1 e2 H1 Hc1 H2 Hc2.
    rewrite updated_searchTickets_run, H1, Hc1, updated_fallbackSearch_run, H2, Hc2.
    now rewrite app_two.
  - intros E1 E2 E3.
    assert (F : forall tr0,
               fst (RAGAgentUpdated.fallbackSearch query tenant limit w tr0)
               = Return []).
    { intros tr0. rewrite updated_fallbackSearch_run.
      destruct (graphql_get w (RAGAgentUpdated.structuredQuery query tenant limit))
        as [r|e]; simpl in E2.
      - unfold Cascade.noTickets in E2.
        destruct (data r) as [found|].
        + simpl. destruct (orEmpty found); [reflexivity | discriminate].
        + rewrite updated_fetchObjectsFallback_run. simpl.
          now rewrite rawEmptyHanded_tickets.
      - destruct (RAGAgentUpdated.isConnectionError e); [reflexivity|].
        rewrite updated_fetchObjectsFallback_run. simpl.
        now rewrite rawEmptyHanded_tickets. }
    rewrite updated_searchTickets_run.
    destruct (graphql_get w (RAGAgentUpdated.semanticQuery query tenant limit))
      as [r|e]; simpl in E1.
    + destruct (errors r) as [|[m|] rest].
      * unfold Cascade.noTickets in E1. destruct (data r) as [found|].
        -- simpl. destruct (orEmpty found); [reflexivity | discriminate].
        -- apply F.
      * repeat match goal with
               | |- context [if ?b then _ else _] => destruct b
               end; solve [reflexivity | apply F].
      * apply F.
    + destruct (RAGAgentUpdated.isConnectionError e); [reflexivity | apply F].
  - destruct (updated_searchTickets_returns query tenant limit w tr)
      as (tickets & tr' & E).
    exists tickets. now rewrite E.
Qed.

(* ------------------------------------------------------------------------- *)
(** ** Keywords and the filter of Tiers 2 and 3 *)
(* ------------------------------------------------------------------------- *)

Section Keywords.

Lemma includes_prefix (a b : string) : prefix a b = true -> includes a b = true.
Proof. intros H. destruct b; simpl in *; rewrite H; reflexivity. Qed.

Lemma includes_tail (a : string) (c : ascii) (b : string) :
  includes a b = true -> includes a (String c b) = true.
Proof. intros H. simpl. rewrite H. apply orb_true_r. Qed.

Lemma prefix_nil (s : string) : prefix "" s = true.
Proof. destruct s; reflexivity. Qed.

Lemma prefix_cons (c : ascii) (a b : string) :
  prefix a b = true -> prefix (String c a) (String c b) = true.
Proof. intros H. simpl. destruct (ascii_dec c c); [exact H | congruence]. Qed.

(** The first token starts the text. *)
Lemma splitWs_first_prefix (s : string) :
  exists tok rest, splitWs_go false s = tok :: rest /\ prefix tok s = true.
Proof.
  induction s as [|c s IH].
  - exists "", []. split; reflexivity.
  - simpl. destruct (is_ws c).
    + eexists _, _. split; [reflexivity | reflexivity].
    + destruct IH as (tok & rest & E & P). rewrite E.
      exists (String c tok), rest. split; [reflexivity | now apply prefix_cons].
Qed.

(** Every token occurs in the text. *)
Lemma splitWs_go_includes (s : string) :
  forall prev tok, In tok (splitWs_go prev s) -> includes tok s = true.
Proof.
  induction s as [|c s IH]; intros prev tok H.
  - simpl in H. destruct H as [<-|[]]. reflexivity.
  - simpl in H. destruct (is_ws c).
    + assert (H' : tok = "" \/ In tok (splitWs_go true s)).
      { destruct prev; [now right | destruct H as [<-|H]; [now left | now right]]. }
      destruct H' as [->|H'].
      * apply includes_prefix, prefix_nil.
      * apply includes_tail. eapply IH; eauto.
    + destruct (splitWs_first_prefix s) as (tok0 & rest & E & P).
      rewrite E in H. destruct H as [<-|H].
      * apply includes_prefix. now apply prefix_cons.
      * apply includes_tail. apply (IH false). rewrite E. now right.
Qed.

(** No token holds white space. *)
Lemma splitWs_go_no_ws (s : string) :
  forall prev tok, In tok (splitWs_go prev s) -> hasWs tok = false.
Proof.
  induction s as [|c s IH]; intros prev tok H.
  - simpl in H. destruct H as [<-|[]]. reflexivity.
  - simpl in H. destruct (is_ws c) eqn:Ec.
    + assert (H' : tok = "" \/ In tok (splitWs_go true s)).
      { destruct prev; [now right | destruct H as [<-|H]; [now left | now right]]. }
      destruct H' as [->|H']; [reflexivity | eapply IH; eauto].
    + destruct (splitWs_go false s) as [|tok0 rest] eqn:E.
      * destruct H as [<-|[]]. simpl. now rewrite Ec.
      * destruct H as [<-|H].
        -- simpl. rewrite Ec. apply (IH false). rewrite E. now left.
        -- apply (IH false). rewrite E. now right.
Qed.

Lemma In_firstn {A : Type} (n : nat) (l : list A) (x : A) :
  In x (firstn n l) -> In x l.
Proof.
  intros H. rewrite <- (firstn_skipn n l). apply in_or_app. now left.
Qed.

Lemma extractKeywords_words (query : string) :
  Forall (fun k => 2 < String.length k
                   /\ hasWs k = false
                   /\ includes k (toLowerCase query) = true)
         (RAGAgentCleaned.extractKeywords query).
Proof.
  apply Forall_forall. intros k H.
  unfold RAGAgentCleaned.extractKeywords in H.
  apply In_firstn in H. apply filter_In in H as [H L].
  unfold splitWs in H. repeat split.
  - now apply Nat.ltb_lt.
  - eapply splitWs_go_no_ws; eauto.
  - eapply splitWs_go_includes; eauto.
Qed.

End Keywords.

(* ------------------------------------------------------------------------- *)
(** ** The statements of the specification on the retrieval engine *)
(* ------------------------------------------------------------------------- *)

(** C2.  In both versions of the RAGAgent: when the Tier 1 call is rejected
    with an error that the version takes for a connection failure,
    [searchTickets] returns the empty list and the Tier 1 query is the only
    call it has made; when the Tier 2 call is rejected with such an error,
    [fallbackSearch] returns the empty list after that one call (and so does
    the whole search, after Tiers 1 and 2 only); when each of the three
    tiers fails or finds nothing the search returns the empty list; and in
    every world the search returns and does not throw. *)
Theorem C2_transport_failure_short_circuits :
  Cascade.ShortCircuits
    RAGAgentCleaned.searchTickets RAGAgentCleaned.fallbackSearch
    RAGAgentCleaned.semanticQuery RAGAgentCleaned.structuredQuery
    RAGAgentCleaned.keywordFilter
    (fun e => RAGAgentCleaned.isConnectionError (RAGAgentCleaned.detectErrorType e))
  /\ Cascade.ShortCircuits
       RAGAgentUpdated.searchTickets RAGAgentUpdated.fallbackSearch
       RAGAgentUpdated.semanticQuery RAGAgentUpdated.structuredQuery
       RAGAgentUpdated.queryFilter
       RAGAgentUpdated.isConnectionError.
Proof. split; [apply cleaned_short_circuits | apply updated_short_circuits]. Qed.

(** With the store refusing the connection, the two versions return the
    empty list after the semantic query alone. *)
Lemma C2_store_refused :
  RAGAgentCleaned.searchTickets "battery drains fast" None 5 Examples.storeRefused []
  = (Return [],
     [CallGraphql (RAGAgentCleaned.semanticQuery "battery drains fast" None 5)])
  /\ RAGAgentUpdated.searchTickets "battery drains fast" None 5 Examples.storeRefused []
     = (Return [],
        [CallGraphql (RAGAgentUpdated.semanticQuery "battery drains fast" None 5)]).
Proof.
  destruct C2_transport_failure_short_circuits as [Hc Hu].
  split.
  - destruct (Hc Examples.storeRefused "battery drains fast" None 5%N [])
      as [H _].
    exact (H Examples.refused eq_refl eq_refl).
  - destruct (Hu Examples.storeRefused "battery drains fast" None 5%N [])
      as [H _].
    exact (H Examples.refused eq_refl eq_refl).
Defined.

(** The version of src/agents/ragAgent.js returns from Tier 2 whatever it
    found there, be it nothing. *)
Lemma updated_keyword_tier (w : World) (query : string) (tenant : option string)
  (limit : N) (tr : list Call) (r2 : GqlResult) (found : option (list Ticket)) :
  Cascade.embeddingFailureUpdated
    (graphql_get w (RAGAgentUpdated.semanticQuery query tenant limit)) = true ->
  graphql_get w (RAGAgentUpdated.structuredQuery query tenant limit) = Resolves r2 ->
  data r2 = Some found ->
  RAGAgentUpdated.searchTickets query tenant limit w tr
  = (Return (orEmpty found),
     (tr ++ [CallGraphql (RAGAgentUpdated.semanticQuery query tenant limit);
             CallGraphql (RAGAgentUpdated.structuredQuery query tenant limit)])%list).
Proof.
  intros E1 E2 D.
  assert (F : RAGAgentUpdated.fallbackSearch query tenant limit w
                (tr ++ [CallGraphql (RAGAgentUpdated.semanticQuery query tenant limit)])%list
              = (Return (orEmpty found),
                 (tr ++ [CallGraphql (RAGAgentUpdated.semanticQuery query tenant limit);
                         CallGraphql (RAGAgentUpdated.structuredQuery query tenant limit)])%list)).
  { rewrite updated_fallbackSearch_run, E2, D. now rewrite app_two. }
  rewrite updated_searchTickets_run.
  destruct (graphql_get w (RAGAgentUpdated.semanticQuery query tenant limit))
    as [r|e]; unfold Cascade.embeddingFailureUpdated in E1.
  - destruct (errors r) as [|[m|] rest]; try discriminate.
    rewrite E1. exact F.
  - apply andb_true_iff in E1 as [_ E1]. apply negb_true_iff in E1.
    rewrite E1. exact F.
Qed.

(** C5, as the code has it.  When Tier 1 fails with an embedding-service
    failure and Tier 2 finds at least one ticket, the search returns the
    tickets of Tier 2, all of them and in their order, after the calls of
    Tiers 1 and 2 and no other; this holds in both versions of the
    RAGAgent.  The result is the bare list.  When Tier 2 finds no ticket,
    the cleaned version goes on to Tier 3 and returns what Tier 3 hands
    back, while the version of src/agents/ragAgent.js returns the empty
    list without a third call. *)
Theorem C5_keyword_tier_result :
  forall (w : World) (query : string) (tenant : option string) (limit : N)
         (tr : list Call),
    (forall r2,
        Cascade.embeddingFailure
          (graphql_get w (RAGAgentCleaned.semanticQuery query tenant limit)) = true ->
        graphql_get w (RAGAgentCleaned.structuredQuery query tenant limit)
        = Resolves r2 ->
        (forall t rest,
            data r2 = Some (Some (t :: rest)) ->
            RAGAgentCleaned.searchTickets query tenant limit w tr
            = (Return (t :: rest),
               (tr ++ [CallGraphql (RAGAgentCleaned.semanticQuery query tenant limit);
                       CallGraphql (RAGAgentCleaned.structuredQuery query tenant limit)])%list))
        /\ (Cascade.noTickets r2 = true ->
            RAGAgentCleaned.searchTickets query tenant limit w tr
            = (Return (Cascade.rawTickets
                         (data_getter w (RAGAgentCleaned.keywordFilter query tenant) limit)),
               (tr ++ [CallGraphql (RAGAgentCleaned.semanticQuery query tenant limit);
                       CallGraphql (RAGAgentCleaned.structuredQuery query tenant limit);
                       CallGetter (RAGAgentCleaned.keywordFilter query tenant) limit])%list)))
    /\ (forall r2 found,
        Cascade.embeddingFailureUpdated
          (graphql_get w (RAGAgentUpdated.semanticQuery query tenant limit)) = true ->
        graphql_get w (RAGAgentUpdated.structuredQuery query tenant limit)
        = Resolves r2 ->
        data r2 = Some found ->
        RAGAgentUpdated.searchTickets query tenant limit w tr
        = (Return (orEmpty found),
           (tr ++ [CallGraphql (RAGAgentUpdated.semanticQuery query tenant limit);
                   CallGraphql (RAGAgentUpdated.structuredQuery query tenant limit)])%list)).
Proof.
  intros w query tenant limit tr. split.
  - intros r2 E1 E2.
    assert (S : RAGAgentCleaned.searchTickets query tenant limit w tr
                = RAGAgentCleaned.fallbackSearch query tenant limit w
                    (tr ++ [CallGraphql (RAGAgentCleaned.semanticQuery query tenant limit)])%list).
    { rewrite searchTickets_run.
      destruct (graphql_get w (RAGAgentCleaned.semanticQuery query tenant limit))
        as [r|e]; unfold Cascade.embeddingFailure in E1.
      - destruct (errors r) as [|first more]; [discriminate|].
        now rewrite E1.
      - apply andb_true_iff in E1 as [_ E1]. apply negb_true_iff in E1.
        now rewrite E1. }
    rewrite S, fallbackSearch_run, E2. split.
    + intros t rest D. rewrite D. simpl. now rewrite app_two.
    + intros D. unfold Cascade.noTickets in D.
      destruct (data r2) as [found|].
      * destruct (orEmpty found); [|discriminate].
        rewrite fetchObjectsFallback_run. now rewrite app_three.
      * rewrite fetchObjectsFallback_run. now rewrite app_three.
  - intros r2 found. apply updated_keyword_tier.
Qed.

(** With the vectorizer down and two tickets matching the keywords, the
    search returns these two after the calls of Tiers 1 and 2. *)
Lemma C5_embedding_down :
  RAGAgentCleaned.searchTickets "battery drains" None 5 Examples.embeddingDown []
  = (Return [Examples.t1; Examples.t2],
     [CallGraphql (RAGAgentCleaned.semanticQuery "battery drains" None 5);
      CallGraphql (RAGAgentCleaned.structuredQuery "battery drains" None 5)]).
Proof.
  destruct (C5_keyword_tier_result Examples.embeddingDown "battery drains" None
              5%N []) as [H _].
  destruct (H {| errors := []; data := Some (Some [Examples.t1; Examples.t2]) |}
              eq_refl eq_refl) as [H1 _].
  exact (H1 Examples.t1 [Examples.t2] eq_refl).
Defined.

(** C5 as stated fails: the result of a search answered by Tier 2 is the
    very value a search answered by Tier 1 returns, so that nothing read off
    the result can be a tier marker that is keyword-structured for the one
    and semantic for the other. *)
Lemma C5_no_tier_marker :
  Cascade.embeddingFailure
    (graphql_get Examples.embeddingDown
       (RAGAgentCleaned.semanticQuery "battery drains" None 5)) = true
  /\ graphql_get Examples.embeddingDown
       (RAGAgentCleaned.structuredQuery "battery drains" None 5)
     = Examples.found [Examples.t1; Examples.t2]
  /\ graphql_get Examples.allUp
       (RAGAgentCleaned.semanticQuery "battery drains" None 5)
     = Examples.found [Examples.t1; Examples.t2]
  /\ fst (run (RAGAgentCleaned.searchTickets "battery drains" None 5)
              Examples.embeddingDown)
     = fst (run (RAGAgentCleaned.searchTickets "battery drains" None 5)
                Examples.allUp)
  /\ ~ (exists marker : Completion (list Ticket) -> Cascade.Tier,
          marker (fst (run (RAGAgentCleaned.searchTickets "battery drains" None 5)
                           Examples.embeddingDown))
          = Cascade.keyword_structured
          /\ marker (fst (run (RAGAgentCleaned.searchTickets "battery drains" None 5)
                              Examples.allUp))
             = Cascade.semantic).
Proof.
  assert (E : fst (run (RAGAgentCleaned.searchTickets "battery drains" None 5)
                       Examples.embeddingDown)
              = fst (run (RAGAgentCleaned.searchTickets "battery drains" None 5)
                         Examples.allUp)) by reflexivity.
  repeat split; try reflexivity.
  intros (marker & H1 & H2). rewrite E in H1. congruence.
Qed.

(** In src/agents/ragAgent.js a keyword search that finds nothing ends the
    search: the object getter, which would have found a ticket, is not
    called. *)
Lemma updated_keyword_miss_stops :
  RAGAgentUpdated.searchTickets "battery drains" None 5 Examples.keywordMiss []
  = (Return [],
     [CallGraphql (RAGAgentUpdated.semanticQuery "battery drains" None 5);
      CallGraphql (RAGAgentUpdated.structuredQuery "battery drains" None 5)])
  /\ RAGAgentCleaned.searchTickets "battery drains" None 5 Examples.keywordMiss []
     = (Return [Examples.t3],
        [CallGraphql (RAGAgentCleaned.semanticQuery "battery drains" None 5);
         CallGraphql (RAGAgentCleaned.structuredQuery "battery drains" None 5);
         CallGetter (RAGAgentCleaned.keywordFilter "battery drains" None) 5]).
Proof. split; reflexivity. Qed.

(** The calls of Tiers 2 and 3 in the version of src/agents/ragAgent.js. *)
Lemma updated_fallback_trace (w : World) (query : string) (tenant : option string)
  (limit : N) (tr : list Call) :
  let tier2 := CallGraphql (RAGAgentUpdated.structuredQuery query tenant limit) in
  let tier3 := CallGetter (RAGAgentUpdated.queryFilter query tenant) limit in
  (snd (RAGAgentUpdated.fallbackSearch query tenant limit w tr) = (tr ++ [tier2])%list
   \/ snd (RAGAgentUpdated.fallbackSearch query tenant limit w tr)
      = (tr ++ [tier2; tier3])%list)
  /\ snd (RAGAgentUpdated.fetchObjectsFallback query tenant limit w tr)
     = (tr ++ [tier3])%list.
Proof.
  intros tier2 tier3. split.
  - rewrite updated_fallbackSearch_run. fold tier2.
    destruct (graphql_get w _) as [r|e].
    + destruct (data r); [now left|].
      right. rewrite updated_fetchObjectsFallback_run. simpl. apply app_two.
    + destruct (RAGAgentUpdated.isConnectionError e); [now left|].
      right. rewrite updated_fetchObjectsFallback_run. simpl. apply app_two.
  - rewrite updated_fetchObjectsFallback_run. reflexivity.
Qed.

(** C6, as the code has it.  In the cleaned RAGAgent the keywords of a
    query are the first three, in their order, of the white-space separated
    tokens of the lower-cased query that are longer than two code units: at
    most three words free of white space that occur in the lower-cased
    query.  Its filter is the disjunction, over the keywords, of "subject,
    description or product is like *keyword*", set under a conjunction with
    "product equals tenant" when a tenant is given (a non-empty string).
    In the version of src/agents/ragAgent.js the filter is "subject or
    description is like *query*", for the query as it was typed, under the
    same conjunction with the tenant.  In either version Tier 2 sends a
    structured query with the filter of the version and Tier 3 calls the
    object getter with the same filter. *)
Theorem C6_keyword_filter :
  forall (query : string) (tenant : option string),
    let keywords := RAGAgentCleaned.extractKeywords query in
    let candidates :=
      filter (fun word => 2 <? String.length word) (splitWs (toLowerCase query)) in
    let perKeyword := fun keyword =>
      Or [ Like ["ticketSubject"] ("*" ++ keyword ++ "*");
           Like ["ticketDescription"] ("*" ++ keyword ++ "*");
           Like ["productPurchased"] ("*" ++ keyword ++ "*") ] in
    let wholeQuery :=
      Or [ Like ["ticketSubject"] ("*" ++ query ++ "*");
           Like ["ticketDescription"] ("*" ++ query ++ "*") ] in
    let underTenant := fun (f : Where) =>
      match tenant with
      | Some t => if (t =? "")%string then f
                  else And [ Equal ["productPurchased"] t; f ]
      | None => f
      end in
    keywords = firstn 3 candidates
    /\ candidates = (keywords ++ skipn 3 candidates)%list
    /\ List.length keywords = Nat.min 3 (List.length candidates)
    /\ Forall (fun k => 2 < String.length k
                        /\ hasWs k = false
                        /\ includes k (toLowerCase query) = true) keywords
    /\ RAGAgentCleaned.keywordFilter query tenant
       = underTenant (Or (map perKeyword keywords))
    /\ RAGAgentUpdated.queryFilter query tenant = underTenant wholeQuery
    /\ (forall (w : World) (limit : N) (tr : list Call),
           let filter := RAGAgentCleaned.keywordFilter query tenant in
           let tier2 :=
             CallGraphql {| withFields := ticketFields; withNearText := None;
                            withWhere := Some filter; withLimit := limit |} in
           let tier3 := CallGetter filter limit in
           (snd (RAGAgentCleaned.fallbackSearch query tenant limit w tr)
            = (tr ++ [tier2])%list
            \/ snd (RAGAgentCleaned.fallbackSearch query tenant limit w tr)
               = (tr ++ [tier2; tier3])%list)
           /\ snd (RAGAgentCleaned.fetchObjectsFallback query tenant limit w tr)
              = (tr ++ [tier3])%list)
    /\ (forall (w : World) (limit : N) (tr : list Call),
           let filter := RAGAgentUpdated.queryFilter query tenant in
           let tier2 :=
             CallGraphql {| withFields := ticketFields; withNearText := None;
                            withWhere := Some filter; withLimit := limit |} in
           let tier3 := CallGetter filter limit in
           (snd (RAGAgentUpdated.fallbackSearch query tenant limit w tr)
            = (tr ++ [tier2])%list
            \/ snd (RAGAgentUpdated.fallbackSearch query tenant limit w tr)
               = (tr ++ [tier2; tier3])%list)
           /\ snd (RAGAgentUpdated.fetchObjectsFallback query tenant limit w tr)
              = (tr ++ [tier3])%list).
Proof.
  intros query tenant keywords candidates perKeyword wholeQuery underTenant.
  split; [reflexivity|].
  split; [symmetry; apply firstn_skipn|].
  split; [apply length_firstn|].
  split; [apply extractKeywords_words|].
  split.
  { unfold RAGAgentCleaned.keywordFilter, tenantGiven, underTenant.
    destruct tenant as [t|]; [destruct (t =? "")%string|]; reflexivity. }
  split.
  { unfold RAGAgentUpdated.queryFilter, tenantGiven, underTenant.
    destruct tenant as [t|]; [destruct (t =? "")%string|]; reflexivity. }
  split.
  - intros w limit tr filter0 tier2 tier3. split.
    + rewrite fallbackSearch_run.
      change (RAGAgentCleaned.structuredQuery query tenant limit)
        with {| withFields := ticketFields; withNearText := None;
                withWhere := Some filter0; withLimit := limit |}.
      fold tier2.
      destruct (graphql_get w _) as [r|e].
      * destruct (data r) as [found|].
        -- destruct (orEmpty found); [|now left].
           right. rewrite fetchObjectsFallback_run. simpl. apply app_two.
        -- right. rewrite fetchObjectsFallback_run. simpl. apply app_two.
      * destruct (RAGAgentCleaned.isConnectionError _); [now left|].
        right. rewrite fetchObjectsFallback_run. simpl. apply app_two.
    + rewrite fetchObjectsFallback_run. reflexivity.
  - intros w limit tr filter0 tier2 tier3.
    exact (updated_fallback_trace w query tenant limit tr).
Qed.

(** A query of four words for one product: the cleaned version filters on
    its two keywords, the other version on the query as typed. *)
Lemma C6_two_keywords :
  RAGAgentCleaned.extractKeywords "My battery is dead" = ["battery"; "dead"]
  /\ RAGAgentCleaned.keywordFilter "My battery is dead" (Some "GoPro Hero")
     = And [ Equal ["productPurchased"] "GoPro Hero";
             Or [ Or [ Like ["ticketSubject"] "*battery*";
                       Like ["ticketDescription"] "*battery*";
                       Like ["productPurchased"] "*battery*" ];
                  Or [ Like ["ticketSubject"] "*dead*";
                       Like ["ticketDescription"] "*dead*";
                       Like ["productPurchased"] "*dead*" ] ] ]
  /\ RAGAgentUpdated.queryFilter "My battery is dead" (Some "GoPro Hero")
     = And [ Equal ["productPurchased"] "GoPro Hero";
             Or [ Like ["ticketSubject"] "*My battery is dead*";
                  Like ["ticketDescription"] "*My battery is dead*" ] ].
Proof.
  destruct (C6_keyword_filter "My battery is dead" (Some "GoPro Hero"))
    as (K & _ & _ & _ & F & U & _).
  split; [exact K|]. split; [exact F | exact U].
Defined.

(** C6 as stated fails for the Tier 2 of src/agents/ragAgent.js: its filter
    for "My battery is dead" holds neither of the keywords "battery" and
    "dead" nor a condition on the product, but the query as it was typed. *)
Lemma C6_whole_query_filter :
  withWhere (RAGAgentUpdated.structuredQuery "My battery is dead" None 5)
  = Some (Or [ Like ["ticketSubject"] "*My battery is dead*";
               Like ["ticketDescription"] "*My battery is dead*" ])
  /\ withWhere (RAGAgentUpdated.structuredQuery "My battery is dead" None 5)
     <> Some (Or [ Or [ Like ["ticketSubject"] "*battery*";
                        Like ["ticketDescription"] "*battery*";
                        Like ["productPurchased"] "*battery*" ];
                   Or [ Like ["ticketSubject"] "*dead*";
                        Like ["ticketDescription"] "*dead*";
                        Like ["productPurchased"] "*dead*" ] ]).
Proof. split; [reflexivity | discriminate]. Qed.

(** An error object that carries the code ECONNREFUSED and no message is a
    connection error for the cleaned version; the version of
    src/agents/ragAgent.js, which tests the message first, does not take
    it for one. *)
Lemma code_without_message :
  RAGAgentCleaned.isConnectionError
    (RAGAgentCleaned.detectErrorType
       {| message := None; code := Some "ECONNREFUSED" |}) = true
  /\ RAGAgentUpdated.isConnectionError
       {| message := None; code := Some "ECONNREFUSED" |} = false.
Proof. split; reflexivity. Qed.

(* ------------------------------------------------------------------------- *)
(** ** The template answer *)
(* ------------------------------------------------------------------------- *)

Section TemplateAnswer.

Lemma fallbackNote_ends_with_ink : endsWithInk fallbackNote = true.
Proof. reflexivity. Qed.

Lemma fallbackText_starts (userQuery : string) (tickets : list Ticket) :
  exists s, fallbackText userQuery tickets = String "B" s.
Proof. eexists. reflexivity. Qed.

(** The template text has nothing for [trim] to remove. *)
Lemma fallbackText_trim (userQuery : string) (tickets : list Ticket) :
  trim (fallbackText userQuery tickets) = fallbackText userQuery tickets.
Proof.
  destruct (fallbackText_starts userQuery tickets) as [s E].
  assert (He : endsWithInk (fallbackText userQuery tickets) = true).
  { unfold fallbackText.
    assert (N : fallbackNote <> "") by discriminate.
    rewrite !endsWithInk_app; auto using append_nonempty_r. }
  rewrite E in *. apply trim_id; [reflexivity | exact He].
Qed.

Lemma generateFallbackResponse_answer
  (userQuery : string) (t : Ticket) (rest : list Ticket) (err : JsError) :
  answer (generateFallbackResponse userQuery (t :: rest) err)
  = fallbackText userQuery (t :: rest).
Proof. simpl. apply fallbackText_trim. Qed.

(** When the model fails, the answer is the template's. *)
Lemma generateResponse_failure
  (w : World) (userQuery : string) (t : Ticket) (rest : list Ticket)
  (err : JsError) (tr : list Call) :
  llm_invoke w (answerPrompt userQuery (t :: rest)) = Rejects err ->
  generateResponse userQuery (t :: rest) w tr
  = (Return (generateFallbackResponse userQuery (t :: rest) err),
     (tr ++ [CallLlm (answerPrompt userQuery (t :: rest))])%list).
Proof.
  intros H. unfold generateResponse. run_step. now rewrite H.
Qed.

Lemma ticketLoop_five (a b c d e : Ticket) :
  ticketLoop 5 0 [a; b; c; d; e]
  = ticketBlock a ++ ticketBlock b ++ ticketBlock c
    ++ "... and 2 more similar ticket(s)." ++ nl.
Proof. reflexivity. Qed.

Lemma guidance_table (queryLower : string) :
  guidance queryLower = TipTable.firstCategory TipTable.table queryLower.
Proof.
  unfold guidance. simpl.
  destruct (includes "battery" queryLower); simpl; [reflexivity|].
  destruct (includes "camera" queryLower); simpl; [reflexivity|].
  destruct (includes "recording" queryLower); simpl; [reflexivity|].
  destruct (includes "setup" queryLower); simpl; [reflexivity|].
  destruct (includes "install" queryLower); reflexivity.
Qed.

End TemplateAnswer.

(** C7.  For five tickets and a model call that fails, the answer is the
    header, the blocks of the first three tickets, the line that counts the
    two tickets left out, the guidance and the note, in this order; the
    references list the identifiers of the five tickets.  A block has the
    four lines of identifier with priority ("Unknown" for a ticket without
    one), subject, product and status, each printed as the field is, then
    the description, when there is one, cut to 150 code units, then the
    resolution, when there is one, cut to 200 code units, then an empty
    line. *)
Theorem C7_template_five_tickets :
  forall (w : World) (userQuery : string) (a b c d e : Ticket) (err : JsError)
         (tr : list Call),
    llm_invoke w (answerPrompt userQuery [a; b; c; d; e]) = Rejects err ->
    exists result,
      fst (generateResponse userQuery [a; b; c; d; e] w tr) = Return result
      /\ answer result
         = fallbackHeader userQuery 5
           ++ (ticketBlock a ++ ticketBlock b ++ ticketBlock c
               ++ "... and 2 more similar ticket(s)." ++ nl)
           ++ guidance (toLowerCase userQuery)
           ++ fallbackNote
      /\ ticketIds (references result)
         = [ticketId a; ticketId b; ticketId c; ticketId d; ticketId e]
      /\ fallbackUsed (references result) = true
      /\ (forall t,
             ticketBlock t
             = ticketHead t ++ issueLine (ticketDescription t)
               ++ resolutionLine (resolution t) ++ nl)
      /\ (forall t,
             ticketHead t
             = "**Ticket #" ++ fieldToString (ticketId t) ++ "** ("
               ++ fieldOr (ticketPriority t) "Unknown" ++ " Priority)" ++ nl
               ++ "**Subject:** " ++ fieldToString (ticketSubject t) ++ nl
               ++ "**Product:** " ++ fieldToString (productPurchased t) ++ nl
               ++ "**Status:** " ++ fieldToString (ticketStatus t) ++ nl)
      /\ (forall id priority subject product status description solution,
             ticketBlock
               {| ticketId := Text id;
                  ticketSubject := Text subject;
                  ticketDescription := Text description;
                  resolution := Text solution;
                  ticketStatus := Text status;
                  ticketPriority := Text priority;
                  productPurchased := Text product;
                  firstResponseTime := Undefined;
                  timeToResolution := None;
                  customerSatisfactionRating := None |}
             = "**Ticket #" ++ id ++ "** ("
               ++ (if (priority =? "")%string then "Unknown" else priority)
               ++ " Priority)" ++ nl
               ++ "**Subject:** " ++ subject ++ nl
               ++ "**Product:** " ++ product ++ nl
               ++ "**Status:** " ++ status ++ nl
               ++ (if (description =? "")%string then ""
                   else "**Issue:** " ++ substring0 150 description
                        ++ (if 150 <? String.length description then "..." else "")
                        ++ nl)
               ++ (if (solution =? "")%string then ""
                   else "**Resolution:** " ++ substring0 200 solution
                        ++ (if 200 <? String.length solution then "..." else "")
                        ++ nl)
               ++ nl)
      /\ (forall text,
             text <> "" ->
             issueLine (Text text)
             = "**Issue:** " ++ substring0 150 text
               ++ (if 150 <? String.length text then "..." else "") ++ nl
             /\ resolutionLine (Text text)
                = "**Resolution:** " ++ substring0 200 text
                  ++ (if 200 <? String.length text then "..." else "") ++ nl)
      /\ (forall n text,
             String.length (substring0 n text) <= n
             /\ prefix (substring0 n text) text = true
             /\ (String.length text <= n -> substring0 n text = text)).
Proof.
  intros w userQuery a b c d e err tr H.
  eexists. split.
  - rewrite (generateResponse_failure _ _ _ _ _ H). reflexivity.
  - split.
    + rewrite generateFallbackResponse_answer. unfold fallbackText.
      now rewrite ticketLoop_five.
    + split; [reflexivity|]. split; [reflexivity|]. split; [reflexivity|].
      split; [intros t; unfold ticketHead; now rewrite ?append_assoc|].
      split.
      { intros id priority subject product status description solution.
        unfold ticketBlock, ticketHead, issueLine, resolutionLine.
        cbn [ticketId ticketSubject ticketDescription resolution ticketStatus
             ticketPriority productPurchased fieldToString fieldOr].
        now rewrite ?append_assoc. }
      split.
      * intros text Hne. unfold issueLine, resolutionLine.
        destruct (String.eqb_spec text ""); [contradiction|].
        split; reflexivity.
      * intros n text. split; [apply substring0_length|].
        split; [apply substring0_prefix | apply substring0_all].
Qed.

(** Five tickets, the model out of quota: three blocks, "2 more", five
    references. *)
Lemma C7_five_tickets_quota :
  exists result,
    fst (generateResponse "My battery is dead"
           [Examples.t1; Examples.t2; Examples.t3; Examples.t4; Examples.t5]
           Examples.allDown [])
    = Return result
    /\ answer result
       = fallbackHeader "My battery is dead" 5
         ++ (ticketBlock Examples.t1 ++ ticketBlock Examples.t2
             ++ ticketBlock Examples.t3
             ++ "... and 2 more similar ticket(s)." ++ nl)
         ++ guidance (toLowerCase "My battery is dead")
         ++ fallbackNote
    /\ ticketIds (references result)
       = [Text "T-1"; Text "T-2"; Text "T-3"; Text "T-4"; Text "T-5"].
Proof.
  destruct (C7_template_five_tickets Examples.allDown "My battery is dead"
              Examples.t1 Examples.t2 Examples.t3 Examples.t4 Examples.t5
              (err := Examples.quotaExceeded) [] eq_refl)
    as (result & R & A & I & _).
  exists result. repeat split; assumption.
Defined.

(** C10.  The template answer is the header, the ticket loop, the guidance
    and the note.  The guidance is what the tip table of the specification
    selects from the lower-cased query: the tips of the first of the
    categories battery, camera (or recording), setup (or install) that the
    query mentions, so one block or none, whatever else the query
    mentions. *)
Theorem C10_one_tip_block :
  forall (userQuery : string) (t : Ticket) (rest : list Ticket) (err : JsError),
    let tickets := t :: rest in
    let queryLower := toLowerCase userQuery in
    let tips := guidance queryLower in
    answer (generateFallbackResponse userQuery tickets err)
    = fallbackHeader userQuery (List.length tickets)
      ++ ticketLoop (List.length tickets) 0 tickets
      ++ tips
      ++ fallbackNote
    /\ tips = TipTable.firstCategory TipTable.table queryLower
    /\ (tips = "" \/ tips = batteryTips \/ tips = cameraTips \/ tips = setupTips)
    /\ (includes "battery" queryLower = true -> tips = batteryTips)
    /\ (includes "battery" queryLower = false ->
        includes "camera" queryLower || includes "recording" queryLower = true ->
        tips = cameraTips)
    /\ (includes "battery" queryLower = false ->
        includes "camera" queryLower || includes "recording" queryLower = false ->
        includes "setup" queryLower || includes "install" queryLower = true ->
        tips = setupTips)
    /\ (includes "battery" queryLower = false ->
        includes "camera" queryLower || includes "recording" queryLower = false ->
        includes "setup" queryLower || includes "install" queryLower = false ->
        tips = "").
Proof.
  intros userQuery t rest err tickets queryLower tips.
  split; [apply generateFallbackResponse_answer|].
  split; [apply guidance_table|].
  subst tips. unfold guidance.
  destruct (includes "battery" queryLower);
    destruct (includes "camera" queryLower || includes "recording" queryLower);
    destruct (includes "setup" queryLower || includes "install" queryLower);
    repeat split; auto; try discriminate; intros; try discriminate.
Qed.

(** A query that mentions the battery, the camera and the setup gets the
    battery tips and no other. *)
Lemma C10_battery_first :
  guidance (toLowerCase "Camera setup drains my BATTERY") = batteryTips
  /\ answer (generateFallbackResponse "Camera setup drains my BATTERY"
               [Examples.t1] Examples.quotaExceeded)
     = fallbackHeader "Camera setup drains my BATTERY" 1
       ++ ticketLoop 1 0 [Examples.t1]
       ++ batteryTips
       ++ fallbackNote.
Proof.
  destruct (C10_one_tip_block "Camera setup drains my BATTERY" Examples.t1 []
              Examples.quotaExceeded) as (A & _ & _ & B & _).
  split; [exact (B eq_refl)|].
  rewrite A. now rewrite (B eq_refl).
Defined.

(* ------------------------------------------------------------------------- *)
(** ** The analytics *)
(* ------------------------------------------------------------------------- *)

Section CountingMaps.

Import ChartTool.

Variable K : Type.
Variable eqb : K -> K -> bool.
Hypothesis eqb_spec : forall a b, eqb a b = true <-> a = b.

Lemma eqb_refl_true (a : K) : eqb a a = true.
Proof. now apply eqb_spec. Qed.

Lemma total_increment (key : K) (m : Counts K) :
  total (increment eqb key m) = S (total m).
Proof.
  unfold total, values. induction m as [|[k n] rest IH]; simpl; [reflexivity|].
  destruct (eqb k key); simpl; [lia|]. rewrite IH. lia.
Qed.

Lemma countOf_increment (key k : K) (m : Counts K) :
  countOf eqb key (increment eqb k m)
  = if eqb k key then S (countOf eqb key m) else countOf eqb key m.
Proof.
  induction m as [|[k0 n] rest IH]; simpl; [reflexivity|].
  destruct (eqb k0 k) eqn:E0; simpl.
  - apply eqb_spec in E0. subst k0.
    destruct (eqb k key); [lia | reflexivity].
  - rewrite IH. destruct (eqb k0 key) eqn:E1; [|reflexivity].
    destruct (eqb k key) eqn:E2; [|reflexivity].
    apply eqb_spec in E1, E2. subst. rewrite eqb_refl_true in E0. discriminate.
Qed.

Lemma keys_increment (key k : K) (m : Counts K) :
  In key (keys (increment eqb k m)) <-> key = k \/ In key (keys m).
Proof.
  unfold keys. induction m as [|[k0 n] rest IH]; simpl.
  - intuition.
  - destruct (eqb k0 k) eqn:E0; simpl.
    + apply eqb_spec in E0. subst. intuition.
    + rewrite IH. intuition.
Qed.

Lemma NoDup_increment (k : K) (m : Counts K) :
  NoDup (keys m) -> NoDup (keys (increment eqb k m)).
Proof.
  induction m as [|[k0 n] rest IH]; simpl; intros H.
  - constructor; [intros [] | constructor].
  - inversion H as [|? ? Hin Hnd]; subst.
    destruct (eqb k0 k) eqn:E0; simpl.
    + constructor; assumption.
    + constructor; [|now apply IH].
      intros Hc. apply keys_increment in Hc as [->|Hc]; [|contradiction].
      rewrite eqb_refl_true in E0. discriminate.
Qed.

(** A label is counted as often as it was incremented. *)
Lemma countOf_fold (label : K) (seen : list K) (m : Counts K) :
  countOf eqb label (fold_left (fun acc k => increment eqb k acc) seen m)
  = countOf eqb label m
    + List.length (filter (fun k => eqb k label) seen).
Proof.
  revert m. induction seen as [|k seen IH]; intros m; simpl; [lia|].
  rewrite IH, countOf_increment. destruct (eqb k label); simpl; lia.
Qed.

Lemma total_fold (seen : list K) (m : Counts K) :
  total (fold_left (fun acc k => increment eqb k acc) seen m)
  = total m + List.length seen.
Proof.
  revert m. induction seen as [|k seen IH]; intros m; simpl; [lia|].
  rewrite IH, total_increment. lia.
Qed.

Lemma keys_fold (key : K) (seen : list K) (m : Counts K) :
  In key (keys (fold_left (fun acc k => increment eqb k acc) seen m))
  <-> In key (keys m) \/ In key seen.
Proof.
  revert m. induction seen as [|k seen IH]; intros m; simpl; [intuition|].
  rewrite IH, keys_increment. intuition congruence.
Qed.

Lemma NoDup_fold (seen : list K) (m : Counts K) :
  NoDup (keys m) ->
  NoDup (keys (fold_left (fun acc k => increment eqb k acc) seen m)).
Proof.
  revert m. induction seen as [|k seen IH]; intros m H; simpl; [exact H|].
  apply IH. now apply NoDup_increment.
Qed.

End CountingMaps.

Section PlainObjects.

Import ChartTool.






Lemma keys_defineProperty (key k : string) (v : Slot) (o : Distribution) :
  In key (map fst (defineProperty k v o)) <-> key = k \/ In key (map fst o).
Proof.
  induction o as [|[k0 x] rest IH]; cbn [defineProperty map fst In].
  - intuition.
  - destruct (String.eqb_spec k0 k) as [->|N]; cbn [map fst In].
    + intuition.
    + rewrite IH. intuition.
Qed.

(** The labels that become properties: all but [__proto__]. *)
Lemma keys_countLabel_fold (key : string) (seen : list string) (o : Distribution) :
  In key (map fst (fold_left (fun o k => countLabel k o) seen o))
  <-> In key (map fst o) \/ (In key seen /\ key <> "__proto__").
Proof.
  revert o. induction seen as [|k seen IH]; intros o; cbn [fold_left In].
  - intuition.
  - rewrite IH. unfold countLabel, setProperty.
    destruct (String.eqb_spec k "__proto__") as [->|N].
    + intuition congruence.
    + rewrite keys_defineProperty. intuition congruence.
Qed.

Lemma insertIndexed_perm (e : N * (string * Slot)) (l : list (N * (string * Slot))) :
  Permutation (insertIndexed e l) (e :: l).
Proof.
  induction l as [|y rest IH]; cbn [insertIndexed]; [apply Permutation_refl|].
  destruct (fst e <=? fst y)%N; [apply Permutation_refl|].
  eapply perm_trans; [apply perm_skip, IH | apply perm_swap].
Qed.

Lemma sortIndexed_perm (l : list (N * (string * Slot))) :
  Permutation (fold_right insertIndexed [] l) l.
Proof.
  induction l as [|e rest IH]; cbn [fold_right]; [apply perm_nil|].
  eapply perm_trans; [apply insertIndexed_perm | now apply perm_skip].
Qed.

(** The enumeration lists every property once. *)
Lemma ownEntries_perm (o : Distribution) : Permutation (ownEntries o) o.
Proof.
  unfold ownEntries.
  eapply perm_trans;
    [apply Permutation_app_tail, Permutation_map, sortIndexed_perm|].
  induction o as [|e rest IH]; [apply perm_nil|].
  unfold indexed, named in *. cbn [flat_map filter].
  destruct (arrayIndex (fst e)) as [i|].
  - cbn [app map snd]. now apply perm_skip.
  - cbn [app]. apply Permutation_sym, Permutation_cons_app, Permutation_sym, IH.
Qed.



Lemma objectKeys_perm (o : Distribution) :
  Permutation (objectKeys o) (map fst o).
Proof. apply Permutation_map, ownEntries_perm. Qed.



End PlainObjects.

Section Tallies.

Import ChartTool.

Variable parse : string -> option Z.
Variable offset : Z -> Z.


Lemma priorityTally_fold (tickets : list Ticket) (acc : Tally) :
  priorityTally (fold_left (tallyTicket parse offset) tickets acc)
  = fold_left (fun o k => countLabel k o)
              (map priorityLabel tickets) (priorityTally acc).
Proof.
  revert acc. induction tickets as [|t rest IH]; intros acc; simpl;
    [reflexivity | now rewrite IH].
Qed.

Lemma filter_map_length {A B : Type} (f : A -> B) (p : B -> bool) (l : list A) :
  List.length (filter p (map f l)) = List.length (filter (fun x => p (f x)) l).
Proof.
  induction l as [|x l IH]; simpl; [reflexivity|].
  destruct (p (f x)); simpl; now rewrite IH.
Qed.

End Tallies.




Section HourOfDay.

Import ChartTool.

Variable offset : Z -> Z.





End HourOfDay.



(* ------------------------------------------------------------------------- *)
(** ** The classification of a query *)
(* ------------------------------------------------------------------------- *)

Section Classification.

Import DelegatingAgent.

Lemma code_eq (c d : ascii) :
  (nat_of_ascii c =? nat_of_ascii d) = true -> c = d.
Proof.
  intros H. apply Nat.eqb_eq in H.
  rewrite <- (ascii_nat_embedding c), H. apply ascii_nat_embedding.
Qed.

(** The text from its first opening brace on. *)
Lemma fromFirstOpen_some (s t : string) :
  fromFirstOpen s = Some t ->
  exists pre rest,
    s = pre ++ t /\ t = openBrace ++ rest /\ hasChar 123 pre = false.
Proof.
  revert t. induction s as [|c s IH]; intros t H; [discriminate|].
  simpl in H. destruct (nat_of_ascii c =? 123) eqn:E.
  - inversion H; subst t. exists "", s.
    split; [reflexivity|]. split; [|reflexivity].
    unfold openBrace. simpl. f_equal. apply code_eq. exact E.
  - destruct (IH t H) as (pre & rest & -> & -> & Hp).
    exists (String c pre), rest.
    split; [reflexivity|]. split; [reflexivity|].
    simpl. now rewrite E.
Qed.

Lemma fromFirstOpen_none (s : string) :
  fromFirstOpen s = None -> hasChar 123 s = false.
Proof.
  induction s as [|c s IH]; intros H; [reflexivity|].
  simpl in *. destruct (nat_of_ascii c =? 123); [discriminate | auto].
Qed.

(** The text up to its last closing brace. *)
Lemma toLastClose_some (s span : string) :
  toLastClose s = Some span ->
  exists body post,
    s = span ++ post /\ span = body ++ closeBrace /\ hasChar 125 post = false.
Proof.
  revert span. induction s as [|c s IH]; intros span H; [discriminate|].
  simpl in H. destruct (toLastClose s) as [t|] eqn:E.
  - inversion H; subst span.
    destruct (IH t eq_refl) as (body & post & -> & -> & Hp).
    exists (String c body), post.
    split; [reflexivity|]. split; [reflexivity | assumption].
  - destruct (nat_of_ascii c =? 125) eqn:Ec; [|discriminate].
    inversion H; subst span. exists "", s.
    split; [reflexivity|]. split.
    + unfold closeBrace. simpl. f_equal. apply code_eq. exact Ec.
    + clear -E. induction s as [|d s IH]; [reflexivity|].
      simpl in *. destruct (toLastClose s); [discriminate|].
      destruct (nat_of_ascii d =? 125); [discriminate | now apply IH].
Qed.

Lemma toLastClose_none (s : string) :
  toLastClose s = None -> hasChar 125 s = false.
Proof.
  induction s as [|d s IH]; [reflexivity|].
  simpl. destruct (toLastClose s); [discriminate|].
  destruct (nat_of_ascii d =? 125); [discriminate | auto].
Qed.

(** What the pattern matches: everything from the first opening brace to
    the last closing brace. *)
Lemma matchBraces_some (text span : string) :
  matchBraces text = Some span ->
  exists pre mid post,
    text = pre ++ span ++ post
    /\ span = openBrace ++ mid ++ closeBrace
    /\ hasChar 123 pre = false
    /\ hasChar 125 post = false.
Proof.
  unfold matchBraces. intros H.
  destruct (fromFirstOpen text) as [t|] eqn:E; [|discriminate].
  destruct (fromFirstOpen_some _ E) as (pre & rest & -> & -> & Hp).
  destruct (toLastClose_some _ H) as (body & post & E2 & -> & Hq).
  destruct body as [|b body].
  - simpl in E2. discriminate E2.
  - simpl in E2. inversion E2 as [[Hc Hr]].
    exists pre, body, post.
    split; [reflexivity|].
    split; [reflexivity|].
    split; assumption.
Qed.

(** When the pattern does not match, the text has no opening brace, or no
    closing brace after the first opening one. *)
Lemma matchBraces_none (text : string) :
  matchBraces text = None ->
  hasChar 123 text = false
  \/ exists pre rest,
       text = pre ++ openBrace ++ rest
       /\ hasChar 123 pre = false
       /\ hasChar 125 rest = false.
Proof.
  unfold matchBraces. intros H.
  destruct (fromFirstOpen text) as [t|] eqn:E.
  - right. destruct (fromFirstOpen_some _ E) as (pre & rest & -> & -> & Hp).
    exists pre, rest.
    split; [reflexivity|]. split; [assumption|].
    apply toLastClose_none in H. simpl in H. exact H.
  - left. now apply fromFirstOpen_none.
Qed.

Lemma analyzeQueryRequirements_run (userQuery : string) (w : World) (tr : list Call) :
  analyzeQueryRequirements userQuery w tr
  = (Return match llm_invoke w (analysisPrompt userQuery) with
            | Resolves response => parseJSONResponse response
            | Rejects err => keywordAnalysis userQuery err
            end,
     (tr ++ [CallLlm (analysisPrompt userQuery)])%list).
Proof.
  unfold analyzeQueryRequirements. run_step.
  destruct (llm_invoke w (analysisPrompt userQuery)); reflexivity.
Qed.

(** The decision of the keyword analysis is the outcome of its two tests. *)
Lemma keywordAnalysis_decision (userQuery : string) (err : JsError) :
  needsRAG (keywordAnalysis userQuery err)
  = Regex.test issueKeywords (toLowerCase userQuery)
  /\ needsChart (keywordAnalysis userQuery err)
     = Regex.test analyticsKeywords (toLowerCase userQuery).
Proof.
  unfold needsRAG, needsChart, keywordAnalysis.
  generalize (Regex.test issueKeywords (toLowerCase userQuery)).
  generalize (Regex.test analyticsKeywords (toLowerCase userQuery)).
  generalize (isQuotaError err).
  intros q a i. split; reflexivity.
Qed.

End Classification.

(* ------------------------------------------------------------------------- *)
(** ** The router *)
(* ------------------------------------------------------------------------- *)

Section Router.

Import DelegatingAgent.

Lemma trim_inked (s : string) : inked (trim s).
Proof.
  destruct (string_dec (trim s) "") as [E|N]; [now left | right].
  now apply trim_nonempty_hasInk.
Qed.

Lemma fallbackText_hasInk (userQuery : string) (tickets : list Ticket) :
  hasInk (fallbackText userQuery tickets) = true.
Proof.
  destruct (fallbackText_starts userQuery tickets) as [s ->]. reflexivity.
Qed.

(** The synthesizer returns in every world, with an answer that is inked. *)
Lemma generateResponse_returns
  (userQuery : string) (tickets : list Ticket) (w : World) (tr : list Call) :
  exists result tr',
    generateResponse userQuery tickets w tr = (Return result, tr')
    /\ inked (RAGAgent.answer result).
Proof.
  destruct tickets as [|t rest].
  - eexists _, _. split; [reflexivity | now right].
  - unfold generateResponse. run_step.
    destruct (llm_invoke w (answerPrompt userQuery (t :: rest))) as [[content|]|err].
    + eexists _, _. split; [reflexivity | apply trim_inked].
    + eexists _, _. split; [reflexivity|]. right.
      rewrite generateFallbackResponse_answer. apply fallbackText_hasInk.
    + eexists _, _. split; [reflexivity|]. right.
      rewrite generateFallbackResponse_answer. apply fallbackText_hasInk.
Qed.

Lemma cleaned_handleQuery_returns
  (userQuery : string) (tenant : option string) (limit : N)
  (w : World) (tr : list Call) :
  exists result tr',
    RAGAgentCleaned.handleQuery userQuery tenant limit w tr = (Return result, tr')
    /\ inked (RAGAgent.answer result).
Proof.
  unfold RAGAgentCleaned.handleQuery, try_catch, bind.
  destruct (searchTickets_returns userQuery tenant limit w tr)
    as (tickets & tr1 & ->).
  destruct (generateResponse_returns userQuery tickets w tr1)
    as (result & tr2 & -> & I).
  eauto.
Qed.


(** The chart tool returns in every world. *)
Lemma generateAnalytics_returns (tenant : option string) (w : World) (tr : list Call) :
  exists charts tr', ChartTool.generateAnalytics tenant w tr = (Return charts, tr').
Proof.
  unfold ChartTool.generateAnalytics, ChartTool.getAnalyticsData. run_step.
  destruct (graphql_get w _) as [r|e]; [|eauto].
  destruct (data r); [|eauto].
  unfold host, lift, ret. cbv zeta.
  destruct (ChartTool.createPriorityChart _); eauto.
Qed.

Lemma dashboardTitle_hasInk : hasInk dashboardTitle = true.
Proof. reflexivity. Qed.

(** The merged text is never empty when the retrieval answer is inked. *)
Lemma combineResults_nonempty
  (userQuery : string) (tenant : option string)
  (ragResult : option RAGAgent.Result) (chartResult : option ChartTool.Charts)
  (analysis : Json.value) :
  match ragResult with
  | Some r => inked (RAGAgent.answer r)
  | None => True
  end ->
  combineResults userQuery tenant ragResult chartResult analysis <> "".
Proof.
  intros H. unfold combineResults.
  set (a := match ragResult with Some r => RAGAgent.answer r | None => "" end).
  assert (Ha : inked a).
  { subst a. destruct ragResult; [exact H | now left]. }
  clearbody a. clear H.
  destruct chartResult as [charts|].
  - assert (I : hasInk ((if (a =? "")%string then dashboardTitle
                         else a ++ nl ++ nl ++ dashboardTitle)
                        ++ chartSummary charts) = true).
    { rewrite hasInk_app. apply orb_true_iff. left.
      destruct (String.eqb_spec a ""); [reflexivity|].
      destruct Ha as [->|Ha]; [contradiction|].
      rewrite hasInk_app, Ha. reflexivity. }
    destruct (String.eqb_spec
                ((if (a =? "")%string then dashboardTitle
                  else a ++ nl ++ nl ++ dashboardTitle) ++ chartSummary charts) "")
      as [E|_].
    + rewrite E in I. discriminate.
    + now apply trim_nonempty.
  - destruct (String.eqb_spec a "") as [->|N].
    + discriminate.
    + destruct Ha as [->|Ha]; [contradiction|]. now apply trim_nonempty.
Qed.

Variable ragAgent_handleQuery : string -> option string -> M RAGAgent.Result.
Variable chartTool_generateAnalytics : option string -> M ChartTool.Charts.


Hypothesis rag_returns :
  forall userQuery tenant w tr,
  exists result tr',
    ragAgent_handleQuery userQuery tenant w tr = (Return result, tr')
    /\ inked (RAGAgent.answer result).

Hypothesis chart_returns :
  forall tenant w tr,
  exists charts tr', chartTool_generateAnalytics tenant w tr = (Return charts, tr').

(** With tools that return, and a retrieval answer that is inked, the
    [try] block returns a text that is not empty. *)
Lemma handleQueryWith_answers
  (userQuery : string) (tenant : option string) (thread : string)
  (w : World) (tr : list Call) :
  exists response tr',
    handleQueryWith ragAgent_handleQuery chartTool_generateAnalytics
      userQuery tenant thread w tr = (Return response, tr')
    /\ answer response <> ""
    /\ threadId (references response) = thread
    /\ error (references response) = None.
Proof.
  unfold handleQueryWith, try_catch, handleQueryBody, bind.
  rewrite analyzeQueryRequirements_run.
  set (analysis := match llm_invoke w (analysisPrompt userQuery) with
                   | Resolves r => parseJSONResponse r
                   | Rejects err => keywordAnalysis userQuery err
                   end).
  set (tr0 := (tr ++ [CallLlm (analysisPrompt userQuery)])%list).
  destruct (needsRAG analysis).
  - destruct (rag_returns userQuery tenant w tr0) as (r & tr1 & -> & I).
    unfold ret at 1.
    destruct (needsChart analysis).
    + destruct (chart_returns tenant w tr1) as (c & tr2 & ->).
      unfold ret. eexists _, _. split; [reflexivity|].
      split; [|split; reflexivity].
      now apply combineResults_nonempty.
    + unfold ret. eexists _, _. split; [reflexivity|].
      split; [|split; reflexivity].
      now apply combineResults_nonempty.
  - unfold ret at 1.
    destruct (needsChart analysis).
    + destruct (chart_returns tenant w tr0) as (c & tr2 & ->).
      unfold ret. eexists _, _. split; [reflexivity|].
      split; [|split; reflexivity].
      now apply combineResults_nonempty.
    + unfold ret. eexists _, _. split; [reflexivity|].
      split; [|split; reflexivity].
      now apply combineResults_nonempty.
Qed.

End Router.

(* ------------------------------------------------------------------------- *)
(** ** The statements of the specification on the router *)
(* ------------------------------------------------------------------------- *)



(** With every collaborator down, a query for issues and statistics is
    answered with the "no tickets" text and the dashboard header; the
    chart is then the error chart of the ChartTool. *)
Lemma all_down_still_answers :
  exists text,
    fst (run (DelegatingAgent.handleQuery "battery issue statistics" None "t")
             Examples.allDown)
    = Return
        {| DelegatingAgent.answer := text;
           DelegatingAgent.references :=
             {| DelegatingAgent.threadId := "t";
                DelegatingAgent.ticketIds := Some [];
                DelegatingAgent.error := None |};
           DelegatingAgent.chart :=
             Some (ChartTool.ErrorChart
                     (ChartTool.getErrorChart "Failed to generate analytics")) |}
    /\ prefix noTicketsAnswer text = true.
Proof. eexists. split; [vm_compute; reflexivity | vm_compute; reflexivity]. Qed.

(** The text is what is left of the retrieval answer after [trim]: a tool
    whose answer is a lone space leaves nothing. *)
Lemma blank_tool_answer :
  fst (run (DelegatingAgent.handleQueryWith Examples.blankTool
              ChartTool.generateAnalytics "battery issue" None "t")
           Examples.allDown)
  = Return
      {| DelegatingAgent.answer := "";
         DelegatingAgent.references :=
           {| DelegatingAgent.threadId := "t";
              DelegatingAgent.ticketIds := Some [];
              DelegatingAgent.error := None |};
         DelegatingAgent.chart := None |}.
Proof. vm_compute. reflexivity. Qed.

(** C3, as the code has it.  From the text of the classifier the router
    takes what lies between the first opening brace and the last closing
    brace of the whole text, both included, and decodes it with
    [JSON.parse]; whatever object comes out is the analysis, its members
    being read for truthiness without a check of their type.  When there is
    no such span, or when it does not decode, or when the content is not a
    string, the analysis is the fixed default, which asks for retrieval and
    not for a chart.  The keyword analysis is used when the call of the
    model is rejected, and only then. *)
Theorem C3_classifier_output :
  forall text : string,
    (forall span,
        DelegatingAgent.matchBraces text = Some span ->
        (exists pre mid post,
            text = pre ++ span ++ post
            /\ span = openBrace ++ mid ++ closeBrace
            /\ hasChar 123 pre = false
            /\ hasChar 125 post = false)
        /\ DelegatingAgent.parseJSONResponse (CText text)
           = match Json.parse span with
             | Some analysis => analysis
             | None => DelegatingAgent.defaultAnalysis
             end)
    /\ (DelegatingAgent.matchBraces text = None ->
        (hasChar 123 text = false
         \/ exists pre rest,
              text = pre ++ openBrace ++ rest
              /\ hasChar 123 pre = false
              /\ hasChar 125 rest = false)
        /\ DelegatingAgent.parseJSONResponse (CText text)
           = DelegatingAgent.defaultAnalysis)
    /\ DelegatingAgent.parseJSONResponse COther = DelegatingAgent.defaultAnalysis
    /\ DelegatingAgent.needsRAG DelegatingAgent.defaultAnalysis = true
    /\ DelegatingAgent.needsChart DelegatingAgent.defaultAnalysis = false
    /\ (forall (userQuery : string) (w : World) (tr : list Call),
           DelegatingAgent.analyzeQueryRequirements userQuery w tr
           = (Return match llm_invoke w (DelegatingAgent.analysisPrompt userQuery) with
                     | Resolves response => DelegatingAgent.parseJSONResponse response
                     | Rejects err => DelegatingAgent.keywordAnalysis userQuery err
                     end,
              (tr ++ [CallLlm (DelegatingAgent.analysisPrompt userQuery)])%list)).
Proof.
  intros text. split.
  { intros span H. split; [now apply matchBraces_some|].
    unfold DelegatingAgent.parseJSONResponse. now rewrite H. }
  split.
  { intros H. split; [now apply matchBraces_none|].
    unfold DelegatingAgent.parseJSONResponse. now rewrite H. }
  split; [reflexivity|]. split; [reflexivity|]. split; [reflexivity|].
  intros. apply analyzeQueryRequirements_run.
Qed.

(** A reply in prose makes the analysis the default. *)
Lemma C3_prose_reply :
  DelegatingAgent.parseJSONResponse (CText Examples.proseReply)
  = DelegatingAgent.defaultAnalysis
  /\ DelegatingAgent.parseJSONResponse (CText Examples.twoObjectsReply)
     = DelegatingAgent.defaultAnalysis.
Proof.
  split.
  - destruct (C3_classifier_output Examples.proseReply) as (_ & H & _).
    exact (proj2 (H eq_refl)).
  - destruct (C3_classifier_output Examples.twoObjectsReply) as (H & _).
    exact (proj2 (H _ eq_refl)).
Defined.

(** C3 as stated fails, in its three parts.  A reply without JSON, to a
    query that the keyword analysis sends to the chart tool alone, is
    answered by the fixed default, which sends it to retrieval alone.  A
    reply whose first balanced span is a well-formed decision, followed by
    another pair of braces, is not decoded, the span taken being the whole
    of it.  A reply whose members are a string and a number is taken as it
    is, the string "no" counting as true. *)
Lemma C3_malformed_reply_gets_fixed_default :
  (DelegatingAgent.matchBraces Examples.proseReply = None
   /\ fst (run (DelegatingAgent.analyzeQueryRequirements "Show me ticket statistics")
               (Examples.world (Examples.llmSays Examples.proseReply)
                  (Examples.found []) (Examples.found []) (Resolves None)
                  (Examples.found [])))
      = Return DelegatingAgent.defaultAnalysis
   /\ DelegatingAgent.needsRAG DelegatingAgent.defaultAnalysis = true
   /\ DelegatingAgent.needsChart DelegatingAgent.defaultAnalysis = false
   /\ DelegatingAgent.needsRAG
        (DelegatingAgent.keywordAnalysis "Show me ticket statistics"
           Examples.quotaExceeded) = false
   /\ DelegatingAgent.needsChart
        (DelegatingAgent.keywordAnalysis "Show me ticket statistics"
           Examples.quotaExceeded) = true)
  /\ (DelegatingAgent.matchBraces Examples.twoObjectsReply
      = Some Examples.twoObjectsReply
      /\ Json.parse Examples.twoObjectsReply = None
      /\ Json.parse Examples.firstObject
         = Some (Json.Obj [ DelegatingAgent.member "needsRAG" (Json.Bool false);
                            DelegatingAgent.member "needsChart" (Json.Bool true) ])
      /\ DelegatingAgent.parseJSONResponse (CText Examples.twoObjectsReply)
         = DelegatingAgent.defaultAnalysis)
  /\ (DelegatingAgent.parseJSONResponse (CText Examples.untypedReply)
      = Json.Obj [ DelegatingAgent.member "needsRAG" (Json.Str (Json.codes "no"));
                   DelegatingAgent.member "needsChart" (Json.Num false 0 0) ]
      /\ DelegatingAgent.needsRAG
           (DelegatingAgent.parseJSONResponse (CText Examples.untypedReply)) = true).
Proof. repeat split; vm_compute; reflexivity. Qed.

Lemma combineResults_nothing
  (userQuery : string) (tenant : option string) (analysis : Json.value) :
  DelegatingAgent.combineResults userQuery tenant None None analysis
  = DelegatingAgent.nothingFoundAnswer.
Proof. reflexivity. Qed.

(** C4, as the code has it.  The first pattern is found in the lower-cased
    query when one of its sixteen words occurs there, the second when one
    of its eleven words occurs or "show" is followed by "stat".  For a
    query in which neither is found the keyword analysis asks for no
    retrieval and for no chart; the router then calls neither tool and
    answers with its fixed "could not find" text, without ticket references
    and with a null chart. *)
Theorem C4_neither_vocabulary :
  forall (userQuery : string) (err : JsError),
    let queryLower := toLowerCase userQuery in
    Regex.test DelegatingAgent.issueKeywords queryLower
    = existsb (fun w => includes w queryLower) DelegatingAgent.issueWords
    /\ Regex.test DelegatingAgent.analyticsKeywords queryLower
       = existsb (fun w => includes w queryLower) DelegatingAgent.analyticsWords
         || Regex.test DelegatingAgent.showThenStat queryLower
    /\ (Regex.test DelegatingAgent.issueKeywords queryLower = false ->
        Regex.test DelegatingAgent.analyticsKeywords queryLower = false ->
        DelegatingAgent.needsRAG (DelegatingAgent.keywordAnalysis userQuery err)
        = false
        /\ DelegatingAgent.needsChart (DelegatingAgent.keywordAnalysis userQuery err)
           = false
        /\ (forall (w : World) (tenant : option string) (thread : string)
                   (tr : list Call),
               llm_invoke w (DelegatingAgent.analysisPrompt userQuery) = Rejects err ->
               DelegatingAgent.handleQuery userQuery tenant thread w tr
               = (Return
                    {| DelegatingAgent.answer := DelegatingAgent.nothingFoundAnswer;
                       DelegatingAgent.references :=
                         {| DelegatingAgent.threadId := thread;
                            DelegatingAgent.ticketIds := None;
                            DelegatingAgent.error := None |};
                       DelegatingAgent.chart := None |},
                  (tr ++ [CallLlm (DelegatingAgent.analysisPrompt userQuery)])%list))).
Proof.
  intros userQuery err queryLower.
  split; [apply issueKeywords_words|].
  split; [apply analyticsKeywords_words|].
  intros Hi Ha.
  destruct (keywordAnalysis_decision userQuery err) as [Er Ec].
  fold queryLower in Er, Ec. rewrite Hi in Er. rewrite Ha in Ec.
  split; [exact Er|]. split; [exact Ec|].
  intros w tenant thread tr Hllm.
  unfold DelegatingAgent.handleQuery, DelegatingAgent.handleQueryWith,
    DelegatingAgent.handleQueryBody, try_catch, bind.
  rewrite analyzeQueryRequirements_run, Hllm, Er, Ec.
  unfold ret. now rewrite combineResults_nothing.
Qed.

(** A greeting, with the model out of quota: no tool is called. *)
Lemma C4_greeting :
  DelegatingAgent.handleQuery "Hello there" None "thread-1" Examples.allUp []
  = (Return
       {| DelegatingAgent.answer := DelegatingAgent.nothingFoundAnswer;
          DelegatingAgent.references :=
            {| DelegatingAgent.threadId := "thread-1";
               DelegatingAgent.ticketIds := None;
               DelegatingAgent.error := None |};
          DelegatingAgent.chart := None |},
     [CallLlm (DelegatingAgent.analysisPrompt "Hello there")]).
Proof.
  destruct (C4_neither_vocabulary "Hello there" Examples.quotaExceeded)
    as (_ & _ & H).
  destruct (H eq_refl eq_refl) as (_ & _ & Hq).
  exact (Hq Examples.allUp None "thread-1" [] eq_refl).
Defined.

(** C4 as stated fails: the greeting matches neither pattern, and the
    keyword analysis does not ask for retrieval. *)
Lemma C4_greeting_not_retrieved :
  Regex.test DelegatingAgent.issueKeywords (toLowerCase "Hello there") = false
  /\ Regex.test DelegatingAgent.analyticsKeywords (toLowerCase "Hello there") = false
  /\ DelegatingAgent.needsRAG
       (DelegatingAgent.keywordAnalysis "Hello there" Examples.quotaExceeded)
     = false
  /\ DelegatingAgent.needsRAG
       (DelegatingAgent.keywordAnalysis "Hello there" Examples.quotaExceeded)
     <> true.
Proof. repeat split; try reflexivity. discriminate. Qed.

(* ------------------------------------------------------------------------- *)
(** ** Further properties of the retrieval cascade *)
(* ------------------------------------------------------------------------- *)

Section MoreStringFacts.

Lemma trimStart_head (s : string) (c : ascii) (r : string) :
  trimStart s = String c r -> is_ws c = false.
Proof.
  induction s as [|d s IH]; simpl; [discriminate|].
  destruct (is_ws d) eqn:E; [exact IH|].
  intros H. inversion H; subst. exact E.
Qed.

Lemma trimEnd_head (c : ascii) (s : string) :
  is_ws c = false -> exists r, trimEnd (String c s) = String c r.
Proof.
  intros H. simpl. destruct (trimEnd s); [rewrite H|]; eauto.
Qed.

Lemma trimEnd_ends (s : string) :
  trimEnd s = "" \/ endsWithInk (trimEnd s) = true.
Proof.
  induction s as [|c s IH]; [now left|].
  simpl. destruct (trimEnd s) as [|d t] eqn:E.
  - destruct (is_ws c) eqn:Ec; [now left | right]. simpl. now rewrite Ec.
  - right. destruct IH as [IH|IH]; [discriminate | exact IH].
Qed.

(** What [trim] returns has nothing left for [trim] to remove. *)
Lemma trim_idempotent (s : string) : trim (trim s) = trim s.
Proof.
  destruct (trim s) as [|c r] eqn:E; [reflexivity|].
  unfold trim in E.
  destruct (trimStart s) as [|d t] eqn:Es; [discriminate|].
  pose proof (trimStart_head s Es) as Hd.
  destruct (trimEnd_head d t Hd) as [r' Er].
  rewrite Er in E. inversion E; subst d r'.
  apply trim_id; [exact Hd|].
  destruct (trimEnd_ends (String c t)) as [H|H]; rewrite Er in H;
    [discriminate | exact H].
Qed.



Lemma length_toLowerCase (s : string) :
  String.length (toLowerCase s) = String.length s.
Proof. induction s as [|c s IH]; simpl; [reflexivity | now rewrite IH]. Qed.

Lemma includes_length (w s : string) :
  includes w s = true -> String.length w <= String.length s.
Proof.
  intros H. apply includes_spec in H as (pre & post & ->).
  rewrite !length_append. lia.
Qed.

Lemma trim_blank (s : string) : hasInk s = false -> trim s = "".
Proof.
  intros H. unfold trim. apply trimEnd_blank. now rewrite trimStart_hasInk.
Qed.

End MoreStringFacts.

Section CascadeTraces.

Variables (w : World) (query : string) (tenant : option string) (limit : N).

(** The calls that the cleaned search has made when it returns. *)
Lemma cleaned_search_calls (tr : list Call) :
  let tier1 := CallGraphql (RAGAgentCleaned.semanticQuery query tenant limit) in
  let tier2 := CallGraphql (RAGAgentCleaned.structuredQuery query tenant limit) in
  let tier3 := CallGetter (RAGAgentCleaned.keywordFilter query tenant) limit in
  exists tickets calls,
    RAGAgentCleaned.searchTickets query tenant limit w tr
    = (Return tickets, (tr ++ calls)%list)
    /\ (calls = [tier1] \/ calls = [tier1; tier2]
        \/ (calls = [tier1; tier2; tier3]
            /\ tickets
               = Cascade.rawTickets
                   (data_getter w (RAGAgentCleaned.keywordFilter query tenant) limit))).
Proof.
  intros tier1 tier2 tier3.
  assert (F : forall tr0,
             exists tickets calls,
               RAGAgentCleaned.fallbackSearch query tenant limit w (tr0 ++ [tier1])%list
               = (Return tickets, (tr0 ++ tier1 :: calls)%list)
               /\ (calls = [tier2]
                   \/ (calls = [tier2; tier3]
                       /\ tickets
                          = Cascade.rawTickets
                              (data_getter w
                                 (RAGAgentCleaned.keywordFilter query tenant) limit)))).
  { intros tr0. rewrite fallbackSearch_run. fold tier2.
    destruct (graphql_get w _) as [r|e].
    - destruct (data r) as [found|].
      + destruct (orEmpty found) as [|t ts].
        * rewrite fetchObjectsFallback_run, app_two. fold tier3.
          eexists _, [tier2; tier3]. split; [|right; split; reflexivity].
          now rewrite <- app_assoc.
        * eexists _, [tier2]. split; [|now left]. now rewrite app_two.
      + rewrite fetchObjectsFallback_run, app_two. fold tier3.
        eexists _, [tier2; tier3]. split; [|right; split; reflexivity].
        now rewrite <- app_assoc.
    - destruct (RAGAgentCleaned.isConnectionError _).
      + eexists _, [tier2]. split; [|now left]. now rewrite app_two.
      + rewrite fetchObjectsFallback_run, app_two. fold tier3.
        eexists _, [tier2; tier3]. split; [|right; split; reflexivity].
        now rewrite <- app_assoc. }
  assert (G : exists tickets calls,
             RAGAgentCleaned.fallbackSearch query tenant limit w (tr ++ [tier1])%list
             = (Return tickets, (tr ++ calls)%list)
             /\ (calls = [tier1] \/ calls = [tier1; tier2]
                 \/ (calls = [tier1; tier2; tier3]
                     /\ tickets
                        = Cascade.rawTickets
                            (data_getter w
                               (RAGAgentCleaned.keywordFilter query tenant) limit)))).
  { destruct (F tr) as (tickets & calls & E & [->|[-> T]]).
    - exists tickets, [tier1; tier2]. split; [exact E | now right; left].
    - exists tickets, [tier1; tier2; tier3]. split; [exact E | now right; right]. }
  rewrite searchTickets_run. fold tier1.
  destruct (graphql_get w _) as [r|e].
  - destruct (errors r) as [|first rest].
    + destruct (data r) as [found|]; [|exact G].
      eexists _, [tier1]. split; [reflexivity | now left].
    + destruct (RAGAgentCleaned.isTransformerError _); [exact G|].
      destruct (RAGAgentCleaned.isConnectionError _); [|exact G].
      eexists _, [tier1]. split; [reflexivity | now left].
  - destruct (RAGAgentCleaned.isConnectionError _); [|exact G].
    eexists _, [tier1]. split; [reflexivity | now left].
Qed.

(** The same for the version of src/agents/ragAgent.js. *)
Lemma updated_search_calls (tr : list Call) :
  let tier1 := CallGraphql (RAGAgentUpdated.semanticQuery query tenant limit) in
  let tier2 := CallGraphql (RAGAgentUpdated.structuredQuery query tenant limit) in
  let tier3 := CallGetter (RAGAgentUpdated.queryFilter query tenant) limit in
  exists tickets calls,
    RAGAgentUpdated.searchTickets query tenant limit w tr
    = (Return tickets, (tr ++ calls)%list)
    /\ (calls = [tier1] \/ calls = [tier1; tier2]
        \/ (calls = [tier1; tier2; tier3]
            /\ tickets
               = Cascade.rawTickets
                   (data_getter w (RAGAgentUpdated.queryFilter query tenant) limit))).
Proof.
  intros tier1 tier2 tier3.
  assert (G : exists tickets calls,
             RAGAgentUpdated.fallbackSearch query tenant limit w (tr ++ [tier1])%list
             = (Return tickets, (tr ++ calls)%list)
             /\ (calls = [tier1] \/ calls = [tier1; tier2]
                 \/ (calls = [tier1; tier2; tier3]
                     /\ tickets
                        = Cascade.rawTickets
                            (data_getter w
                               (RAGAgentUpdated.queryFilter query tenant) limit)))).
  { rewrite updated_fallbackSearch_run. fold tier2.
    destruct (graphql_get w _) as [r|e].
    - destruct (data r) as [found|].
      + eexists _, [tier1; tier2]. split; [|now right; left]. now rewrite app_two.
      + rewrite updated_fetchObjectsFallback_run, app_three. fold tier3.
        eexists _, [tier1; tier2; tier3].
        split; [reflexivity | right; right; split; reflexivity].
    - destruct (RAGAgentUpdated.isConnectionError e).
      + eexists _, [tier1; tier2]. split; [|now right; left]. now rewrite app_two.
      + rewrite updated_fetchObjectsFallback_run, app_three. fold tier3.
        eexists _, [tier1; tier2; tier3].
        split; [reflexivity | right; right; split; reflexivity]. }
  rewrite updated_searchTickets_run. fold tier1.
  destruct (graphql_get w _) as [r|e].
  - destruct (errors r) as [|[m|] rest].
    + destruct (data r) as [found|]; [|exact G].
      eexists _, [tier1]. split; [reflexivity | now left].
    + destruct (RAGAgentUpdated.mentionsTransformer m); [exact G|].
      destruct (RAGAgentUpdated.isConnectionError _); [|exact G].
      eexists _, [tier1]. split; [reflexivity | now left].
    + exact G.
  - destruct (RAGAgentUpdated.isConnectionError e); [|exact G].
    eexists _, [tier1]. split; [reflexivity | now left].
Qed.

End CascadeTraces.

(** X1.  In either version, a semantic query that the store answers, without
    errors and with data that can be read, ends the search: what it found is
    returned as it is, be it nothing, and neither keyword tier is asked. *)
Theorem semantic_answer_ends_search :
  forall (w : World) (query : string) (tenant : option string) (limit : N)
         (tr : list Call) (found : option (list Ticket)),
    graphql_get w (RAGAgentCleaned.semanticQuery query tenant limit)
    = Resolves {| errors := []; data := Some found |} ->
    RAGAgentUpdated.semanticQuery query tenant limit
    = RAGAgentCleaned.semanticQuery query tenant limit
    /\ RAGAgentCleaned.searchTickets query tenant limit w tr
       = (Return (orEmpty found),
          (tr ++ [CallGraphql (RAGAgentCleaned.semanticQuery query tenant limit)])%list)
    /\ RAGAgentUpdated.searchTickets query tenant limit w tr
       = (Return (orEmpty found),
          (tr ++ [CallGraphql (RAGAgentCleaned.semanticQuery query tenant limit)])%list).
Proof.
  intros w query tenant limit tr found H.
  split; [reflexivity|]. split.
  - rewrite searchTickets_run, H. reflexivity.
  - rewrite updated_searchTickets_run.
    change (RAGAgentUpdated.semanticQuery query tenant limit)
      with (RAGAgentCleaned.semanticQuery query tenant limit).
    rewrite H. reflexivity.
Qed.

(** The semantic search finds nothing: the search returns nothing, after
    one call. *)
Lemma empty_semantic_answer :
  RAGAgentCleaned.searchTickets "battery" None 10%N
    (Examples.world Examples.llmDown (Examples.found [])
       (Examples.found [Examples.t1]) (Resolves (Some [Examples.t2]))
       (Examples.found [])) []
  = (Return [],
     [CallGraphql (RAGAgentCleaned.semanticQuery "battery" None 10%N)]).
Proof.
  exact (proj1 (proj2
    (@semantic_answer_ends_search
       (Examples.world Examples.llmDown (Examples.found [])
          (Examples.found [Examples.t1]) (Resolves (Some [Examples.t2]))
          (Examples.found []))
       "battery" None 10%N [] (Some []) eq_refl))).
Defined.

(** X2.  In every world the search returns after one, two or three calls:
    the semantic query, then the structured query, then the object getter,
    each at most once and in this order, and no call of the model; when the
    getter was asked, what it gave is the result. This holds in either
    version, with the queries of the version. *)
Theorem search_asks_each_tier_once :
  forall (w : World) (query : string) (tenant : option string) (limit : N)
         (tr : list Call),
    (let tier1 := CallGraphql (RAGAgentCleaned.semanticQuery query tenant limit) in
     let tier2 := CallGraphql (RAGAgentCleaned.structuredQuery query tenant limit) in
     let tier3 := CallGetter (RAGAgentCleaned.keywordFilter query tenant) limit in
     exists tickets calls,
       RAGAgentCleaned.searchTickets query tenant limit w tr
       = (Return tickets, (tr ++ calls)%list)
       /\ (calls = [tier1] \/ calls = [tier1; tier2]
           \/ (calls = [tier1; tier2; tier3]
               /\ tickets
                  = Cascade.rawTickets
                      (data_getter w (RAGAgentCleaned.keywordFilter query tenant)
                                   limit))))
    /\ (let tier1 := CallGraphql (RAGAgentUpdated.semanticQuery query tenant limit) in
        let tier2 := CallGraphql (RAGAgentUpdated.structuredQuery query tenant limit) in
        let tier3 := CallGetter (RAGAgentUpdated.queryFilter query tenant) limit in
        exists tickets calls,
          RAGAgentUpdated.searchTickets query tenant limit w tr
          = (Return tickets, (tr ++ calls)%list)
          /\ (calls = [tier1] \/ calls = [tier1; tier2]
              \/ (calls = [tier1; tier2; tier3]
                  /\ tickets
                     = Cascade.rawTickets
                         (data_getter w (RAGAgentUpdated.queryFilter query tenant)
                                      limit)))).
Proof.
  intros w query tenant limit tr. split.
  - apply cleaned_search_calls.
  - apply updated_search_calls.
Qed.

Section ShortQueries.

Lemma tokens_short (s : string) (tok : string) :
  In tok (splitWs s) -> String.length tok <= String.length s.
Proof.
  intros H. apply includes_length. unfold splitWs in H.
  eapply splitWs_go_includes; eauto.
Qed.

Lemma filter_nil {A : Type} (p : A -> bool) (l : list A) :
  (forall x, In x l -> p x = false) -> filter p l = [].
Proof.
  induction l as [|x l IH]; intros H; simpl; [reflexivity|].
  rewrite (H x) by now left. apply IH. intros y Hy. apply H. now right.
Qed.

Lemma extractKeywords_short (query : string) :
  String.length query <= 2 -> RAGAgentCleaned.extractKeywords query = [].
Proof.
  intros H. unfold RAGAgentCleaned.extractKeywords.
  rewrite filter_nil; [reflexivity|].
  intros tok I. apply tokens_short in I. rewrite length_toLowerCase in I.
  apply Nat.ltb_ge. lia.
Qed.

End ShortQueries.

(** X3.  A query of at most two code units has no keyword: the filter of the
    keyword tiers of the cleaned version is then a disjunction without
    operands, alone or beside the tenant. *)
Theorem short_query_has_no_keywords :
  forall (query : string) (tenant : option string),
    String.length query <= 2 ->
    RAGAgentCleaned.extractKeywords query = []
    /\ RAGAgentCleaned.createKeywordConditions
         (RAGAgentCleaned.extractKeywords query) = []
    /\ RAGAgentCleaned.keywordFilter query tenant
       = match tenantGiven tenant with
         | Some t => And [ Equal ["productPurchased"] t; Or [] ]
         | None => Or []
         end.
Proof.
  intros query tenant H.
  pose proof (extractKeywords_short query H) as E.
  split; [exact E|]. split.
  - now rewrite E.
  - unfold RAGAgentCleaned.keywordFilter. rewrite E. reflexivity.
Qed.

(** "TV" is one of the words that route a query to the retrieval, and it
    gives the retrieval no keyword. *)
Lemma short_query_tv :
  RAGAgentCleaned.extractKeywords "TV" = []
  /\ RAGAgentCleaned.keywordFilter "TV" (Some "Sony TV")
     = And [ Equal ["productPurchased"] "Sony TV"; Or [] ].
Proof.
  destruct (@short_query_has_no_keywords "TV" (Some "Sony TV")) as (E & _ & F).
  - simpl. lia.
  - split; [exact E | exact F].
Defined.

(* ------------------------------------------------------------------------- *)
(** ** Further properties of the answer synthesizer *)
(* ------------------------------------------------------------------------- *)

Section Synthesis.

(** The loop of the template answer, for any number of tickets. *)
Lemma ticketLoop_any (tickets : list Ticket) :
  ticketLoop (List.length tickets) 0 tickets
  = String.concat "" (map ticketBlock (firstn 3 tickets))
    ++ (if 3 <? List.length tickets
        then "... and " ++ ofNat (List.length tickets - 3)
             ++ " more similar ticket(s)." ++ nl
        else "").
Proof.
  destruct tickets as [|a [|b [|c [|d rest]]]].
  - reflexivity.
  - cbn [ticketLoop List.length map firstn String.concat Nat.leb Nat.ltb].
    now rewrite !append_nil_r.
  - cbn [ticketLoop List.length map firstn String.concat Nat.leb Nat.ltb].
    now rewrite !append_nil_r, ?append_assoc.
  - cbn [ticketLoop List.length map firstn String.concat Nat.leb Nat.ltb Nat.sub].
    cbn [append]. now rewrite !append_nil_r, ?append_assoc.
  - cbn [ticketLoop List.length map firstn String.concat Nat.leb Nat.ltb Nat.sub].
    cbn [append]. now rewrite ?append_assoc.
Qed.

(** What the synthesizer returns, and the calls it has made. *)
Lemma generateResponse_run
  (userQuery : string) (tickets : list Ticket) (w : World) (tr : list Call) :
  generateResponse userQuery tickets w tr
  = match tickets with
    | [] => (Return {| answer := noTicketsAnswer;
                       references := plainReferences [] |}, tr)
    | _ =>
        (Return match llm_invoke w (answerPrompt userQuery tickets) with
                | Resolves (CText content) =>
                    {| answer := trim content;
                       references := plainReferences (map ticketId tickets) |}
                | Resolves COther =>
                    generateFallbackResponse userQuery tickets
                      (newError "response.content.trim is not a function")
                | Rejects err => generateFallbackResponse userQuery tickets err
                end,
         (tr ++ [CallLlm (answerPrompt userQuery tickets)])%list)
    end.
Proof.
  destruct tickets as [|t rest]; [reflexivity|].
  unfold generateResponse. run_step.
  destruct (llm_invoke w (answerPrompt userQuery (t :: rest))) as [[content|]|err];
    reflexivity.
Qed.

Lemma generateFallbackResponse_shape
  (userQuery : string) (t : Ticket) (rest : list Ticket) (err : JsError) :
  let result := generateFallbackResponse userQuery (t :: rest) err in
  trim (answer result) = answer result
  /\ ticketIds (references result) = map ticketId (t :: rest)
  /\ fallbackUsed (references result) = true
  /\ error (references result) = None.
Proof.
  cbn [generateFallbackResponse answer references ticketIds fallbackUsed error].
  split; [apply trim_idempotent | repeat split].
Qed.

(** The answer is trimmed, every ticket is referenced, and no error is
    recorded. *)
Lemma generateResponse_shape
  (userQuery : string) (tickets : list Ticket) (w : World) (tr : list Call) :
  exists result,
    generateResponse userQuery tickets w tr
    = (Return result,
       match tickets with
       | [] => tr
       | _ => (tr ++ [CallLlm (answerPrompt userQuery tickets)])%list
       end)
    /\ trim (answer result) = answer result
    /\ ticketIds (references result) = map ticketId tickets
    /\ error (references result) = None
    /\ fallbackUsed (references result)
       = match tickets with
         | [] => false
         | _ => match llm_invoke w (answerPrompt userQuery tickets) with
                | Resolves (CText _) => false
                | _ => true
                end
         end.
Proof.
  rewrite generateResponse_run. destruct tickets as [|t rest].
  - eexists. split; [reflexivity|]. repeat split.
  - eexists. split; [reflexivity|].
    destruct (llm_invoke w (answerPrompt userQuery (t :: rest))) as [[content|]|err].
    + cbn [answer references ticketIds error fallbackUsed plainReferences].
      split; [apply trim_idempotent | repeat split].
    + destruct (generateFallbackResponse_shape userQuery t rest
                  (newError "response.content.trim is not a function"))
        as (A & B & C & D).
      repeat split; assumption.
    + destruct (generateFallbackResponse_shape userQuery t rest err)
        as (A & B & C & D).
      repeat split; assumption.
Qed.

End Synthesis.

(** X4.  Whatever the model does, the synthesizer returns, and its
    references list the identifier of every ticket it was given, in the
    order given, whichever path wrote the text; it calls the model once when
    there is a ticket and not at all when there is none, records no error,
    and flags the fallback exactly when there was a ticket and the model did
    not answer with a text. *)
Theorem references_list_every_ticket :
  forall (userQuery : string) (tickets : list Ticket) (w : World) (tr : list Call),
    exists result,
      generateResponse userQuery tickets w tr
      = (Return result,
         match tickets with
         | [] => tr
         | _ => (tr ++ [CallLlm (answerPrompt userQuery tickets)])%list
         end)
      /\ ticketIds (references result) = map ticketId tickets
      /\ RAGAgent.error (references result) = None
      /\ fallbackUsed (references result)
         = match tickets with
           | [] => false
           | _ => match llm_invoke w (answerPrompt userQuery tickets) with
                  | Resolves (CText _) => false
                  | _ => true
                  end
           end.
Proof.
  intros userQuery tickets w tr.
  destruct (generateResponse_shape userQuery tickets w tr)
    as (result & E & _ & I & N & F).
  exists result. repeat split; assumption.
Qed.

(** X5.  For any number of tickets, the template answer is the header with
    the number of tickets, the blocks of the first three tickets at most, a
    line that counts the tickets left out when there are more than three,
    the guidance and the note; the references list every ticket, and the
    reason they give is the message of the error, or "LLM service
    unavailable" when it has none. *)
Theorem template_shows_three_tickets :
  forall (userQuery : string) (t : Ticket) (rest : list Ticket) (err : JsError),
    let tickets := t :: rest in
    let n := List.length tickets in
    let result := generateFallbackResponse userQuery tickets err in
    answer result
    = fallbackHeader userQuery n
      ++ String.concat "" (map ticketBlock (firstn 3 tickets))
      ++ (if 3 <? n
          then "... and " ++ ofNat (n - 3) ++ " more similar ticket(s)." ++ nl
          else "")
      ++ guidance (toLowerCase userQuery)
      ++ fallbackNote
    /\ ticketIds (references result) = map ticketId tickets
    /\ fallbackReason (references result)
       = Some match message err with
              | Some m => if (m =? "")%string then "LLM service unavailable" else m
              | None => "LLM service unavailable"
              end.
Proof.
  intros userQuery t rest err tickets n result. split; [|split; reflexivity].
  subst result n tickets. rewrite generateFallbackResponse_answer.
  unfold fallbackText. rewrite ticketLoop_any. now rewrite !append_assoc.
Qed.

Section RetrievalAgent.

Variables (userQuery : string) (tenant : option string) (limit : N).
Variable w : World.

Lemma isRetrieval_or_llm_app (a b : list Call) :
  Forall (fun c => Traces.isRetrievalCall c = true \/ Traces.isLlmCall c = true) a ->
  Forall (fun c => Traces.isRetrievalCall c = true \/ Traces.isLlmCall c = true) b ->
  Forall (fun c => Traces.isRetrievalCall c = true \/ Traces.isLlmCall c = true)
         (a ++ b)%list.
Proof. intros A B. apply Forall_app. now split. Qed.

(** The retrieval agent of the cleaned version: what it returns and what
    it has called. *)
Lemma cleaned_handleQuery_shape (tr : list Call) :
  exists tickets result calls,
    RAGAgentCleaned.handleQuery userQuery tenant limit w tr
    = (Return result, (tr ++ calls)%list)
    /\ fst (RAGAgentCleaned.searchTickets userQuery tenant limit w tr) = Return tickets
    /\ trim (answer result) = answer result
    /\ ticketIds (references result) = map ticketId tickets
    /\ RAGAgent.error (references result) = None
    /\ (tickets = [] -> answer result = noTicketsAnswer)
    /\ Forall (fun c => Traces.isRetrievalCall c = true \/ Traces.isLlmCall c = true)
              calls.
Proof.
  destruct (cleaned_search_calls w userQuery tenant limit tr)
    as (tickets & calls & S & C).
  destruct (generateResponse_shape userQuery tickets w (tr ++ calls)%list)
    as (result & G & T & I & N & _).
  assert (Fc : Forall (fun c => Traces.isRetrievalCall c = true
                                \/ Traces.isLlmCall c = true) calls).
  { destruct C as [->|[->|[-> _]]];
      repeat (constructor; [left; reflexivity|]); constructor. }
  exists tickets, result.
  exists (calls ++ match tickets with
                   | [] => []
                   | _ => [CallLlm (answerPrompt userQuery tickets)]
                   end)%list.
  split.
  - unfold RAGAgentCleaned.handleQuery, try_catch, bind. rewrite S, G.
    f_equal. destruct tickets; [now rewrite app_nil_r | now rewrite app_assoc].
  - split; [now rewrite S|]. split; [exact T|]. split; [exact I|].
    split; [exact N|]. split.
    + intros ->. rewrite generateResponse_run in G. now inversion G.
    + apply isRetrieval_or_llm_app; [exact Fc|].
      destruct tickets; [constructor | constructor; [now right | constructor]].
Qed.

(** The same for the pipeline of src/agents/ragAgent.js. *)
Lemma updated_handleQueryLegacy_shape (tr : list Call) :
  exists tickets result calls,
    RAGAgentUpdated.handleQueryLegacy userQuery tenant limit w tr
    = (Return result, (tr ++ calls)%list)
    /\ fst (RAGAgentUpdated.searchTickets userQuery tenant limit w tr) = Return tickets
    /\ trim (answer result) = answer result
    /\ ticketIds (references result) = map ticketId tickets
    /\ RAGAgent.error (references result) = None
    /\ (tickets = [] -> answer result = noTicketsAnswer)
    /\ Forall (fun c => Traces.isRetrievalCall c = true \/ Traces.isLlmCall c = true)
              calls.
Proof.
  destruct (updated_search_calls w userQuery tenant limit tr)
    as (tickets & calls & S & C).
  destruct (generateResponse_shape userQuery tickets w (tr ++ calls)%list)
    as (result & G & T & I & N & _).
  assert (Fc : Forall (fun c => Traces.isRetrievalCall c = true
                                \/ Traces.isLlmCall c = true) calls).
  { destruct C as [->|[->|[-> _]]];
      repeat (constructor; [left; reflexivity|]); constructor. }
  exists tickets, result.
  exists (calls ++ match tickets with
                   | [] => []
                   | _ => [CallLlm (answerPrompt userQuery tickets)]
                   end)%list.
  split.
  - unfold RAGAgentUpdated.handleQueryLegacy, try_catch, bind. rewrite S, G.
    f_equal. destruct tickets; [now rewrite app_nil_r | now rewrite app_assoc].
  - split; [now rewrite S|]. split; [exact T|]. split; [exact I|].
    split; [exact N|]. split.
    + intros ->. rewrite generateResponse_run in G. now inversion G.
    + apply isRetrieval_or_llm_app; [exact Fc|].
      destruct tickets; [constructor | constructor; [now right | constructor]].
Qed.

End RetrievalAgent.

(** X6.  In every world the retrieval agent returns, in the cleaned version
    ([handleQuery]) as in that of src/agents/ragAgent.js
    ([handleQueryLegacy]): its answer has no white space at either end, its
    references list the identifiers of the tickets that the search returned
    and record no error, the "No tickets found" of the template being out of
    reach; when the search returned nothing the answer is the fixed "could
    not find" text; and it has called nothing but the store, for tickets,
    and the model. *)
Theorem retrieval_agent_answer :
  forall (userQuery : string) (tenant : option string) (limit : N)
         (w : World) (tr : list Call),
    (exists tickets result calls,
        RAGAgentCleaned.handleQuery userQuery tenant limit w tr
        = (Return result, (tr ++ calls)%list)
        /\ fst (RAGAgentCleaned.searchTickets userQuery tenant limit w tr)
           = Return tickets
        /\ trim (answer result) = answer result
        /\ ticketIds (references result) = map ticketId tickets
        /\ RAGAgent.error (references result) = None
        /\ (tickets = [] -> answer result = noTicketsAnswer)
        /\ Forall (fun c => Traces.isRetrievalCall c = true
                            \/ Traces.isLlmCall c = true) calls)
    /\ (exists tickets result calls,
           RAGAgentUpdated.handleQueryLegacy userQuery tenant limit w tr
           = (Return result, (tr ++ calls)%list)
           /\ fst (RAGAgentUpdated.searchTickets userQuery tenant limit w tr)
              = Return tickets
           /\ trim (answer result) = answer result
           /\ ticketIds (references result) = map ticketId tickets
           /\ RAGAgent.error (references result) = None
           /\ (tickets = [] -> answer result = noTicketsAnswer)
           /\ Forall (fun c => Traces.isRetrievalCall c = true
                               \/ Traces.isLlmCall c = true) calls).
Proof.
  intros userQuery tenant limit w tr. split.
  - apply cleaned_handleQuery_shape.
  - apply updated_handleQueryLegacy_shape.
Qed.

(** The tickets of a search that found something, and a model that is
    out of quota: the agent returns the template answer, and the
    references list the tickets. *)
Lemma retrieval_agent_store_up :
  exists result calls,
    RAGAgentCleaned.handleQuery "My battery is dead" None 10%N Scenarios.storeUp []
    = (Return result, calls)
    /\ trim (answer result) = answer result
    /\ ticketIds (references result) = [Text "T-1"; Text "T-2"; Text "T-3"; Text "T-4"]
    /\ RAGAgent.error (references result) = None.
Proof.
  destruct (@retrieval_agent_answer "My battery is dead" None 10%N Scenarios.storeUp [])
    as ((tickets & result & calls & E & S & T & I & N & _) & _).
  exists result, calls. split; [exact E|]. split; [exact T|]. split; [|exact N].
  rewrite I. vm_compute in S. inversion S. reflexivity.
Defined.

(* ------------------------------------------------------------------------- *)
(** ** Further properties of the router *)
(* ------------------------------------------------------------------------- *)

Section Routing.

Import DelegatingAgent.

(** The chart tool makes one call, and fails to the chart of
    [getErrorChart]: when the call is rejected, when its data cannot be
    read, and when the priority chart cannot be built. *)
Lemma generateAnalytics_run (tenant : option string) (w : World) (tr : list Call) :
  ChartTool.generateAnalytics tenant w tr
  = (Return
       match graphql_get w (Traces.analyticsQuery tenant) with
       | Resolves r =>
           match data r with
           | Some found =>
               let analytics :=
                 ChartTool.processAnalyticsData (date_parse w) (local_offset w)
                   (numbers w) (orEmpty found) in
               match ChartTool.createPriorityChart
                       (ChartTool.priorityDistribution analytics) with
               | Return priorityChart =>
                   ChartTool.FourCharts
                     (ChartTool.createStatusChart
                        (ChartTool.statusDistribution analytics))
                     priorityChart
                     (ChartTool.createResponseTimeChart
                        (ChartTool.responseTimeStats analytics))
                     (ChartTool.createSatisfactionChart
                        (ChartTool.satisfactionStats analytics))
               | Throw _ =>
                   ChartTool.ErrorChart
                     (ChartTool.getErrorChart "Failed to generate analytics")
               end
           | None =>
               ChartTool.ErrorChart
                 (ChartTool.getErrorChart "Failed to generate analytics")
           end
       | Rejects _ =>
           ChartTool.ErrorChart (ChartTool.getErrorChart "Failed to generate analytics")
       end,
     (tr ++ [CallGraphql (Traces.analyticsQuery tenant)])%list).
Proof.
  unfold ChartTool.generateAnalytics, ChartTool.getAnalyticsData. run_step.
  fold (Traces.analyticsQuery tenant).
  destruct (graphql_get w (Traces.analyticsQuery tenant)) as [r|e]; [|reflexivity].
  destruct (data r); [|reflexivity].
  unfold lift. cbv zeta.
  destruct (ChartTool.createPriorityChart _); reflexivity.
Qed.

Variables (userQuery : string) (tenant : option string) (thread : string).
Variable w : World.

(** The analysis that the router gets in the world [w]. *)
Let analysis : Json.value :=
  match llm_invoke w (analysisPrompt userQuery) with
  | Resolves response => parseJSONResponse response
  | Rejects err => keywordAnalysis userQuery err
  end.

(** The router, step by step. *)
Lemma handleQuery_run (tr : list Call) :
  let tr0 := (tr ++ [CallLlm (analysisPrompt userQuery)])%list in
  exists ragResult chartResult tr1 tr2,
    (if needsRAG analysis
     then exists r, RAGAgentCleaned.handleQuery userQuery tenant 10%N w tr0
                    = (Return r, tr1)
                    /\ ragResult = Some r
     else ragResult = None /\ tr1 = tr0)
    /\ (if needsChart analysis
        then exists c, ChartTool.generateAnalytics tenant w tr1 = (Return c, tr2)
                       /\ chartResult = Some c
        else chartResult = None /\ tr2 = tr1)
    /\ handleQuery userQuery tenant thread w tr
       = (Return
            {| answer := combineResults userQuery tenant ragResult chartResult analysis;
               references :=
                 {| threadId := thread;
                    ticketIds :=
                      match ragResult with
                      | Some r => Some (RAGAgent.ticketIds (RAGAgent.references r))
                      | None => None
                      end;
                    error := None |};
               chart := chartResult |},
          tr2).
Proof.
  intros tr0.
  unfold handleQuery, handleQueryWith, try_catch, handleQueryBody, bind.
  rewrite analyzeQueryRequirements_run. fold analysis. fold tr0.
  destruct (needsRAG analysis).
  - destruct (cleaned_handleQuery_returns userQuery tenant 10%N w tr0)
      as (r & tr1 & E & _).
    rewrite E. unfold ret at 1.
    destruct (needsChart analysis).
    + destruct (generateAnalytics_returns tenant w tr1) as (c & tr2 & Ec).
      rewrite Ec. unfold ret.
      exists (Some r), (Some c), tr1, tr2. split; [eauto|]. split; [eauto|].
      reflexivity.
    + unfold ret. exists (Some r), None, tr1, tr1.
      split; [eauto|]. split; [auto|]. reflexivity.
  - unfold ret at 1.
    destruct (needsChart analysis).
    + destruct (generateAnalytics_returns tenant w tr0) as (c & tr2 & Ec).
      rewrite Ec. unfold ret.
      exists None, (Some c), tr0, tr2. split; [auto|]. split; [eauto|].
      reflexivity.
    + unfold ret. exists None, None, tr0, tr0.
      split; [auto|]. split; [auto|]. reflexivity.
Qed.

End Routing.

(** What the router returns, and the calls it has made. *)
Lemma handleQuery_outline :
  forall (userQuery : string) (tenant : option string) (thread : string)
         (w : World) (tr : list Call),
    let analysis :=
      match llm_invoke w (DelegatingAgent.analysisPrompt userQuery) with
      | Resolves response => DelegatingAgent.parseJSONResponse response
      | Rejects err => DelegatingAgent.keywordAnalysis userQuery err
      end in
    exists response calls,
      DelegatingAgent.handleQuery userQuery tenant thread w tr
      = (Return response,
         (tr ++ CallLlm (DelegatingAgent.analysisPrompt userQuery) :: calls)%list)
      /\ (DelegatingAgent.ticketIds (DelegatingAgent.references response) = None
          <-> DelegatingAgent.needsRAG analysis = false)
      /\ (DelegatingAgent.chart response = None
          <-> DelegatingAgent.needsChart analysis = false)
      /\ (DelegatingAgent.needsChart analysis = true ->
          exists before,
            calls = (before ++ [CallGraphql (Traces.analyticsQuery tenant)])%list)
      /\ DelegatingAgent.error (DelegatingAgent.references response) = None
      /\ DelegatingAgent.threadId (DelegatingAgent.references response) = thread
      /\ DelegatingAgent.answer response <> "".
Proof.
  intros userQuery tenant thread w tr analysis.
  destruct (handleQuery_run userQuery tenant thread w tr)
    as (ragResult & chartResult & tr1 & tr2 & R & C & E).
  fold analysis in R, C, E.
  assert (R' : exists calls1,
             tr1 = (tr ++ CallLlm (DelegatingAgent.analysisPrompt userQuery)
                       :: calls1)%list
             /\ (ragResult = None <-> DelegatingAgent.needsRAG analysis = false)).
  { destruct (DelegatingAgent.needsRAG analysis).
    - destruct R as (r & Er & ->).
      destruct (cleaned_handleQuery_shape userQuery tenant 10%N w
                  (tr ++ [CallLlm (DelegatingAgent.analysisPrompt userQuery)])%list)
        as (tickets & result & calls & Es & _).
      rewrite Es in Er. inversion Er; subst.
      exists calls. split; [now rewrite <- app_assoc|].
      split; discriminate.
    - destruct R as [-> ->]. exists []. split; [reflexivity|]. now split. }
  destruct R' as (calls1 & -> & Rn).
  assert (C' : exists calls2,
             tr2 = (tr ++ CallLlm (DelegatingAgent.analysisPrompt userQuery)
                       :: calls2)%list
             /\ (chartResult = None <-> DelegatingAgent.needsChart analysis = false)
             /\ (DelegatingAgent.needsChart analysis = true ->
                 exists before,
                   calls2 = (before ++ [CallGraphql (Traces.analyticsQuery tenant)])%list)).
  { destruct (DelegatingAgent.needsChart analysis).
    - destruct C as (c & Ec & ->). rewrite generateAnalytics_run in Ec.
      inversion Ec; subst.
      exists (calls1 ++ [CallGraphql (Traces.analyticsQuery tenant)])%list.
      split; [now rewrite <- app_assoc|]. split; [split; discriminate|].
      intros _. now exists calls1.
    - destruct C as [-> ->]. exists calls1. split; [reflexivity|].
      split; [now split | discriminate]. }
  destruct C' as (calls2 & -> & Cn & Ca).
  assert (NE : DelegatingAgent.combineResults userQuery tenant ragResult chartResult
                 analysis <> "").
  { destruct (@handleQueryWith_answers
                (fun query tenant => RAGAgentCleaned.handleQuery query tenant 10%N)
                ChartTool.generateAnalytics
                (fun q t w0 tr0 => cleaned_handleQuery_returns q t 10%N w0 tr0)
                generateAnalytics_returns
                userQuery tenant thread w tr)
      as (response & tr' & E' & N & _).
    unfold DelegatingAgent.handleQuery in E. rewrite E' in E.
    inversion E; subst response. exact N. }
  eexists _, calls2. split; [exact E|].
  cbn [DelegatingAgent.references DelegatingAgent.ticketIds DelegatingAgent.chart
       DelegatingAgent.error DelegatingAgent.threadId DelegatingAgent.answer].
  split.
  { rewrite <- Rn. destruct ragResult; split; congruence. }
  split; [exact Cn|]. split; [exact Ca|]. split; [reflexivity|].
  split; [reflexivity | exact NE].
Qed.





Section Routes.

Import DelegatingAgent.





End Routes.





Section BothTools.

Import DelegatingAgent.



End BothTools.



Section Summary.

Import DelegatingAgent.

Lemma distributionLines_entries (entries : list (string * ChartTool.Slot)) :
  forall (counts : list ChartTool.Slot) (index : nat),
    (forall j, nth_error counts (index + j) = nth_error (map snd entries) j) ->
    distributionLines counts index (map fst entries)
    = String.concat "" (map Traces.distributionLine entries).
Proof.
  induction entries as [|[label v] rest IH]; intros counts index H; [reflexivity|].
  cbn [map fst distributionLines].
  unfold countAt. pose proof (H 0) as H0. rewrite Nat.add_0_r in H0.
  rewrite H0. cbn [map snd nth_error].
  rewrite (IH counts (S index)).
  - assert (Hc : forall (x : string) (l : list string),
               String.concat "" (x :: l) = x ++ String.concat "" l).
    { intros x [|y l]; cbn [String.concat]; [now rewrite append_nil_r | reflexivity]. }
    rewrite Hc. unfold Traces.distributionLine, Traces.slotText. cbn [fst snd].
    destruct v; now rewrite ?append_assoc.
  - intros j. specialize (H (S j)). rewrite Nat.add_succ_r in H. exact H.
Qed.

Lemma insertIndexed_sorted
  (e : N * (string * ChartTool.Slot)) (l : list (N * (string * ChartTool.Slot))) :
  StronglySorted (fun a b => (fst a <= fst b)%N) l ->
  StronglySorted (fun a b => (fst a <= fst b)%N) (ChartTool.insertIndexed e l).
Proof.
  induction l as [|y rest IH]; intros S; cbn [ChartTool.insertIndexed].
  - constructor; constructor.
  - inversion S as [|? ? Sr Fr]; subst.
    destruct (N.leb_spec (fst e) (fst y)) as [L|L].
    + constructor; [exact S|]. constructor; [exact L|].
      eapply Forall_impl; [|exact Fr]. intros b Hb. cbv beta in *. lia.
    + constructor; [now apply IH|].
      apply (Permutation_Forall (Permutation_sym (insertIndexed_perm e rest))).
      constructor; [lia | exact Fr].
Qed.

Lemma indexed_indices (o : ChartTool.Distribution) :
  Forall (fun p => ChartTool.arrayIndex (fst (snd p)) = Some (fst p))
         (ChartTool.indexed o).
Proof.
  unfold ChartTool.indexed. induction o as [|e rest IH]; cbn [flat_map]; [constructor|].
  destruct (ChartTool.arrayIndex (fst e)) eqn:E; cbn [app]; [|exact IH].
  constructor; [exact E | exact IH].
Qed.

(** The priority chart is built unless a label has no colour string. *)
Lemma createPriorityChart_returns (o : ChartTool.Distribution) :
  ChartTool.createPriorityChart o
  = if forallb ChartTool.isRgba (ChartTool.getPriorityColors (ChartTool.objectKeys o))
    then Return {| ChartTool.type := "bar";
                   ChartTool.labels := ChartTool.objectKeys o;
                   ChartTool.datasetLabel := Some "Number of Tickets";
                   ChartTool.datasetData := ChartTool.objectValues o;
                   ChartTool.title := "Ticket Priority Distribution" |}
    else Throw (newError "color.replace is not a function").
Proof.
  unfold ChartTool.createPriorityChart, ChartTool.borderColor. cbv zeta.
  destruct (forallb _ _); reflexivity.
Qed.

End Summary.

(** X11.  The lines that the router writes for a chart of the chart tool
    are, in the order of the labels, one line for each label with the value
    of this very label: the labels and the values of [createStatusChart] and
    of [createPriorityChart] are aligned, and no line reads "undefined". The
    labels are the properties of the counted object, each once: the labels
    that are array indices first, in ascending order, then the others in the
    order in which they were first counted. The line of a label whose value
    is the number [n] shows [n]. *)
Theorem summary_lines_match_counts :
  forall (distribution : ChartTool.Distribution),
    let statusChart := ChartTool.createStatusChart distribution in
    DelegatingAgent.distributionLines
      (ChartTool.datasetData statusChart) 0 (ChartTool.labels statusChart)
    = String.concat "" (map Traces.distributionLine (ChartTool.ownEntries distribution))
    /\ List.length (ChartTool.labels statusChart)
       = List.length (ChartTool.datasetData statusChart)
    /\ (forall priorityChart,
           ChartTool.createPriorityChart distribution = Return priorityChart ->
           DelegatingAgent.distributionLines
             (ChartTool.datasetData priorityChart) 0 (ChartTool.labels priorityChart)
           = String.concat ""
               (map Traces.distributionLine (ChartTool.ownEntries distribution))
           /\ List.length (ChartTool.labels priorityChart)
              = List.length (ChartTool.datasetData priorityChart))
    /\ Permutation (ChartTool.ownEntries distribution) distribution
    /\ (exists lead,
           ChartTool.ownEntries distribution
           = (map snd lead
              ++ filter (fun e => match ChartTool.arrayIndex (fst e) with
                                  | Some _ => false
                                  | None => true
                                  end) distribution)%list
           /\ StronglySorted (fun a b => (fst a <= fst b)%N) lead
           /\ Forall (fun p => ChartTool.arrayIndex (fst (snd p)) = Some (fst p)) lead)
    /\ (forall label n,
           Traces.distributionLine (label, ChartTool.Count n)
           = "- **" ++ label ++ ":** " ++ ofNat n ++ " tickets" ++ nl).
Proof.
  intros distribution statusChart.
  split; [apply distributionLines_entries; intros j; reflexivity|].
  split.
  { cbn. unfold ChartTool.objectKeys, ChartTool.objectValues.
    now rewrite !length_map. }
  split.
  { intros priorityChart E. rewrite createPriorityChart_returns in E.
    destruct (forallb _ _); [|discriminate E].
    inversion E; subst priorityChart.
    cbn [ChartTool.datasetData ChartTool.labels]. split.
    - apply distributionLines_entries. intros j. reflexivity.
    - unfold ChartTool.objectKeys, ChartTool.objectValues.
      now rewrite !length_map. }
  split; [apply ownEntries_perm|].
  split; [|reflexivity].
  exists (fold_right ChartTool.insertIndexed [] (ChartTool.indexed distribution)).
  split; [reflexivity|]. split.
  - induction (ChartTool.indexed distribution) as [|e rest IH]; cbn [fold_right];
      [constructor | now apply insertIndexed_sorted].
  - apply (Permutation_Forall (Permutation_sym (sortIndexed_perm _))).
    apply indexed_indices.
Qed.

(** Three priorities, of which "7" and "10" are array indices: they are
    listed first, 7 before 10. *)
Lemma summary_lines_of_three_labels :
  let distribution :=
    [ ("High", ChartTool.Count 2); ("10", ChartTool.Count 1);
      ("7", ChartTool.Count 3) ] in
  exists priorityChart,
    ChartTool.createPriorityChart distribution = Return priorityChart
    /\ DelegatingAgent.distributionLines
         (ChartTool.datasetData priorityChart) 0 (ChartTool.labels priorityChart)
       = "- **7:** 3 tickets" ++ nl
         ++ "- **10:** 1 tickets" ++ nl
         ++ "- **High:** 2 tickets" ++ nl.
Proof.
  intros distribution.
  destruct (@summary_lines_match_counts distribution) as (_ & _ & P & _).
  eexists. split; [reflexivity|].
  destruct (P _ eq_refl) as [L _]. rewrite L. reflexivity.
Defined.

(* ------------------------------------------------------------------------- *)
(** ** Further properties of the analytics *)
(* ------------------------------------------------------------------------- *)

Section SortedTimes.

Import ChartTool.

Lemma In_insertSorted (x y : Q) (l : list Q) :
  In x (insertSorted y l) <-> x = y \/ In x l.
Proof.
  induction l as [|z l IH]; simpl; [intuition congruence|].
  destruct (Qle_bool y z); simpl; [intuition congruence|].
  rewrite IH. intuition congruence.
Qed.

Lemma In_sortAscending (x : Q) (l : list Q) : In x (sortAscending l) <-> In x l.
Proof.
  induction l as [|y l IH]; simpl; [tauto|].
  rewrite In_insertSorted, IH. intuition congruence.
Qed.

Lemma length_insertSorted (y : Q) (l : list Q) :
  List.length (insertSorted y l) = S (List.length l).
Proof.
  induction l as [|z l IH]; simpl; [reflexivity|].
  destruct (Qle_bool y z); simpl; [reflexivity | now rewrite IH].
Qed.

Lemma insertSorted_sorted (y : Q) (l : list Q) :
  StronglySorted Qle l -> StronglySorted Qle (insertSorted y l).
Proof.
  induction 1 as [|z l S IH F]; simpl.
  - constructor; constructor.
  - destruct (Qle_bool y z) eqn:E.
    + apply Qle_bool_iff in E. constructor; [now constructor|].
      constructor; [exact E|].
      rewrite Forall_forall in *. intros u Hu.
      eapply Qle_trans; [exact E | now apply F].
    + assert (L : (z <= y)%Q).
      { apply Qlt_le_weak, Qnot_le_lt. intros C.
        apply Qle_bool_iff in C. congruence. }
      constructor; [exact IH|].
      rewrite Forall_forall in *. intros u Hu.
      apply In_insertSorted in Hu as [->|Hu]; [exact L | now apply F].
Qed.

Lemma sortAscending_sorted (l : list Q) : StronglySorted Qle (sortAscending l).
Proof.
  induction l as [|y l IH]; simpl; [constructor | now apply insertSorted_sorted].
Qed.

Lemma sortAscending_nonempty (l : list Q) : l <> [] -> sortAscending l <> [].
Proof.
  destruct l as [|y l]; [congruence|]. intros _ E.
  apply (f_equal (@List.length Q)) in E. simpl in E.
  rewrite length_insertSorted in E. discriminate.
Qed.

Lemma sorted_hd (l : list Q) (d x : Q) :
  StronglySorted Qle l -> In x l -> (hd d l <= x)%Q.
Proof.
  intros S I. destruct S as [|z l S F]; [contradiction|].
  simpl. destruct I as [->|I]; [apply Qle_refl|].
  rewrite Forall_forall in F. now apply F.
Qed.

Lemma In_last (l : list Q) (d : Q) : l <> [] -> In (last l d) l.
Proof.
  induction l as [|z l IH]; [congruence|]. intros _.
  destruct l as [|u l]; [now left|].
  right. apply IH. discriminate.
Qed.

Lemma sorted_last (l : list Q) (d x : Q) :
  StronglySorted Qle l -> In x l -> (x <= last l d)%Q.
Proof.
  induction 1 as [|z l S IH F]; intros I; [contradiction|].
  destruct l as [|u l].
  - destruct I as [->|[]]. apply Qle_refl.
  - change (last (z :: u :: l) d) with (last (u :: l) d).
    destruct I as [->|I]; [|now apply IH].
    rewrite Forall_forall in F. apply F. apply In_last. discriminate.
Qed.

End SortedTimes.

(** X12.  For a sample that is not empty, the minimum and the maximum of the
    statistics are members of the sample, every member lies between them,
    and the count is the size of the sample, whatever the arithmetic of the
    host is. *)
Theorem time_stats_extremes :
  forall (host : Arithmetic) (times : list Q),
    times <> [] ->
    let stats := ChartTool.calculateTimeStats host times in
    ChartTool.time_count stats = List.length times
    /\ In (ChartTool.time_min stats) times
    /\ In (ChartTool.time_max stats) times
    /\ Forall (fun x => (ChartTool.time_min stats <= x)%Q
                        /\ (x <= ChartTool.time_max stats)%Q) times.
Proof.
  intros host times N stats.
  assert (E : stats
              = {| ChartTool.time_average :=
                     ChartTool.averageOf host
                       (ChartTool.sumOf host (ChartTool.sortAscending times))
                       (List.length times);
                   ChartTool.time_min := hd 0%Q (ChartTool.sortAscending times);
                   ChartTool.time_max := last (ChartTool.sortAscending times) 0%Q;
                   ChartTool.time_count := List.length times |}).
  { subst stats. destruct times; [congruence | reflexivity]. }
  rewrite E. cbn [ChartTool.time_count ChartTool.time_min ChartTool.time_max].
  pose proof (sortAscending_sorted times) as S.
  pose proof (sortAscending_nonempty N) as N'.
  split; [reflexivity|]. split.
  - apply In_sortAscending.
    destruct (ChartTool.sortAscending times); [congruence | now left].
  - split.
    + apply In_sortAscending. now apply In_last.
    + apply Forall_forall. intros x I. apply In_sortAscending in I. split.
      * now apply sorted_hd.
      * now apply sorted_last.
Qed.

(** Three response times. *)
Lemma time_stats_of_three :
  let stats :=
    ChartTool.calculateTimeStats Examples.exact [(5 # 2)%Q; (1 # 2)%Q; 12%Q] in
  ChartTool.time_count stats = 3
  /\ In (ChartTool.time_min stats) [(5 # 2)%Q; (1 # 2)%Q; 12%Q]
  /\ In (ChartTool.time_max stats) [(5 # 2)%Q; (1 # 2)%Q; 12%Q].
Proof.
  destruct (@time_stats_extremes Examples.exact [(5 # 2)%Q; (1 # 2)%Q; 12%Q])
    as (C & Lo & Hi & _).
  - discriminate.
  - split; [exact C|]. split; [exact Lo | exact Hi].
Defined.

Section Buckets.

Import ChartTool.

Lemma fold_left_map_arg {A B C : Type} (f : A -> C -> A) (g : B -> C)
  (l : list B) (a : A) :
  fold_left (fun acc x => f acc (g x)) l a = fold_left f (map g l) a.
Proof. revert a. induction l as [|x l IH]; intros a; simpl; [reflexivity | apply IH]. Qed.

Lemma sat_distribution_fold (host : Arithmetic) (ratings : list Q) :
  sat_distribution (calculateSatisfactionStats host ratings)
  = fold_left (fun acc k => increment Z.eqb k acc) (map Qfloor ratings) [].
Proof.
  destruct ratings as [|r rest]; [reflexivity|].
  cbn [calculateSatisfactionStats sat_distribution].
  apply (fold_left_map_arg (fun acc k => increment Z.eqb k acc) Qfloor).
Qed.

Lemma sat_count_length (host : Arithmetic) (ratings : list Q) :
  sat_count (calculateSatisfactionStats host ratings) = List.length ratings.
Proof. destruct ratings; reflexivity. Qed.

Lemma time_count_length (host : Arithmetic) (times : list Q) :
  time_count (calculateTimeStats host times) = List.length times.
Proof. destruct times; reflexivity. Qed.







Lemma push_length {A : Type} (l : list A) (o : option A) :
  List.length (push l o)
  = List.length l + match o with Some _ => 1 | None => 0 end.
Proof. destruct o; simpl; [rewrite length_app; simpl|]; lia. Qed.

Lemma tally_lengths (parse : string -> option Z) (offset : Z -> Z)
  (tickets : list Ticket) (acc : Tally) :
  let tally := fold_left (tallyTicket parse offset) tickets acc in
  List.length (responseTimes tally)
  = List.length (responseTimes acc)
    + List.length (filter (fun t => Traces.timed parse (firstResponseTime t)) tickets)
  /\ List.length (resolutionTimes tally)
     = List.length (resolutionTimes acc)
       + List.length (filter (fun t => Traces.counted (timeToResolution t)) tickets)
  /\ List.length (satisfactionRatings tally)
     = List.length (satisfactionRatings acc)
       + List.length (filter (fun t => Traces.counted (customerSatisfactionRating t))
                             tickets).
Proof.
  revert acc. induction tickets as [|t rest IH]; intros acc; simpl.
  - repeat split; lia.
  - destruct (IH (tallyTicket parse offset acc t)) as (A & B & C).
    rewrite A, B, C.
    cbn [tallyTicket responseTimes resolutionTimes satisfactionRatings].
    rewrite !push_length. unfold Traces.timed, Traces.counted.
    repeat split.
    + unfold fieldTruthy, parseTimeToHours.
      destruct (firstResponseTime t) as [| |s]; simpl; try lia.
      destruct (s =? "")%string; simpl; [lia|].
      destruct (parse s); simpl; lia.
    + destruct (numberGiven (timeToResolution t)); simpl; lia.
    + destruct (numberGiven (customerSatisfactionRating t)); simpl; lia.
Qed.

End Buckets.

Lemma bucket_facts (host : Arithmetic) (ratings : list Q) :
  let dist :=
    ChartTool.sat_distribution (ChartTool.calculateSatisfactionStats host ratings) in
  ChartTool.total dist = List.length ratings
  /\ NoDup (ChartTool.keys dist)
  /\ (forall star,
         In star (ChartTool.keys dist)
         <-> exists rating, In rating ratings /\ Qfloor rating = star)
  /\ (forall star,
         ChartTool.countOf Z.eqb star dist
         = List.length (filter (fun rating => (Qfloor rating =? star)%Z) ratings)).
Proof.
  intros dist. subst dist. rewrite sat_distribution_fold. split.
  - rewrite total_fold by apply Z.eqb_eq. simpl. apply length_map.
  - split.
    + apply NoDup_fold; [apply Z.eqb_eq | constructor].
    + split.
      * intros star. rewrite keys_fold by apply Z.eqb_eq. simpl.
        rewrite in_map_iff. split.
        -- intros [[]|(r & E & I)]. exists r. auto.
        -- intros (r & I & E). right. exists r. auto.
      * intros star. rewrite countOf_fold by apply Z.eqb_eq. simpl.
        apply filter_map_length.
Qed.

(** X14.  The distribution of the satisfaction statistics has one bucket for
    each whole number that is the floor of a rating, the count of a bucket
    is the number of ratings with this floor, and the counts add up to the
    size of the sample, whatever the arithmetic of the host is. *)
Theorem satisfaction_buckets :
  forall (host : Arithmetic) (ratings : list Q),
    let stats := ChartTool.calculateSatisfactionStats host ratings in
    ChartTool.sat_count stats = List.length ratings
    /\ ChartTool.total (ChartTool.sat_distribution stats) = List.length ratings
    /\ NoDup (ChartTool.keys (ChartTool.sat_distribution stats))
    /\ (forall star,
           In star (ChartTool.keys (ChartTool.sat_distribution stats))
           <-> exists rating, In rating ratings /\ Qfloor rating = star)
    /\ (forall star,
           ChartTool.countOf Z.eqb star (ChartTool.sat_distribution stats)
           = List.length (filter (fun rating => (Qfloor rating =? star)%Z) ratings)).
Proof.
  intros host ratings stats. subst stats.
  split; [apply sat_count_length | apply bucket_facts].
Qed.


(** X16.  Whatever the host's [Date] and arithmetic are, the size of each of
    the three samples of the analytics is the number of tickets that have
    the value: a first response time that is a string the host parses, a
    resolution time that is a number other than zero, a satisfaction rating
    that is a number other than zero; a ticket whose number is zero is left
    out as one without a number is, and no sample is larger than the set of
    tickets. *)
Theorem sample_sizes :
  forall (parse : string -> option Z) (offset : Z -> Z) (host : Arithmetic)
         (tickets : list Ticket),
    let analytics := ChartTool.processAnalyticsData parse offset host tickets in
    let responded :=
      filter (fun t => Traces.timed parse (firstResponseTime t)) tickets in
    let resolved :=
      filter (fun t => Traces.counted (timeToResolution t)) tickets in
    let rated :=
      filter (fun t => Traces.counted (customerSatisfactionRating t)) tickets in
    ChartTool.time_count (ChartTool.responseTimeStats analytics)
    = List.length responded
    /\ ChartTool.time_count (ChartTool.resolutionTimeStats analytics)
       = List.length resolved
    /\ ChartTool.sat_count (ChartTool.satisfactionStats analytics)
       = List.length rated
    /\ List.length responded <= List.length tickets
    /\ List.length resolved <= List.length tickets
    /\ List.length rated <= List.length tickets
    /\ Traces.counted (Some 0%Q) = false
    /\ Traces.counted None = false.
Proof.
  intros parse offset host tickets analytics responded resolved rated.
  subst analytics.
  cbn [ChartTool.processAnalyticsData ChartTool.responseTimeStats
       ChartTool.resolutionTimeStats ChartTool.satisfactionStats].
  rewrite !time_count_length, sat_count_length.
  destruct (tally_lengths parse offset tickets ChartTool.emptyTally) as (A & B & C).
  unfold ChartTool.tallyAll. rewrite A, B, C. cbn.
  split; [reflexivity|]. split; [reflexivity|]. split; [reflexivity|].
  split; [apply filter_length_le|]. split; [apply filter_length_le|].
  split; [apply filter_length_le|]. split; reflexivity.
Qed.

Section PriorityColours.

Import ChartTool.

Lemma prototypeFunction_inherited (label : string) :
  isPrototypeFunction label = true <-> inherited label = true /\ label <> "__proto__".
Proof.
  unfold inherited. split.
  - intros H. rewrite H. split; [reflexivity|]. intros ->. discriminate H.
  - intros [H N]. apply orb_true_iff in H as [H|H]; [exact H|].
    apply String.eqb_eq in H. contradiction.
Qed.

(** A function of the prototype is what the map of the priorities gives
    for its name, and the map gives a string for every other label. *)
Lemma priorityColour_string (label : string) :
  label <> "__proto__" ->
  forallb isRgba (getPriorityColors [label]) = negb (isPrototypeFunction label).
Proof.
  intros N. cbn [getPriorityColors map forallb]. rewrite andb_true_r.
  destruct (isPrototypeFunction label) eqn:F.
  - unfold isPrototypeFunction in F. apply existsb_exists in F as (name & I & E).
    apply String.eqb_eq in E. subst name.
    cbn [prototypeFunctions In] in I.
    repeat (destruct I as [<-|I]; [reflexivity|]). destruct I.
  - unfold colourOf, inherited. rewrite F.
    apply String.eqb_neq in N. rewrite N.
    destruct (find _ _); reflexivity.
Qed.

Lemma priorityColours_strings (labels : list string) :
  ~ In "__proto__" labels ->
  forallb isRgba (getPriorityColors labels)
  = forallb (fun label => negb (isPrototypeFunction label)) labels.
Proof.
  induction labels as [|label rest IH]; intros N; [reflexivity|].
  assert (S : forallb isRgba (getPriorityColors (label :: rest))
              = forallb isRgba (getPriorityColors [label])
                && forallb isRgba (getPriorityColors rest)).
  { unfold getPriorityColors. cbn [map forallb]. now rewrite andb_true_r. }
  rewrite S, IH by (intros I; apply N; now right).
  rewrite priorityColour_string by (intros E; apply N; now left).
  reflexivity.
Qed.

(** The priority chart is built exactly when no ticket has a priority
    that names a function of the prototype. *)
Lemma priorityChart_built
  (parse : string -> option Z) (offset : Z -> Z) (host : Arithmetic)
  (tickets : list Ticket) :
  forallb isRgba
    (getPriorityColors
       (objectKeys
          (priorityDistribution (processAnalyticsData parse offset host tickets))))
  = forallb (fun t => negb (isPrototypeFunction (priorityLabel t))) tickets.
Proof.
  cbn [processAnalyticsData priorityDistribution]. unfold tallyAll.
  rewrite priorityTally_fold. cbn [priorityTally emptyTally].
  set (o := fold_left (fun o k => countLabel k o) (map priorityLabel tickets) []).
  assert (K : forall key, In key (objectKeys o)
                          <-> In key (map priorityLabel tickets) /\ key <> "__proto__").
  { intros key. transitivity (In key (map fst o)).
    - split; apply Permutation_in;
        [apply objectKeys_perm | apply Permutation_sym, objectKeys_perm].
    - subst o. rewrite keys_countLabel_fold. cbn [map In]. intuition. }
  rewrite priorityColours_strings by (intros I; apply K in I; tauto).
  apply eq_true_iff_eq. rewrite !forallb_forall. split.
  - intros H t I. destruct (String.eqb_spec (priorityLabel t) "__proto__") as [E|N].
    + rewrite E. reflexivity.
    + apply H, K. split; [now apply in_map | exact N].
  - intros H key I. apply K in I as [I _].
    apply in_map_iff in I as (t & <- & I). now apply H.
Qed.

End PriorityColours.

(** X17.  In every world the chart tool returns after exactly one call, a
    query for the five fields of the analytics with a limit of 10000 and
    with the filter "product equals tenant" exactly when a tenant (a string
    that is not empty) is given; what it returns is the chart of
    [getErrorChart], entitled "Failed to generate analytics", exactly when
    this call is rejected, or its data cannot be read, or a ticket has a
    priority that names a function of [Object.prototype] ("constructor",
    "toString", ...), for which the map of the colours gives the function
    and the call of [replace] on it throws; it returns four charts
    otherwise. *)
Theorem chart_tool_asks_once :
  forall (tenant : option string) (w : World) (tr : list Call),
    let query :=
      {| withFields :=
           "ticketStatus ticketPriority firstResponseTime timeToResolution customerSatisfactionRating";
         withNearText := None;
         withWhere := match tenant with
                      | Some t => if (t =? "")%string then None
                                  else Some (Equal ["productPurchased"] t)
                      | None => None
                      end;
         withLimit := 10000%N |} in
    exists charts,
      ChartTool.generateAnalytics tenant w tr
      = (Return charts, (tr ++ [CallGraphql query])%list)
      /\ (charts
          = ChartTool.ErrorChart
              {| ChartTool.type := "doughnut";
                 ChartTool.labels := ["Error"];
                 ChartTool.datasetLabel := None;
                 ChartTool.datasetData := [1];
                 ChartTool.title := "Failed to generate analytics" |}
          <-> match graphql_get w query with
              | Resolves r =>
                  match data r with
                  | Some found =>
                      exists ticket,
                        In ticket (orEmpty found)
                        /\ In (fieldOr (ticketPriority ticket) "Unknown")
                              [ "constructor"; "__defineGetter__";
                                "__defineSetter__"; "hasOwnProperty";
                                "__lookupGetter__"; "__lookupSetter__";
                                "isPrototypeOf"; "propertyIsEnumerable";
                                "toString"; "valueOf"; "toLocaleString" ]
                  | None => True
                  end
              | Rejects _ => True
              end)
      /\ (forall r found,
             graphql_get w query = Resolves r ->
             data r = Some found ->
             (forall ticket,
                 In ticket (orEmpty found) ->
                 ChartTool.inherited (fieldOr (ticketPriority ticket) "Unknown")
                 = false) ->
             exists status priority response satisfaction,
               charts = ChartTool.FourCharts status priority response satisfaction).
Proof.
  intros tenant w tr query.
  assert (Q : query = Traces.analyticsQuery tenant).
  { subst query. unfold Traces.analyticsQuery, tenantGiven, tenantEquals.
    destruct tenant as [t|]; [destruct (t =? "")%string|]; reflexivity. }
  rewrite Q. eexists. split; [apply generateAnalytics_run|].
  destruct (graphql_get w (Traces.analyticsQuery tenant)) as [r|e].
  - destruct (data r) as [found|] eqn:Ed.
    + cbv zeta. rewrite createPriorityChart_returns, priorityChart_built.
      destruct (forallb _ (orEmpty found)) eqn:B.
      * split.
        -- split; [discriminate|]. intros (ticket & I & P).
           rewrite forallb_forall in B. specialize (B ticket I).
           apply negb_true_iff in B.
           assert (C : ChartTool.isPrototypeFunction (ChartTool.priorityLabel ticket)
                       = true).
           { unfold ChartTool.isPrototypeFunction. apply existsb_exists.
             eexists. split; [exact P | apply String.eqb_refl]. }
           congruence.
        -- intros r0 found0 _ _ _. eexists _, _, _, _. reflexivity.
      * split.
        -- split; [|reflexivity]. intros _.
           assert (C : exists ticket,
                      In ticket (orEmpty found)
                      /\ ChartTool.isPrototypeFunction (ChartTool.priorityLabel ticket)
                         = true).
           { clear - B. induction (orEmpty found) as [|t rest IH];
               [discriminate B|].
             cbn [forallb] in B. apply andb_false_iff in B as [B|B].
             - exists t. split; [now left | now apply negb_false_iff in B].
             - destruct (IH B) as (t' & I & P). exists t'. split; [now right | exact P]. }
           destruct C as (ticket & I & P). exists ticket. split; [exact I|].
           unfold ChartTool.isPrototypeFunction in P.
           apply existsb_exists in P as (name & J & E).
           apply String.eqb_eq in E. unfold ChartTool.priorityLabel in E.
           rewrite E. exact J.
        -- intros r0 found0 E D H. exfalso.
           inversion E; subst r0. rewrite Ed in D. inversion D; subst found0.
           assert (C : forallb
                         (fun t => negb (ChartTool.isPrototypeFunction
                                           (ChartTool.priorityLabel t)))
                         (orEmpty found) = true).
           { apply forallb_forall. intros t I. specialize (H t I).
             unfold ChartTool.inherited in H. apply orb_false_iff in H as [H _].
             unfold ChartTool.priorityLabel. now rewrite H. }
           congruence.
    + split; [split; reflexivity|]. intros r0 found0 E D.
      inversion E; subst r0. congruence.
  - split; [split; [trivial | reflexivity]|]. intros r0 found0 E. discriminate E.
Qed.

(** The store refuses the connection: one call, and the chart of
    [getErrorChart].  The store answers with two tickets, of which one has
    the priority "constructor": one call, and the same chart. *)
Lemma chart_tool_store_refused :
  ChartTool.generateAnalytics (Some "GoPro Hero") Examples.plannerRefused []
  = (Return (ChartTool.ErrorChart
               (ChartTool.getErrorChart "Failed to generate analytics")),
     [CallGraphql (Traces.analyticsQuery (Some "GoPro Hero"))])
  /\ ChartTool.generateAnalytics None Scenarios.oddStore []
     = (Return (ChartTool.ErrorChart
                  (ChartTool.getErrorChart "Failed to generate analytics")),
        [CallGraphql (Traces.analyticsQuery None)]).
Proof.
  split.
  - destruct (@chart_tool_asks_once (Some "GoPro Hero") Examples.plannerRefused [])
      as (charts & E & F & _).
    rewrite E. f_equal. f_equal. apply F. exact I.
  - destruct (@chart_tool_asks_once None Scenarios.oddStore [])
      as (charts & E & F & _).
    rewrite E. f_equal. f_equal. apply F.
    exists Scenarios.oddPriority. split; [right; now left | now left].
Defined.

(* ------------------------------------------------------------------------- *)
(** ** Further properties of the classification *)
(* ------------------------------------------------------------------------- *)

Section BraceSpan.

Import DelegatingAgent.

Lemma fromFirstOpen_app (pre rest : string) :
  hasChar 123 pre = false ->
  fromFirstOpen (pre ++ openBrace ++ rest) = Some (openBrace ++ rest).
Proof.
  induction pre as [|c pre IH]; intros H; [reflexivity|].
  simpl in H. apply orb_false_iff in H as [Hc Hp].
  cbn [append fromFirstOpen]. rewrite Hc. now apply IH.
Qed.

Lemma toLastClose_tail (post : string) :
  hasChar 125 post = false -> toLastClose post = None.
Proof.
  induction post as [|c post IH]; intros H; [reflexivity|].
  simpl in H. apply orb_false_iff in H as [Hc Hp].
  cbn [toLastClose]. now rewrite (IH Hp), Hc.
Qed.

Lemma toLastClose_app (body post : string) :
  hasChar 125 post = false ->
  toLastClose (body ++ closeBrace ++ post) = Some (body ++ closeBrace).
Proof.
  intros H. induction body as [|c body IH].
  - cbn [append closeBrace toLastClose]. unfold closeBrace.
    cbn [append toLastClose]. now rewrite (toLastClose_tail post H).
  - cbn [append toLastClose]. now rewrite IH.
Qed.

(** The pattern finds an object that stands between texts without
    braces. *)
Lemma matchBraces_app (pre mid post : string) :
  hasChar 123 pre = false ->
  hasChar 125 post = false ->
  matchBraces (pre ++ (openBrace ++ mid ++ closeBrace) ++ post)
  = Some (openBrace ++ mid ++ closeBrace).
Proof.
  intros Hp Hq. unfold matchBraces.
  rewrite !append_assoc, (fromFirstOpen_app pre _ Hp).
  rewrite <- (append_assoc openBrace mid), (toLastClose_app _ post Hq).
  now rewrite append_assoc.
Qed.

End BraceSpan.

(** X18.  An answer of the model that holds one JSON object, with text
    before it that has no opening brace and text after it that has no
    closing brace, is read as this object: the analysis is what [JSON.parse]
    makes of the text from the opening to the closing brace of the object. *)
Theorem object_in_prose_is_decoded :
  forall (pre mid post : string) (analysis : Json.value),
    hasChar 123 pre = false ->
    hasChar 125 post = false ->
    Json.parse (openBrace ++ mid ++ closeBrace) = Some analysis ->
    DelegatingAgent.parseJSONResponse
      (CText (pre ++ (openBrace ++ mid ++ closeBrace) ++ post))
    = analysis.
Proof.
  intros pre mid post analysis Hp Hq P.
  unfold DelegatingAgent.parseJSONResponse.
  now rewrite (matchBraces_app pre mid post Hp Hq), P.
Qed.

(** The decision that the prompt asks for, between two sentences: it is
    taken as it is. *)
Lemma object_in_prose_decision :
  DelegatingAgent.needsRAG
    (DelegatingAgent.parseJSONResponse (CText Scenarios.wrappedReply)) = true
  /\ DelegatingAgent.needsChart
       (DelegatingAgent.parseJSONResponse (CText Scenarios.wrappedReply)) = false.
Proof.
  pose proof (@object_in_prose_is_decoded
                "Sure. "
                (dq ++ "needsRAG" ++ dq ++ ": true, "
                 ++ dq ++ "needsChart" ++ dq ++ ": false, "
                 ++ dq ++ "reasoning" ++ dq ++ ": " ++ dq ++ "explanation" ++ dq)
                " Hope this helps."
                (Json.Obj
                   [ DelegatingAgent.member "needsRAG" (Json.Bool true);
                     DelegatingAgent.member "needsChart" (Json.Bool false);
                     DelegatingAgent.member "reasoning"
                       (Json.Str (Json.codes "explanation")) ])
                eq_refl eq_refl eq_refl) as H.
  change (DelegatingAgent.parseJSONResponse (CText Scenarios.wrappedReply)
          = Json.Obj
              [ DelegatingAgent.member "needsRAG" (Json.Bool true);
                DelegatingAgent.member "needsChart" (Json.Bool false);
                DelegatingAgent.member "reasoning"
                  (Json.Str (Json.codes "explanation")) ]) in H.
  rewrite H. split; reflexivity.
Defined.

(** X19.  The keyword analysis asks for a chart exactly when the lower-cased
    query holds one of the eleven words of its second pattern, or holds
    "show" and, further on and with no line break in between, "stat"; it
    asks for the retrieval exactly when the lower-cased query holds one of
    the sixteen words of its first pattern. A word counts wherever it
    occurs, inside a longer word as well. *)
Theorem keyword_analysis_by_occurrence :
  forall (userQuery : string) (err : JsError),
    let queryLower := toLowerCase userQuery in
    (DelegatingAgent.needsRAG (DelegatingAgent.keywordAnalysis userQuery err) = true
     <-> exists word before after,
           In word DelegatingAgent.issueWords
           /\ queryLower = before ++ word ++ after)
    /\ (DelegatingAgent.needsChart (DelegatingAgent.keywordAnalysis userQuery err) = true
        <-> (exists word before after,
                In word DelegatingAgent.analyticsWords
                /\ queryLower = before ++ word ++ after)
            \/ (exists before between after,
                   queryLower = before ++ "show" ++ between ++ "stat" ++ after
                   /\ hasChar 10 between = false
                   /\ hasChar 13 between = false)).
Proof.
  intros userQuery err queryLower.
  destruct (keywordAnalysis_decision userQuery err) as [R C].
  rewrite R, C. fold queryLower.
  rewrite issueKeywords_words, analyticsKeywords_words.
  rewrite orb_true_iff, !existsb_exists, test_showThenStat.
  split.
  - split.
    + intros (word & I & H). apply includes_spec in H as (before & after & E).
      exists word, before, after. auto.
    + intros (word & before & after & I & E). exists word. split; [exact I|].
      apply includes_spec. eauto.
  - split.
    + intros [(word & I & H)|H]; [left | right; exact H].
      apply includes_spec in H as (before & after & E).
      exists word, before, after. auto.
    + intros [(word & before & after & I & E)|H]; [left | right; exact H].
      exists word. split; [exact I|]. apply includes_spec. eauto.
Qed.

Section Vocabularies.

Import Regex.

Lemma updated_issueKeywords_words (s : string) :
  test DelegatingAgentUpdated.issueKeywords s
  = existsb (fun w => includes w s) DelegatingAgentUpdated.issueWords.
Proof. apply test_words. Qed.

Lemma updated_analyticsKeywords_words (s : string) :
  test DelegatingAgentUpdated.analyticsKeywords s
  = existsb (fun w => includes w s) DelegatingAgentUpdated.analyticsWords
    || test DelegatingAgent.showThenStat s.
Proof.
  unfold DelegatingAgentUpdated.analyticsKeywords. rewrite test_Alts.
  cbn [existsb DelegatingAgentUpdated.analyticsWords].
  rewrite !test_Lit.
  generalize (test DelegatingAgent.showThenStat s); intros b.
  repeat match goal with
         | |- context [includes ?w s] =>
             generalize (includes w s); intro
         end.
  btauto.
Qed.

Lemma updated_keywordAnalysis_decision (userQuery : string) :
  DelegatingAgent.needsRAG (DelegatingAgentUpdated.keywordAnalysis userQuery)
  = test DelegatingAgentUpdated.issueKeywords (toLowerCase userQuery)
  /\ DelegatingAgent.needsChart (DelegatingAgentUpdated.keywordAnalysis userQuery)
     = test DelegatingAgentUpdated.analyticsKeywords (toLowerCase userQuery).
Proof.
  unfold DelegatingAgent.needsRAG, DelegatingAgent.needsChart,
    DelegatingAgentUpdated.keywordAnalysis.
  generalize (test DelegatingAgentUpdated.issueKeywords (toLowerCase userQuery)).
  generalize (test DelegatingAgentUpdated.analyticsKeywords (toLowerCase userQuery)).
  intros a i. split; reflexivity.
Qed.

(** What is found in a list of words is found in a longer list. *)
Lemma existsb_more (f : string -> bool) (fewer more : list string) :
  forallb (fun w => existsb (String.eqb w) more) fewer = true ->
  existsb f fewer = true -> existsb f more = true.
Proof.
  intros S E. apply existsb_exists in E as (w & I & H).
  rewrite forallb_forall in S. specialize (S w I).
  apply existsb_exists in S as (w' & I' & Eq).
  apply String.eqb_eq in Eq. subst w'.
  apply existsb_exists. eauto.
Qed.

End Vocabularies.

(** X20.  The two vocabularies of the keyword analysis only grew from the
    "updated" to the "cleaned" version of the router: a query for which the
    older analysis asks for the retrieval, or for a chart, gets the same
    from the newer one, whatever the error of the model was; the converse
    fails, "broken" being one of the words that were added. *)
Theorem vocabulary_only_grew :
  forall (userQuery : string) (err : JsError),
    implb (DelegatingAgent.needsRAG (DelegatingAgentUpdated.keywordAnalysis userQuery))
          (DelegatingAgent.needsRAG (DelegatingAgent.keywordAnalysis userQuery err))
    = true
    /\ implb (DelegatingAgent.needsChart
                (DelegatingAgentUpdated.keywordAnalysis userQuery))
             (DelegatingAgent.needsChart
                (DelegatingAgent.keywordAnalysis userQuery err))
       = true
    /\ DelegatingAgent.needsRAG
         (DelegatingAgentUpdated.keywordAnalysis "My screen is broken") = false
    /\ DelegatingAgent.needsRAG
         (DelegatingAgent.keywordAnalysis "My screen is broken" err) = true.
Proof.
  intros userQuery err.
  destruct (keywordAnalysis_decision userQuery err) as [R C].
  destruct (updated_keywordAnalysis_decision userQuery) as [R' C'].
  rewrite R, C, R', C'.
  rewrite issueKeywords_words, analyticsKeywords_words,
    updated_issueKeywords_words, updated_analyticsKeywords_words.
  split; [|split; [|split]].
  - destruct (existsb _ DelegatingAgentUpdated.issueWords) eqn:E; [|reflexivity].
    cbn [implb]. revert E. now apply existsb_more.
  - destruct (Regex.test DelegatingAgent.showThenStat (toLowerCase userQuery)).
    + now rewrite !orb_true_r.
    + rewrite !orb_false_r.
      destruct (existsb _ DelegatingAgentUpdated.analyticsWords) eqn:E;
        [|reflexivity].
      cbn [implb]. revert E. now apply existsb_more.
  - reflexivity.
  - destruct (keywordAnalysis_decision "My screen is broken" err) as [R0 _].
    rewrite R0. reflexivity.
Qed.

(* ------------------------------------------------------------------------- *)
(** ** The legacy route of the "updated" router *)
(* ------------------------------------------------------------------------- *)

Section LegacyRoute.

Import DelegatingAgentUpdated.

Variable ragAgent_handleQuery : string -> option string -> M string.
Variable chartTool_generateAnalytics : option string -> M ChartTool.Charts.

Lemma analyzeQuery_run (query : string) (w : World) (tr : list Call) :
  analyzeQuery query w tr
  = (Return match llm_invoke w (analyzeQueryPrompt query) with
            | Resolves response =>
                let analysis := DelegatingAgent.parseJSONResponse response in
                {| needsRAG := Json.truthy (Json.get "needsRAG" analysis);
                   needsChart := Json.truthy (Json.get "needsChart" analysis) |}
            | Rejects _ => {| needsRAG := true; needsChart := false |}
            end,
     (tr ++ [CallLlm (analyzeQueryPrompt query)])%list).
Proof.
  unfold analyzeQuery. run_step.
  destruct (llm_invoke w (analyzeQueryPrompt query)); reflexivity.
Qed.

Lemma executeRAG_run (query : string) (tenant : option string)
  (w : World) (tr : list Call) :
  executeRAG ragAgent_handleQuery query tenant w tr
  = (Return match fst (ragAgent_handleQuery query tenant w tr) with
            | Return a => a
            | Throw _ => ragFailureAnswer
            end,
     snd (ragAgent_handleQuery query tenant w tr)).
Proof.
  unfold executeRAG, try_catch, ret.
  destruct (ragAgent_handleQuery query tenant w tr) as [[a|e] tr']; reflexivity.
Qed.

Lemma executeChart_run (tenant : option string) (w : World) (tr : list Call) :
  executeChart chartTool_generateAnalytics tenant w tr
  = (Return match fst (chartTool_generateAnalytics tenant w tr) with
            | Return c => c
            | Throw _ =>
                ChartTool.ErrorChart
                  (ChartTool.getErrorChart "Failed to generate analytics")
            end,
     snd (chartTool_generateAnalytics tenant w tr)).
Proof.
  unfold executeChart, try_catch, ret.
  destruct (chartTool_generateAnalytics tenant w tr) as [[c|e] tr']; reflexivity.
Qed.

(** The legacy route, step by step. *)
Lemma handleQueryLegacy_run
  (userQuery : string) (tenant : option string) (w : World) (tr : list Call) :
  let decision :=
    match llm_invoke w (analyzeQueryPrompt userQuery) with
    | Resolves response =>
        let analysis := DelegatingAgent.parseJSONResponse response in
        {| needsRAG := Json.truthy (Json.get "needsRAG" analysis);
           needsChart := Json.truthy (Json.get "needsChart" analysis) |}
    | Rejects _ => {| needsRAG := true; needsChart := false |}
    end in
  let tr0 := (tr ++ [CallLlm (analyzeQueryPrompt userQuery)])%list in
  let ragAnswer :=
    if needsRAG decision
    then Some match fst (ragAgent_handleQuery userQuery tenant w tr0) with
              | Return a => a
              | Throw _ => ragFailureAnswer
              end
    else None in
  let tr1 :=
    if needsRAG decision
    then snd (ragAgent_handleQuery userQuery tenant w tr0)
    else tr0 in
  let chartResult :=
    if needsChart decision
    then Some match fst (chartTool_generateAnalytics tenant w tr1) with
              | Return c => c
              | Throw _ =>
                  ChartTool.ErrorChart
                    (ChartTool.getErrorChart "Failed to generate analytics")
              end
    else None in
  let tr2 :=
    if needsChart decision
    then snd (chartTool_generateAnalytics tenant w tr1)
    else tr1 in
  handleQueryLegacy ragAgent_handleQuery chartTool_generateAnalytics
    userQuery tenant w tr
  = (Return {| answer := combineResults ragAnswer chartResult;
               references := None;
               chart := None |},
     tr2).
Proof.
  intros decision tr0 ragAnswer tr1 chartResult tr2.
  unfold handleQueryLegacy, try_catch, bind.
  rewrite analyzeQuery_run. fold decision. fold tr0.
  subst ragAnswer tr1 chartResult tr2.
  destruct (needsRAG decision).
  - rewrite executeRAG_run. unfold ret at 1.
    destruct (needsChart decision).
    + rewrite executeChart_run. reflexivity.
    + reflexivity.
  - unfold ret at 1.
    destruct (needsChart decision).
    + rewrite executeChart_run. reflexivity.
    + reflexivity.
Qed.

End LegacyRoute.

(** X21.  Whatever the retrieval tool and the chart tool do, be it throwing,
    the legacy route of the "updated" router returns, after having called
    the model for the analysis first, and what it returns is not the
    response of its [catch] block: it is an object with the text and nothing
    else, neither ticket references nor a chart, also when the chart tool
    was called; the text is the one [combineResults] writes from the answer
    of the retrieval and the charts. *)
Theorem legacy_route_answers_only :
  forall (rag : string -> option string -> M string)
         (charts : option string -> M ChartTool.Charts)
         (userQuery : string) (tenant : option string) (w : World) (tr : list Call),
    exists ragAnswer chartResult tr',
      DelegatingAgentUpdated.handleQueryLegacy rag charts userQuery tenant w tr
      = (Return
           {| DelegatingAgentUpdated.answer :=
                DelegatingAgentUpdated.combineResults ragAnswer chartResult;
              DelegatingAgentUpdated.references := None;
              DelegatingAgentUpdated.chart := None |},
         tr')
      /\ {| DelegatingAgentUpdated.answer :=
              DelegatingAgentUpdated.combineResults ragAnswer chartResult;
            DelegatingAgentUpdated.references := None;
            DelegatingAgentUpdated.chart := None |}
         <> DelegatingAgentUpdated.onError
      /\ (forall e tr1,
             rag userQuery tenant w
               (tr ++ [CallLlm (DelegatingAgentUpdated.analyzeQueryPrompt userQuery)])%list
             = (Throw e, tr1) ->
             ragAnswer = None
             \/ ragAnswer = Some DelegatingAgentUpdated.ragFailureAnswer).
Proof.
  intros rag charts userQuery tenant w tr.
  pose proof (handleQueryLegacy_run rag charts userQuery tenant w tr) as E.
  cbv zeta in E.
  eexists _, _, _. split; [exact E|]. split; [discriminate|].
  intros e tr1 H.
  destruct (DelegatingAgentUpdated.needsRAG _); [right | now left].
  now rewrite H.
Qed.

(** Both tools throw, and the model asks for both: the legacy route
    answers with the text on an error of the search and the summary. *)
Lemma legacy_route_broken_tools :
  exists ragAnswer chartResult tr',
    DelegatingAgentUpdated.handleQueryLegacy
      Scenarios.brokenLegacyTool Scenarios.brokenChartTool
      "Common battery problems, with charts" None
      (Examples.world (Examples.llmSays (Traces.decisionText true true))
         (Examples.found []) (Examples.found []) (Resolves None) (Examples.found []))
      []
    = (Return
         {| DelegatingAgentUpdated.answer :=
              DelegatingAgentUpdated.combineResults ragAnswer chartResult;
            DelegatingAgentUpdated.references := None;
            DelegatingAgentUpdated.chart := None |},
       tr')
    /\ (ragAnswer = None
        \/ ragAnswer = Some DelegatingAgentUpdated.ragFailureAnswer).
Proof.
  destruct (@legacy_route_answers_only
              Scenarios.brokenLegacyTool Scenarios.brokenChartTool
              "Common battery problems, with charts" None
              (Examples.world (Examples.llmSays (Traces.decisionText true true))
                 (Examples.found []) (Examples.found []) (Resolves None)
                 (Examples.found []))
              [])
    as (ragAnswer & chartResult & tr' & E & _ & F).
  exists ragAnswer, chartResult, tr'. split; [exact E|].
  eapply F. reflexivity.
Defined.

(** X22.  When the call of the model for the analysis is rejected, the
    legacy route runs the retrieval and nothing else: it makes no keyword
    analysis of the query and does not call the chart tool, whatever the
    query asks for. Its text is the answer of the retrieval tool, trimmed,
    when the tool returns an answer that is not empty; the fixed "could not
    find" text of the router when the tool returns the empty string; and the
    fixed text on an error of the search when the tool throws. *)
Theorem legacy_route_without_classifier :
  forall (rag : string -> option string -> M string)
         (charts : option string -> M ChartTool.Charts)
         (userQuery : string) (tenant : option string) (w : World) (tr : list Call)
         (err : JsError),
    llm_invoke w (DelegatingAgentUpdated.analyzeQueryPrompt userQuery) = Rejects err ->
    let tr0 :=
      (tr ++ [CallLlm (DelegatingAgentUpdated.analyzeQueryPrompt userQuery)])%list in
    let ragAnswer :=
      match fst (rag userQuery tenant w tr0) with
      | Return a => a
      | Throw _ => DelegatingAgentUpdated.ragFailureAnswer
      end in
    DelegatingAgentUpdated.handleQueryLegacy rag charts userQuery tenant w tr
    = (Return
         {| DelegatingAgentUpdated.answer :=
              trim (if (ragAnswer =? "")%string
                    then DelegatingAgent.nothingFoundAnswer
                    else ragAnswer);
            DelegatingAgentUpdated.references := None;
            DelegatingAgentUpdated.chart := None |},
       snd (rag userQuery tenant w tr0)).
Proof.
  intros rag charts userQuery tenant w tr err H tr0 ragAnswer.
  pose proof (handleQueryLegacy_run rag charts userQuery tenant w tr) as E.
  cbv zeta in E. rewrite H in E.
  cbn [DelegatingAgentUpdated.needsRAG DelegatingAgentUpdated.needsChart] in E.
  exact E.
Qed.

(** A request for statistics, the model out of quota and a retrieval tool
    that throws: the chart tool is not asked, and the text is the one on
    an error of the search. *)
Lemma legacy_route_statistics :
  DelegatingAgentUpdated.handleQueryLegacy
    Scenarios.brokenLegacyTool ChartTool.generateAnalytics
    "Show me ticket statistics" None Scenarios.storeUp []
  = (Return
       {| DelegatingAgentUpdated.answer := DelegatingAgentUpdated.ragFailureAnswer;
          DelegatingAgentUpdated.references := None;
          DelegatingAgentUpdated.chart := None |},
     [CallLlm (DelegatingAgentUpdated.analyzeQueryPrompt "Show me ticket statistics")]).
Proof.
  exact (@legacy_route_without_classifier
           Scenarios.brokenLegacyTool ChartTool.generateAnalytics
           "Show me ticket statistics" None Scenarios.storeUp []
           Examples.quotaExceeded eq_refl).
Defined.

(* ------------------------------------------------------------------------- *)
(** ** The route POST /query *)
(* ------------------------------------------------------------------------- *)

Section QueryRoute.

Lemma trim_length_zero (text : string) :
  (String.length (trim text) =? 0) = negb (hasInk text).
Proof.
  destruct (hasInk text) eqn:H.
  - pose proof (trim_nonempty text H) as N.
    destruct (trim text); [congruence | reflexivity].
  - now rewrite trim_blank.
Qed.

Lemma postQueryWith_blank
  (agent : string -> Server.TenantField -> string -> M DelegatingAgent.Response)
  (text : string) (tenant : Server.TenantField) (w : World) (tr : list Call) :
  hasInk text = false ->
  Server.postQueryWith agent
    (Some {| Server.query := Server.QueryText text; Server.tenant := tenant |}) w tr
  = (Return Server.invalidQuery, tr).
Proof.
  intros H. unfold Server.postQueryWith, try_catch. cbn [Server.query].
  rewrite trim_length_zero, H, orb_true_r. reflexivity.
Qed.

End QueryRoute.

(** X23.  A request whose body has no query, or a query that is not a
    string, or one that is empty or made of white space only, is answered
    with status 400 and the code INVALID_QUERY, whatever its tenant is, and
    the agent is not called: nothing is asked of the model or of the store. *)
Theorem invalid_query_is_refused :
  forall (agent : string -> Server.TenantField -> string -> M DelegatingAgent.Response)
         (body : Server.Body) (w : World) (tr : list Call),
    match Server.query body with
    | Server.QueryText text => hasInk text = false
    | _ => True
    end ->
    Server.postQueryWith agent (Some body) w tr
    = (Return (Server.Status400 "Invalid query. Please provide a non-empty string."
                                "INVALID_QUERY"),
       tr).
Proof.
  intros agent body w tr H.
  unfold Server.postQueryWith, try_catch.
  destruct (Server.query body) as [|text|]; try reflexivity.
  rewrite trim_length_zero, H, orb_true_r. reflexivity.
Qed.

(** A query of three spaces. *)
Lemma invalid_query_of_spaces :
  Server.postQuery Scenarios.strictClient
    (Some {| Server.query := Server.QueryText "   ";
             Server.tenant := Server.NoTenant |})
    Scenarios.storeUp []
  = (Return Server.invalidQuery, []).
Proof.
  exact (@invalid_query_is_refused (Server.agentOn Scenarios.strictClient)
           {| Server.query := Server.QueryText "   ";
              Server.tenant := Server.NoTenant |}
           Scenarios.storeUp [] eq_refl).
Defined.



(* ------------------------------------------------------------------------- *)
(** ** The tenant that is empty *)
(* ------------------------------------------------------------------------- *)

(** X25.  A tenant that is the empty string is no tenant: the router, the
    retrieval agent of either version and the chart tool do with it what
    they do with [null], in every world, and the route POST /query then
    reports the tenant "global"; the route does the same with a tenant that
    is [null], [false] or zero. *)
Theorem empty_tenant_is_no_tenant :
  forall (foreign : string -> Json.value -> string -> M DelegatingAgent.Response)
         (userQuery : string) (thread : string) (limit : N)
         (w : World) (tr : list Call),
    DelegatingAgent.handleQuery userQuery (Some "") thread w tr
    = DelegatingAgent.handleQuery userQuery None thread w tr
    /\ RAGAgentCleaned.handleQuery userQuery (Some "") limit w tr
       = RAGAgentCleaned.handleQuery userQuery None limit w tr
    /\ RAGAgentUpdated.handleQueryLegacy userQuery (Some "") limit w tr
       = RAGAgentUpdated.handleQueryLegacy userQuery None limit w tr
    /\ ChartTool.generateAnalytics (Some "") w tr
       = ChartTool.generateAnalytics None w tr
    /\ Server.postQuery foreign
         (Some {| Server.query := Server.QueryText userQuery;
                  Server.tenant := Server.TenantText "" |}) w tr
       = Server.postQuery foreign
           (Some {| Server.query := Server.QueryText userQuery;
                    Server.tenant := Server.NoTenant |}) w tr
    /\ (forall v,
           Json.truthy (Some v) = false ->
           Server.postQuery foreign
             (Some {| Server.query := Server.QueryText userQuery;
                      Server.tenant := Server.TenantOther v |}) w tr
           = Server.postQuery foreign
               (Some {| Server.query := Server.QueryText userQuery;
                        Server.tenant := Server.NoTenant |}) w tr)
    /\ (Server.postQuery foreign
          (Some {| Server.query := Server.QueryText userQuery;
                   Server.tenant := Server.NoTenant |}) w tr
        = (Return Server.invalidQuery, tr)
        \/ exists response tr',
             Server.postQuery foreign
               (Some {| Server.query := Server.QueryText userQuery;
                        Server.tenant := Server.NoTenant |}) w tr
             = (Return (Server.Status200
                          (DelegatingAgent.answer response)
                          (DelegatingAgent.references response)
                          (DelegatingAgent.chart response)
                          (Server.TenantText "global")),
                tr')).
Proof.
  intros foreign userQuery thread limit w tr.
  assert (S1 : RAGAgentCleaned.searchTickets userQuery (Some "") limit
               = RAGAgentCleaned.searchTickets userQuery None limit)
    by reflexivity.
  assert (S2 : RAGAgentUpdated.searchTickets userQuery (Some "") limit
               = RAGAgentUpdated.searchTickets userQuery None limit)
    by reflexivity.
  assert (G : ChartTool.generateAnalytics (Some "") = ChartTool.generateAnalytics None)
    by reflexivity.
  assert (R : forall l, RAGAgentCleaned.handleQuery userQuery (Some "") l
                        = RAGAgentCleaned.handleQuery userQuery None l)
    by reflexivity.
  assert (H : forall q th, DelegatingAgent.handleQuery q (Some "") th
                           = DelegatingAgent.handleQuery q None th).
  { intros q th. unfold DelegatingAgent.handleQuery, DelegatingAgent.handleQueryWith,
      DelegatingAgent.handleQueryBody, DelegatingAgent.combineResults.
    rewrite G. reflexivity. }
  split; [now rewrite H|]. split; [reflexivity|]. split; [reflexivity|].
  split; [now rewrite G|].
  split.
  { unfold Server.postQuery, Server.postQueryWith.
    cbn [Server.query Server.tenant Server.agentOn Server.logReceived].
    rewrite H. reflexivity. }
  split.
  { intros v F. unfold Server.postQuery, Server.postQueryWith.
    cbn [Server.query Server.tenant Server.agentOn Server.logReceived
         Server.plainTenant].
    unfold Server.tenantOrGlobal, Server.tenantTruthy. rewrite F. reflexivity. }
  destruct (hasInk userQuery) eqn:I.
  - right.
    destruct (@handleQuery_outline (trim userQuery) None "default" w tr)
      as (response & calls & E & _).
    exists response. eexists.
    unfold Server.postQuery, Server.postQueryWith, try_catch, bind, lift, ret.
    cbn [Server.query Server.tenant Server.agentOn Server.logReceived].
    rewrite trim_length_zero, I, orb_false_r.
    destruct (String.eqb_spec userQuery "") as [->|_]; [discriminate I|].
    rewrite E. reflexivity.
  - left. unfold Server.postQuery. now apply postQueryWith_blank.
Qed.

(** The body [{"query": "battery", "tenant": null}] is answered as the body
    [{"query": "battery"}] is. *)
Lemma null_tenant_is_no_tenant :
  Server.postQuery Scenarios.strictClient
    (Some {| Server.query := Server.QueryText "battery";
             Server.tenant := Server.TenantOther Json.Null |})
    Scenarios.storeUp []
  = Server.postQuery Scenarios.strictClient
      (Some {| Server.query := Server.QueryText "battery";
               Server.tenant := Server.NoTenant |})
      Scenarios.storeUp [].
Proof.
  destruct (@empty_tenant_is_no_tenant Scenarios.strictClient "battery" "default"
              10%N Scenarios.storeUp [])
    as (_ & _ & _ & _ & _ & F & _).
  exact (F Json.Null eq_refl).
Defined.

(* ------------------------------------------------------------------------- *)
(** ** The calls of a request: how many, and under which tenant *)
(* ------------------------------------------------------------------------- *)

Section RequestCalls.

Variables (userQuery : string) (tenant : option string).
Variable w : World.

(** The calls of the retrieval agent of the cleaned version. *)
Lemma cleaned_handleQuery_calls (limit : N) (tr : list Call) :
  let tier1 := CallGraphql (RAGAgentCleaned.semanticQuery userQuery tenant limit) in
  let tier2 := CallGraphql (RAGAgentCleaned.structuredQuery userQuery tenant limit) in
  let tier3 := CallGetter (RAGAgentCleaned.keywordFilter userQuery tenant) limit in
  exists tickets result searchCalls,
    RAGAgentCleaned.handleQuery userQuery tenant limit w tr
    = (Return result,
       (tr ++ searchCalls
           ++ match tickets with
              | [] => []
              | _ => [CallLlm (answerPrompt userQuery tickets)]
              end)%list)
    /\ (searchCalls = [tier1] \/ searchCalls = [tier1; tier2]
        \/ searchCalls = [tier1; tier2; tier3]).
Proof.
  intros tier1 tier2 tier3.
  destruct (cleaned_search_calls w userQuery tenant limit tr)
    as (tickets & calls & S & C).
  destruct (generateResponse_shape userQuery tickets w (tr ++ calls)%list)
    as (result & G & _).
  exists tickets, result, calls. split.
  - unfold RAGAgentCleaned.handleQuery, try_catch, bind. rewrite S, G.
    f_equal. destruct tickets; [now rewrite app_nil_r | now rewrite app_assoc].
  - destruct C as [C|[C|[C _]]]; auto.
Qed.

(** The same for the pipeline of src/agents/ragAgent.js. *)
Lemma updated_handleQueryLegacy_calls (limit : N) (tr : list Call) :
  let tier1 := CallGraphql (RAGAgentUpdated.semanticQuery userQuery tenant limit) in
  let tier2 := CallGraphql (RAGAgentUpdated.structuredQuery userQuery tenant limit) in
  let tier3 := CallGetter (RAGAgentUpdated.queryFilter userQuery tenant) limit in
  exists tickets result searchCalls,
    RAGAgentUpdated.handleQueryLegacy userQuery tenant limit w tr
    = (Return result,
       (tr ++ searchCalls
           ++ match tickets with
              | [] => []
              | _ => [CallLlm (answerPrompt userQuery tickets)]
              end)%list)
    /\ (searchCalls = [tier1] \/ searchCalls = [tier1; tier2]
        \/ searchCalls = [tier1; tier2; tier3]).
Proof.
  intros tier1 tier2 tier3.
  destruct (updated_search_calls w userQuery tenant limit tr)
    as (tickets & calls & S & C).
  destruct (generateResponse_shape userQuery tickets w (tr ++ calls)%list)
    as (result & G & _).
  exists tickets, result, calls. split.
  - unfold RAGAgentUpdated.handleQueryLegacy, try_catch, bind. rewrite S, G.
    f_equal. destruct tickets; [now rewrite app_nil_r | now rewrite app_assoc].
  - destruct C as [C|[C|[C _]]]; auto.
Qed.

(** The calls of the router: the analysis, the search, the answer, the
    analytics. *)
Lemma handleQuery_calls (thread : string) (tr : list Call) :
  let tier1 := CallGraphql (RAGAgentCleaned.semanticQuery userQuery tenant 10%N) in
  let tier2 := CallGraphql (RAGAgentCleaned.structuredQuery userQuery tenant 10%N) in
  let tier3 := CallGetter (RAGAgentCleaned.keywordFilter userQuery tenant) 10%N in
  exists response searchCalls answerCalls chartCalls,
    DelegatingAgent.handleQuery userQuery tenant thread w tr
    = (Return response,
       (tr ++ CallLlm (DelegatingAgent.analysisPrompt userQuery)
           :: searchCalls ++ answerCalls ++ chartCalls)%list)
    /\ (searchCalls = [] /\ answerCalls = []
        \/ (searchCalls = [tier1] \/ searchCalls = [tier1; tier2]
            \/ searchCalls = [tier1; tier2; tier3])
           /\ (answerCalls = []
               \/ exists tickets,
                    answerCalls = [CallLlm (answerPrompt userQuery tickets)]))
    /\ (chartCalls = [] \/ chartCalls = [CallGraphql (Traces.analyticsQuery tenant)]).
Proof.
  intros tier1 tier2 tier3.
  destruct (handleQuery_run userQuery tenant thread w tr)
    as (ragResult & chartResult & tr1 & tr2 & R & C & E).
  set (tr0 := (tr ++ [CallLlm (DelegatingAgent.analysisPrompt userQuery)])%list) in *.
  assert (R' : exists searchCalls answerCalls,
             tr1 = (tr0 ++ searchCalls ++ answerCalls)%list
             /\ (searchCalls = [] /\ answerCalls = []
                 \/ (searchCalls = [tier1] \/ searchCalls = [tier1; tier2]
                     \/ searchCalls = [tier1; tier2; tier3])
                    /\ (answerCalls = []
                        \/ exists tickets,
                             answerCalls = [CallLlm (answerPrompt userQuery tickets)]))).
  { destruct (DelegatingAgent.needsRAG _).
    - destruct R as (r & Er & _).
      destruct (cleaned_handleQuery_calls 10%N tr0)
        as (tickets & result & searchCalls & Es & Cs).
      rewrite Es in Er. inversion Er as [[Hr Ht]].
      eexists searchCalls, _. split; [reflexivity|]. right. split; [exact Cs|].
      destruct tickets; [now left | right; eauto].
    - destruct R as [_ ->]. exists [], []. split; [now rewrite app_nil_r|].
      now left. }
  destruct R' as (searchCalls & answerCalls & -> & Rc).
  assert (C' : exists chartCalls,
             tr2 = ((tr0 ++ searchCalls ++ answerCalls) ++ chartCalls)%list
             /\ (chartCalls = []
                 \/ chartCalls = [CallGraphql (Traces.analyticsQuery tenant)])).
  { destruct (DelegatingAgent.needsChart _).
    - destruct C as (c & Ec & _). rewrite generateAnalytics_run in Ec.
      apply pair_equal_spec in Ec as [_ <-]. eexists. split; [reflexivity|].
      now right.
    - destruct C as [_ ->]. exists []. split; [now rewrite app_nil_r | now left]. }
  destruct C' as (chartCalls & -> & Cc).
  eexists _, searchCalls, answerCalls, chartCalls. split; [|split; assumption].
  rewrite E. f_equal. subst tr0. now rewrite <- !app_assoc.
Qed.

End RequestCalls.

(** X26.  In every world a request makes six calls at most: the router calls
    the model once for the analysis, the retrieval agent reads the store for
    tickets three times at most, each time with the limit 10, and calls the
    model once at most for the answer, and the chart tool sends one query at
    most; so the model is called twice at most and the store four times at
    most, and nothing is retried. *)
Theorem request_call_budget :
  forall (userQuery : string) (tenant : option string) (thread : string)
         (w : World) (tr : list Call),
    exists response calls,
      DelegatingAgent.handleQuery userQuery tenant thread w tr
      = (Return response, (tr ++ calls)%list)
      /\ 1 <= List.length calls <= 6
      /\ 1 <= List.length (filter Traces.isLlmCall calls) <= 2
      /\ List.length (filter Traces.isRetrievalCall calls) <= 3
      /\ List.length (filter (fun c => negb (Traces.isLlmCall c)) calls) <= 4
      /\ Forall (fun c => Traces.isRetrievalCall c = true ->
                          Traces.callLimit c = Some 10%N) calls.
Proof.
  intros userQuery tenant thread w tr.
  destruct (handleQuery_calls userQuery tenant w thread tr)
    as (response & searchCalls & answerCalls & chartCalls & E & S & C).
  eexists _, _. split; [exact E|].
  destruct S as [[-> ->]|[S A]].
  - destruct C as [->| ->]; cbn; repeat split; try lia;
      repeat constructor; try discriminate.
  - destruct S as [->|[->| ->]];
      (destruct A as [->|(tickets & ->)]);
      (destruct C as [->| ->]); cbn;
      repeat split; try lia;
      repeat (constructor; [first [discriminate | reflexivity]|]); constructor.
Qed.

(** X27.  With a tenant that is not empty, every call with which a request
    reads the store is made under the tenant: the semantic query and the
    analytics query carry the filter "product equals tenant", the structured
    query and the call of the object getter carry it as the first operand of
    a conjunction with the keyword filter. This holds for the router and for
    the retrieval agent of either version. *)
Theorem tenant_scopes_every_store_call :
  forall (userQuery : string) (t : string) (thread : string) (limit : N)
         (w : World) (tr : list Call),
    t <> "" ->
    (exists response calls,
        DelegatingAgent.handleQuery userQuery (Some t) thread w tr
        = (Return response, (tr ++ calls)%list)
        /\ Forall (Traces.callScoped t) calls)
    /\ (exists result calls,
           RAGAgentCleaned.handleQuery userQuery (Some t) limit w tr
           = (Return result, (tr ++ calls)%list)
           /\ Forall (Traces.callScoped t) calls)
    /\ (exists result calls,
           RAGAgentUpdated.handleQueryLegacy userQuery (Some t) limit w tr
           = (Return result, (tr ++ calls)%list)
           /\ Forall (Traces.callScoped t) calls).
Proof.
  intros userQuery t thread limit w tr N.
  assert (G : tenantGiven (Some t) = Some t).
  { unfold tenantGiven. now destruct (String.eqb_spec t ""). }
  assert (T1 : forall l,
             Traces.callScoped t
               (CallGraphql (RAGAgentCleaned.semanticQuery userQuery (Some t) l))).
  { intros l. cbn [Traces.callScoped RAGAgentCleaned.semanticQuery withWhere].
    rewrite G. eexists. split; [reflexivity | now left]. }
  assert (F3 : Traces.filterScoped t
                 (RAGAgentCleaned.keywordFilter userQuery (Some t))).
  { unfold RAGAgentCleaned.keywordFilter. rewrite G. right. eauto. }
  assert (F3' : Traces.filterScoped t (RAGAgentUpdated.queryFilter userQuery (Some t))).
  { unfold RAGAgentUpdated.queryFilter. rewrite G. right. eauto. }
  assert (T2 : forall l,
             Traces.callScoped t
               (CallGraphql (RAGAgentCleaned.structuredQuery userQuery (Some t) l))).
  { intros l. eexists. split; [reflexivity | exact F3]. }
  assert (T2' : forall l,
             Traces.callScoped t
               (CallGraphql (RAGAgentUpdated.structuredQuery userQuery (Some t) l))).
  { intros l. eexists. split; [reflexivity | exact F3']. }
  assert (TA : Traces.callScoped t (CallGraphql (Traces.analyticsQuery (Some t)))).
  { cbn [Traces.callScoped Traces.analyticsQuery withWhere].
    rewrite G. eexists. split; [reflexivity | now left]. }
  split; [|split].
  - destruct (handleQuery_calls userQuery (Some t) w thread tr)
      as (response & searchCalls & answerCalls & chartCalls & E & S & C).
    eexists _, _. split; [exact E|].
    constructor; [exact I|].
    apply Forall_app. split; [|apply Forall_app; split].
    + destruct S as [[-> _]|[[->|[->| ->]] _]];
        repeat (constructor; [first [apply T1 | apply T2 | exact F3]|]);
        constructor.
    + destruct S as [[_ ->]|[_ [->|(tickets & ->)]]];
        repeat (constructor; [exact I|]); constructor.
    + destruct C as [->| ->]; [constructor|].
      constructor; [exact TA | constructor].
  - destruct (cleaned_handleQuery_calls userQuery (Some t) w limit tr)
      as (tickets & result & searchCalls & E & S).
    eexists _, _. split; [exact E|].
    apply Forall_app. split.
    + destruct S as [->|[->| ->]];
        repeat (constructor; [first [apply T1 | apply T2 | exact F3]|]);
        constructor.
    + destruct tickets; [constructor|]. constructor; [exact I | constructor].
  - destruct (updated_handleQueryLegacy_calls userQuery (Some t) w limit tr)
      as (tickets & result & searchCalls & E & S).
    eexists _, _. split; [exact E|].
    apply Forall_app. split.
    + destruct S as [->|[->| ->]];
        repeat (constructor; [first [apply T1 | apply T2' | exact F3']|]);
        constructor.
    + destruct tickets; [constructor|]. constructor; [exact I | constructor].
Qed.

(** The tenant "GoPro Hero", the vectorizer down and nothing found by
    the keywords: the three tiers are asked, each under the tenant. *)
Lemma tenant_scopes_keyword_miss :
  exists result calls,
    RAGAgentCleaned.handleQuery "battery drains" (Some "GoPro Hero") 10%N
      Examples.keywordMiss []
    = (Return result, calls)
    /\ Forall (Traces.callScoped "GoPro Hero") calls.
Proof.
  destruct (@tenant_scopes_every_store_call "battery drains" "GoPro Hero" "t-5"
              10%N Examples.keywordMiss [])
    as (_ & (result & calls & E & F) & _).
  - discriminate.
  - exists result, calls. split; [exact E | exact F].
Defined.
